(** * atflow.dataset: batch generator, Dataset and MultiDataset

    A shallow embedding of [atflow/dataset.py].  Python objects become
    records, mutation becomes explicit state passing in a small
    state-and-exception monad, the generator [batchify] becomes a step
    function on its suspended frame, and the two external collaborators
    (the array library and the process-wide random generator) are
    interfaces with a reference instance each. *)

From Stdlib Require Import ZArith Lia Floats String.
From stdpp Require Import base list sorting pretty.

Set Default Proof Using "Type".

(** ** Exceptions *)

(** The exceptions the module can raise, one constructor per raise site
    or per kind raised by a collaborator. *)
Inductive exn : Type :=
| BatchSizeError (samples : nat)
    (* ValueError('Batch size must be smaller than or equal to total
       number of samples ({samples})') *)
| SameBatchError (what : string)
    (* ValueError('All ... must share same batch size') *)
| StructureError
    (* nest: ValueError / TypeError on structures that do not match *)
| EmptySequenceError
    (* ValueError: min() arg is an empty sequence *)
| UnpackError
    (* ValueError: not enough values to unpack *)
| FloatToIntError
    (* ValueError: cannot convert float NaN to integer *)
| OverflowError
| IndexError
| TypeError
| AttributeError
| NumpyError.
    (* errors of the array library: bad seed, bad axis, shapes that do
       not broadcast *)

Inductive result (A : Type) : Type :=
| Ok (a : A)
| Raise (e : exn).
Arguments Ok {A} a.
Arguments Raise {A} e.

Definition is_ok {A} (r : result A) : bool :=
  match r with Ok _ => true | Raise _ => false end.

Definition rbind {A B} (r : result A) (k : A -> result B) : result B :=
  match r with Ok a => k a | Raise e => Raise e end.

Notation "x <-- r ;; k" := (rbind r (fun x => k))
  (at level 100, r at next level, right associativity).

(** ** State and exceptions

    A computation over a mutable state [S]; an exception keeps the state
    reached when it was raised, as a Python exception does. *)
Definition M (S A : Type) : Type := S -> result A * S.

Definition ret {S A} (a : A) : M S A := fun s => (Ok a, s).
Definition raise {S A} (e : exn) : M S A := fun s => (Raise e, s).
Definition bind {S A B} (m : M S A) (k : A -> M S B) : M S B :=
  fun s => match m s with
           | (Ok a, s') => k a s'
           | (Raise e, s') => (Raise e, s')
           end.
Definition get {S} : M S S := fun s => (Ok s, s).
Definition gets {S A} (f : S -> A) : M S A := fun s => (Ok (f s), s).
Definition modify {S} (f : S -> S) : M S unit := fun s => (Ok tt, f s).
Definition lift_result {S A} (r : result A) : M S A := fun s => (r, s).

Notation "x <- m ;; k" := (bind m (fun x => k))
  (at level 100, m at next level, right associativity).
Notation "m ;;; k" := (bind m (fun _ => k))
  (at level 100, right associativity).

(** [for x in xs: body(x)], collecting the results. *)
Fixpoint mapM_ {S A B} (f : A -> M S B) (xs : list A) : M S (list B) :=
  match xs with
  | [] => ret []
  | x :: xs' => y <- f x ;; ys <- mapM_ f xs' ;; ret (y :: ys)
  end.

(** The same for a computation with no state. *)
Fixpoint map_result {A B} (f : A -> result B) (xs : list A)
  : result (list B) :=
  match xs with
  | [] => Ok []
  | x :: xs' => y <-- f x ;; ys <-- map_result f xs' ;; Ok (y :: ys)
  end.

(** ** Python slices and indexing *)

(** The bound of a slice, clipped as Python clips it: a negative bound
    counts from the end. *)
Definition clip (len i : Z) : Z :=
  if (i <? 0)%Z then Z.max 0 (i + len) else Z.min i len.

(** [l[lo:hi]] with step 1; [None] is an omitted bound. *)
Definition py_slice {A} (l : list A) (lo hi : option Z) : list A :=
  let n := Z.of_nat (length l) in
  let a := match lo with None => 0%Z | Some i => clip n i end in
  let b := match hi with None => n | Some j => clip n j end in
  take (Z.to_nat (b - a)) (drop (Z.to_nat a) l).

(** [x[indices]] with a sequence of non-negative indices: gathers rows
    along the first axis, IndexError when an index is out of bounds. *)
Definition np_take {A} (x : list A) (indices : list nat) : result (list A) :=
  map_result (fun i => match x !! i with
                       | Some r => Ok r
                       | None => Raise IndexError
                       end) indices.

(** [sorted(...)] on indices. *)
Definition sorted (l : list nat) : list nat := merge_sort le l.

(** [min(...)] over a generator of counts. *)
Definition py_min (l : list nat) : result nat :=
  match l with
  | [] => Raise EmptySequenceError
  | x :: l' => Ok (foldl Nat.min x l')
  end.

(** ** Python floats *)

(** [float(n)] for the length [n] of a sequence, which is below 2^63
    in Python and so converts without overflow. *)
Definition float_of_len (n : nat) : float :=
  PrimFloat.of_uint63 (Uint63.of_Z (Z.of_nat n)).

(** [round(x)] with one argument: the nearest integer, ties to even. *)
Definition py_round (x : float) : result Z :=
  match Prim2SF x with
  | S754_zero _ => Ok 0%Z
  | S754_finite s m e =>
      let mag :=
        if (0 <=? e)%Z then (Z.pos m * 2 ^ e)%Z
        else
          let d := (2 ^ (- e))%Z in
          let q := (Z.pos m / d)%Z in
          let r := (Z.pos m mod d)%Z in
          match (2 * r ?= d)%Z with
          | Lt => q
          | Gt => (q + 1)%Z
          | Eq => if Z.even q then q else (q + 1)%Z
          end in
      Ok (if s then (- mag)%Z else mag)
  | S754_infinity _ => Raise OverflowError
  | S754_nan => Raise FloatToIntError
  end.

(** [round(n * frac)] for an int [n] and a float [frac]. *)
Definition round_mul (n : nat) (frac : float) : result Z :=
  py_round (float_of_len n * frac)%float.

(** ** Nested structures (tensorflow's [nest]) *)

Inductive kind : Type := KTuple | KList.

Definition kind_eqb (k k' : kind) : bool :=
  match k, k' with
  | KTuple, KTuple | KList, KList => true
  | _, _ => false
  end.

(** A structure of tuples and lists; a leaf is anything that is not a
    sequence. *)
#[local] Unset Elimination Schemes.
Inductive nest (A : Type) : Type :=
| Leaf (a : A)
| Node (k : kind) (ts : list (nest A)).
#[local] Set Elimination Schemes.
Arguments Leaf {A} a.
Arguments Node {A} k ts.

Fixpoint flatten {A} (t : nest A) : list A :=
  match t with
  | Leaf a => [a]
  | Node _ ts => concat (map flatten ts)
  end.

Fixpoint same_structure {A B} (s : nest A) (t : nest B) : bool :=
  match s, t with
  | Leaf _, Leaf _ => true
  | Node k ss, Node k' ts =>
      kind_eqb k k' &&
      (fix go (ss : list (nest A)) (ts : list (nest B)) : bool :=
         match ss, ts with
         | [], [] => true
         | s' :: ss', t' :: ts' => same_structure s' t' && go ss' ts'
         | _, _ => false
         end) ss ts
  | _, _ => false
  end.

Definition assert_same_structure {A B} (s : nest A) (t : nest B)
  : result unit :=
  if same_structure s t then Ok tt else Raise StructureError.

(** Refills the leaves of [s] from [flat], left to right; returns the
    leaves not used. *)
Fixpoint pack_aux {A B} (s : nest A) (flat : list B)
  : option (nest B * list B) :=
  match s with
  | Leaf _ =>
      match flat with
      | x :: rest => Some (Leaf x, rest)
      | [] => None
      end
  | Node k ss =>
      match
        (fix go (ss : list (nest A)) (flat : list B)
           : option (list (nest B) * list B) :=
           match ss with
           | [] => Some ([], flat)
           | s' :: ss' =>
               match pack_aux s' flat with
               | Some (t', rest) =>
                   match go ss' rest with
                   | Some (ts', rest') => Some (t' :: ts', rest')
                   | None => None
                   end
               | None => None
               end
           end) ss flat
      with
      | Some (ts, rest) => Some (Node k ts, rest)
      | None => None
      end
  end.

Definition pack_sequence_as {A B} (structure : nest A) (flat_sequence : list B)
  : result (nest B) :=
  if length (flatten structure) =? length flat_sequence then
    match pack_aux structure flat_sequence with
    | Some (t, _) => Ok t
    | None => Raise StructureError
    end
  else Raise StructureError.

(** A flat Python list of leaves, as a structure. *)
Definition of_list {A} (l : list A) : nest A := Node KList (map Leaf l).

(** [x.copy()] on a structure: an array and a list have the method, a
    tuple does not.  A list is copied shallowly and an array by value;
    no code of the module writes into an array, so both are the same
    value again. *)
Definition py_copy {A} (t : nest A) : result (nest A) :=
  match t with
  | Leaf a => Ok (Leaf a)
  | Node KList ts => Ok (Node KList ts)
  | Node KTuple _ => Raise AttributeError
  end.

(** ** The collaborators *)

(** The array library.  An array is the list of its rows along the first
    (batch) axis, so that [len], slicing and gathering are list
    operations; what happens inside a row (arithmetic with broadcasting,
    reductions) is left to the library. *)
Class ArrayLib : Type := {
  Row : Type;
  scalar : Type;
  axis : Type;
  tensor_shape : Type;
  (* x.ndim *)
  np_ndim : list Row -> nat;
  (* tuple(range(k)) as an axis argument *)
  axis_range : nat -> axis;
  (* np.mean(x, axis=axis, keepdims=True) *)
  np_mean : list Row -> axis -> result (list Row);
  (* np.std(x, axis=axis, ddof=1, keepdims=True) *)
  np_std : list Row -> axis -> result (list Row);
  (* np.mean(x) and np.std(x, ddof=1) *)
  np_mean_all : list Row -> scalar;
  np_std_all : list Row -> scalar;
  (* x - y and x / y *)
  np_sub : list Row -> list Row -> result (list Row);
  np_div : list Row -> list Row -> result (list Row);
  (* tf.TensorShape(atflow.misc.batchify_shape(x.shape)) *)
  batchify_shape : list Row -> tensor_shape;
}.

Abbreviation ndarray := (list Row).

(** The process-wide generator behind [np.random]. *)
Class RandomLib : Type := {
  rng : Type;
  (* the state np.random.seed(seed) leaves *)
  np_random_seed : Z -> result rng;
  (* np.random.permutation(n): the array drawn and the state left *)
  np_random_permutation : nat -> rng -> list nat * rng;
  np_random_permutation_perm :
    forall n g, (np_random_permutation n g).1 ≡ₚ seq 0 n;
}.

(** ** [batchify] *)

Module Batchify.
Section Generator.
Context {A : Type} `{RandomLib}.

(** Where the generator is suspended. *)
Inductive frame : Type :=
| Created
    (* the body has not been entered *)
| AtYield (perm : list nat) (pos : Z) (epoch : Z)
    (* at a [yield] that goes round the loop, the locals already
       updated *)
| AtLastYield
    (* at the [yield] that is followed by [return] *)
| Finished.

Variable data : nest (list A).
Variable batchsize : Z.
Variable n_epochs : Z.
Variable shuffle : bool.
Variable cutoff : bool.

Definition flat_data : list (list A) := flatten data.

Definition get_data (indicies : list nat) : result (nest (list A)) :=
  batch <-- map_result (fun x => np_take x indicies) flat_data ;;
  pack_sequence_as data batch.

Definition get_perm (N : nat) : M (frame * rng) (list nat) :=
  if shuffle then
    fun s => let (p, g) := np_random_permutation N s.2 in (Ok p, (s.1, g))
  else ret (seq 0 N).

Definition suspend (f : frame) : M (frame * rng) unit :=
  modify (fun s => (f, s.2)).

(** One turn of the [while] loop; every turn ends in a [yield] or in
    the end of the body. *)
Definition turn (N : nat) (perm : list nat) (pos epoch : Z)
  : M (frame * rng) (option (nest (list A))) :=
  if (n_epochs <=? 0)%Z || (epoch <? n_epochs - 1)%Z
     || (pos <? Z.of_nat N)%Z then
    if (pos + batchsize >? Z.of_nat N)%Z then
      if (epoch =? n_epochs - 1)%Z then
        if negb cutoff then
          b <- lift_result (get_data (py_slice perm (Some pos) None)) ;;
          suspend AtLastYield ;;;
          ret (Some b)
        else ret None
      else
        let missing := (pos + batchsize - Z.of_nat N)%Z in
        let pos1 := py_slice perm (Some pos) None in
        perm' <- get_perm N ;;
        let pos2 := py_slice perm' None (Some missing) in
        b <- lift_result (get_data (pos1 ++ pos2)) ;;
        suspend (AtYield perm' missing (epoch + 1)%Z) ;;;
        ret (Some b)
    else
      b <- lift_result
             (get_data (py_slice perm (Some pos) (Some (pos + batchsize)%Z))) ;;
      suspend (AtYield perm (pos + batchsize)%Z epoch) ;;;
      ret (Some b)
  else ret None.

(** [next(gen)]: [Some batch] for a yielded batch, [None] for
    StopIteration.  The frame is marked finished on entry and
    suspended again at a yield, so a generator that raised or returned
    stays finished. *)
Definition next : M (frame * rng) (option (nest (list A))) :=
  f <- gets fst ;;
  suspend Finished ;;;
  match f with
  | Created =>
      N <- lift_result (match flat_data with
                        | x :: _ => Ok (length x)
                        | [] => Raise IndexError
                        end) ;;
      perm <- get_perm N ;;
      turn N perm 0 0
  | AtYield perm pos epoch =>
      match flat_data with
      | x :: _ => turn (length x) perm pos epoch
      | [] => raise IndexError
      end
  | AtLastYield => ret None
  | Finished => ret None
  end.

(** How a bounded consumption of the generator ended. *)
Inductive outcome : Type :=
| Exhausted               (* StopIteration *)
| Failed (e : exn)
| Pending.                (* more batches may follow *)

(** [itertools.islice(gen, fuel)] collected in a list. *)
Fixpoint run (fuel : nat) (s : frame * rng)
  : list (nest (list A)) * outcome * (frame * rng) :=
  match fuel with
  | 0 => ([], Pending, s)
  | S fuel' =>
      match next s with
      | (Ok (Some b), s') =>
          let '(bs, o, s'') := run fuel' s' in (b :: bs, o, s'')
      | (Ok None, s') => ([], Exhausted, s')
      | (Raise e, s') => ([], Failed e, s')
      end
  end.
End Generator.
End Batchify.

(** ** [Dataset] *)

Module Dataset.
Section Dataset.
Context `{ArrayLib} `{RandomLib}.

(** What a normalizer closure captures; [None] in the field
    [normalizer] is the initial [lambda data: data]. *)
Record closure : Type := {
  inputs_mean : list ndarray;
  inputs_std : list ndarray;
  control : list bool;
}.

(** The attributes of a [Dataset] object.  The optional test and
    validation sets are given and kept as inputs and targets together;
    [info], which nothing reads, is left out. *)
Record t : Type := {
  _inputs_label : list string;
  _targets_label : list string;
  _inputs_shape : list tensor_shape;
  _targets_shape : list tensor_shape;
  inputs_structure : nest nat;
  targets_structure : nest nat;
  (* set only by an automatic split *)
  train_idx : option (list nat);
  validation_idx : option (list nat);
  _train_inputs : list ndarray;
  _train_targets : list ndarray;
  _validation_inputs : option (list ndarray);
  _validation_targets : option (list ndarray);
  _test_inputs : option (list ndarray);
  _test_targets : option (list ndarray);
  _inputs_mean : list ndarray;
  _inputs_std : list ndarray;
  _inputs_stationary_mean : list scalar;
  _inputs_stationary_std : list scalar;
  minibatch_idx : Z;
  train_perm : list nat;
  _minibatch_indicies : option (list nat);
  normalizer : option closure;
}.

(** Attribute assignments. *)
Definition set_stats (m s : list ndarray) (sm ss : list scalar) (d : t) : t :=
  {| _inputs_label := _inputs_label d; _targets_label := _targets_label d;
     _inputs_shape := _inputs_shape d; _targets_shape := _targets_shape d;
     inputs_structure := inputs_structure d;
     targets_structure := targets_structure d;
     train_idx := train_idx d; validation_idx := validation_idx d;
     _train_inputs := _train_inputs d; _train_targets := _train_targets d;
     _validation_inputs := _validation_inputs d;
     _validation_targets := _validation_targets d;
     _test_inputs := _test_inputs d; _test_targets := _test_targets d;
     _inputs_mean := m; _inputs_std := s;
     _inputs_stationary_mean := sm; _inputs_stationary_std := ss;
     minibatch_idx := minibatch_idx d; train_perm := train_perm d;
     _minibatch_indicies := _minibatch_indicies d;
     normalizer := normalizer d |}.

Definition set_train_inputs (v : list ndarray) (d : t) : t :=
  {| _inputs_label := _inputs_label d; _targets_label := _targets_label d;
     _inputs_shape := _inputs_shape d; _targets_shape := _targets_shape d;
     inputs_structure := inputs_structure d;
     targets_structure := targets_structure d;
     train_idx := train_idx d; validation_idx := validation_idx d;
     _train_inputs := v; _train_targets := _train_targets d;
     _validation_inputs := _validation_inputs d;
     _validation_targets := _validation_targets d;
     _test_inputs := _test_inputs d; _test_targets := _test_targets d;
     _inputs_mean := _inputs_mean d; _inputs_std := _inputs_std d;
     _inputs_stationary_mean := _inputs_stationary_mean d;
     _inputs_stationary_std := _inputs_stationary_std d;
     minibatch_idx := minibatch_idx d; train_perm := train_perm d;
     _minibatch_indicies := _minibatch_indicies d;
     normalizer := normalizer d |}.

Definition set_test_inputs (v : option (list ndarray)) (d : t) : t :=
  {| _inputs_label := _inputs_label d; _targets_label := _targets_label d;
     _inputs_shape := _inputs_shape d; _targets_shape := _targets_shape d;
     inputs_structure := inputs_structure d;
     targets_structure := targets_structure d;
     train_idx := train_idx d; validation_idx := validation_idx d;
     _train_inputs := _train_inputs d; _train_targets := _train_targets d;
     _validation_inputs := _validation_inputs d;
     _validation_targets := _validation_targets d;
     _test_inputs := v; _test_targets := _test_targets d;
     _inputs_mean := _inputs_mean d; _inputs_std := _inputs_std d;
     _inputs_stationary_mean := _inputs_stationary_mean d;
     _inputs_stationary_std := _inputs_stationary_std d;
     minibatch_idx := minibatch_idx d; train_perm := train_perm d;
     _minibatch_indicies := _minibatch_indicies d;
     normalizer := normalizer d |}.

Definition set_validation_inputs (v : option (list ndarray)) (d : t) : t :=
  {| _inputs_label := _inputs_label d; _targets_label := _targets_label d;
     _inputs_shape := _inputs_shape d; _targets_shape := _targets_shape d;
     inputs_structure := inputs_structure d;
     targets_structure := targets_structure d;
     train_idx := train_idx d; validation_idx := validation_idx d;
     _train_inputs := _train_inputs d; _train_targets := _train_targets d;
     _validation_inputs := v;
     _validation_targets := _validation_targets d;
     _test_inputs := _test_inputs d; _test_targets := _test_targets d;
     _inputs_mean := _inputs_mean d; _inputs_std := _inputs_std d;
     _inputs_stationary_mean := _inputs_stationary_mean d;
     _inputs_stationary_std := _inputs_stationary_std d;
     minibatch_idx := minibatch_idx d; train_perm := train_perm d;
     _minibatch_indicies := _minibatch_indicies d;
     normalizer := normalizer d |}.

Definition set_normalizer (v : option closure) (d : t) : t :=
  {| _inputs_label := _inputs_label d; _targets_label := _targets_label d;
     _inputs_shape := _inputs_shape d; _targets_shape := _targets_shape d;
     inputs_structure := inputs_structure d;
     targets_structure := targets_structure d;
     train_idx := train_idx d; validation_idx := validation_idx d;
     _train_inputs := _train_inputs d; _train_targets := _train_targets d;
     _validation_inputs := _validation_inputs d;
     _validation_targets := _validation_targets d;
     _test_inputs := _test_inputs d; _test_targets := _test_targets d;
     _inputs_mean := _inputs_mean d; _inputs_std := _inputs_std d;
     _inputs_stationary_mean := _inputs_stationary_mean d;
     _inputs_stationary_std := _inputs_stationary_std d;
     minibatch_idx := minibatch_idx d; train_perm := train_perm d;
     _minibatch_indicies := _minibatch_indicies d;
     normalizer := v |}.

(** The three attributes of the cursor, assigned together. *)
Definition set_cursor (i : Z) (p : list nat) (last : option (list nat))
    (d : t) : t :=
  {| _inputs_label := _inputs_label d; _targets_label := _targets_label d;
     _inputs_shape := _inputs_shape d; _targets_shape := _targets_shape d;
     inputs_structure := inputs_structure d;
     targets_structure := targets_structure d;
     train_idx := train_idx d; validation_idx := validation_idx d;
     _train_inputs := _train_inputs d; _train_targets := _train_targets d;
     _validation_inputs := _validation_inputs d;
     _validation_targets := _validation_targets d;
     _test_inputs := _test_inputs d; _test_targets := _test_targets d;
     _inputs_mean := _inputs_mean d; _inputs_std := _inputs_std d;
     _inputs_stationary_mean := _inputs_stationary_mean d;
     _inputs_stationary_std := _inputs_stationary_std d;
     minibatch_idx := i; train_perm := p;
     _minibatch_indicies := last;
     normalizer := normalizer d |}.

Definition set_minibatch_idx (i : Z) (d : t) : t :=
  set_cursor i (train_perm d) (_minibatch_indicies d) d.
Definition set_train_perm (p : list nat) (d : t) : t :=
  set_cursor (minibatch_idx d) p (_minibatch_indicies d) d.
Definition set_minibatch_indicies (v : option (list nat)) (d : t) : t :=
  set_cursor (minibatch_idx d) (train_perm d) v d.

(** A method runs on [self] and on the generator of [np.random]. *)
Definition method (A : Type) : Type := M (t * rng) A.

Definition self {A} (f : t -> A) : method A := gets (fun s => f s.1).
Definition assign (f : t -> t) : method unit :=
  modify (fun s => (f s.1, s.2)).

(** Calls into [np.random], which both the constructor and the methods
    make. *)
Definition random_seed (seed : Z) : M rng unit :=
  fun g => match np_random_seed seed with
           | Ok g' => (Ok tt, g')
           | Raise e => (Raise e, g)
           end.

Definition random_permutation (n : nat) : M rng (list nat) :=
  fun g => let (p, g') := np_random_permutation n g in (Ok p, g').

Definition global {A} (m : M rng A) : method A :=
  fun s => let (r, g') := m s.2 in (r, (s.1, g')).

(** [if seed:] holds for a seed that is neither None nor 0. *)
Definition truthy (seed : option Z) : bool :=
  match seed with
  | Some s => negb (s =? 0)%Z
  | None => false
  end.

Definition seed_if_truthy (seed : option Z) : M rng unit :=
  match seed with
  | Some s => if truthy seed then random_seed s else ret tt
  | None => ret tt
  end.

(** *** Properties *)

Definition inputs_label (d : t) : result (nest string) :=
  pack_sequence_as (inputs_structure d) (_inputs_label d).
Definition targets_label (d : t) : result (nest string) :=
  pack_sequence_as (targets_structure d) (_targets_label d).

Definition train_inputs (d : t) : result (nest ndarray) :=
  pack_sequence_as (inputs_structure d) (_train_inputs d).
Definition train_targets (d : t) : result (nest ndarray) :=
  pack_sequence_as (targets_structure d) (_train_targets d).

Definition pack_optional {A B} (structure : nest A) (v : option (list B))
  : result (option (nest B)) :=
  match v with
  | None => Ok None
  | Some flat => x <-- pack_sequence_as structure flat ;; Ok (Some x)
  end.

Definition test_inputs (d : t) : result (option (nest ndarray)) :=
  pack_optional (inputs_structure d) (_test_inputs d).
Definition test_targets (d : t) : result (option (nest ndarray)) :=
  pack_optional (targets_structure d) (_test_targets d).
Definition validation_inputs (d : t) : result (option (nest ndarray)) :=
  pack_optional (inputs_structure d) (_validation_inputs d).
Definition validation_targets (d : t) : result (option (nest ndarray)) :=
  pack_optional (targets_structure d) (_validation_targets d).

Definition n_train_samples (d : t) : result nat :=
  match _train_inputs d with
  | x :: _ => Ok (length x)
  | [] => Raise IndexError
  end.

Definition n_optional_samples (v : option (list ndarray)) : result nat :=
  match v with
  | None => Ok 0
  | Some (x :: _) => Ok (length x)
  | Some [] => Raise IndexError
  end.

Definition n_test_samples (d : t) : result nat :=
  n_optional_samples (_test_inputs d).
Definition n_validation_samples (d : t) : result nat :=
  n_optional_samples (_validation_inputs d).

Definition train_set (d : t) : result (nest ndarray * nest ndarray) :=
  x <-- train_inputs d ;; y <-- train_targets d ;; Ok (x, y).

Definition test_set (d : t)
  : result (option (nest ndarray) * option (nest ndarray)) :=
  x <-- test_inputs d ;; y <-- test_targets d ;; Ok (x, y).

Definition validation_set (d : t)
  : result (option (nest ndarray) * option (nest ndarray)) :=
  x <-- validation_inputs d ;; y <-- validation_targets d ;; Ok (x, y).



(** *** [update_stats] *)

Definition get_stats (inputs : ndarray) (ax : option axis)
  : result (ndarray * ndarray * scalar * scalar) :=
  let ax := match ax with
            | None => axis_range (Nat.max (np_ndim inputs - 1) 1)
            | Some a => a
            end in
  mean <-- np_mean inputs ax ;;
  std <-- np_std inputs ax ;;
  Ok (mean, std, np_mean_all inputs, np_std_all inputs).

Definition update_stats (ax : option axis) : method unit :=
  xs <- self _train_inputs ;;
  stats <- lift_result (map_result (fun x => get_stats x ax) xs) ;;
  match stats with
  | [] => raise UnpackError
  | _ :: _ =>
      assign (set_stats (map (fun s => s.1.1.1) stats)
                        (map (fun s => s.1.1.2) stats)
                        (map (fun s => s.1.2) stats)
                        (map (fun s => s.2) stats))
  end.

(** *** [normalize] *)

(** The comprehension over [zip(flat_data, inputs_mean, inputs_std,
    control)], which stops at the shortest of the four. *)
Fixpoint normalize_leaves (flat_data means stds : list ndarray)
    (ctl : list bool) : result (list ndarray) :=
  match flat_data, means, stds, ctl with
  | d :: ds, mu :: mus, sigma :: sigmas, c :: cs =>
      x <-- (if c : bool then (y <-- np_sub d mu ;; np_div y sigma)
             else Ok d) ;;
      xs <-- normalize_leaves ds mus sigmas cs ;;
      Ok (x :: xs)
  | _, _, _, _ => Ok []
  end.

Definition normalize_inputs (c : closure) (data : nest ndarray)
  : result (nest ndarray) :=
  let flat_data := flatten data in
  normalized_data <--
    normalize_leaves flat_data (inputs_mean c) (inputs_std c) (control c) ;;
  pack_sequence_as data normalized_data.

(** Calling the stored [normalizer]. *)
Definition apply_normalizer (n : option closure) (data : nest ndarray)
  : result (nest ndarray) :=
  match n with
  | None => Ok data
  | Some c => normalize_inputs c data
  end.

Definition normalize (ax : option axis) (ctl : option (nest bool))
  : method unit :=
  update_stats ax ;;;
  n_leaves <- self (fun d => length (_train_inputs d)) ;;
  let ctl := match ctl with
             | None => replicate n_leaves true
             | Some c => flatten c
             end in
  means <- self _inputs_mean ;;
  stds <- self _inputs_std ;;
  let normalize_inputs :=
    normalize_inputs
      {| inputs_mean := means; inputs_std := stds; control := ctl |} in
  assign (set_normalizer
            (Some {| inputs_mean := means; inputs_std := stds;
                     control := ctl |})) ;;;
  train <- self _train_inputs ;;
  train' <- lift_result (normalize_inputs (of_list train)) ;;
  assign (set_train_inputs (flatten train')) ;;;
  test <- self _test_inputs ;;
  match test with
  | Some test =>
      test' <- lift_result (normalize_inputs (of_list test)) ;;
      assign (set_test_inputs (Some (flatten test')))
  | None => ret tt
  end ;;;
  validation <- self _validation_inputs ;;
  match validation with
  | Some validation =>
      validation' <- lift_result (normalize_inputs (of_list validation)) ;;
      assign (set_validation_inputs (Some (flatten validation')))
  | None => ret tt
  end ;;;
  update_stats ax.

(** *** [next_epoch] and [minibatch] *)

Definition next_epoch (seed : option Z) : method unit :=
  assign (set_minibatch_idx 0) ;;;
  global (seed_if_truthy seed) ;;;
  d <- self id ;;
  n <- lift_result (n_train_samples d) ;;
  perm <- global (random_permutation n) ;;
  assign (set_train_perm perm).

Definition minibatch (batch_size : Z)
  : method (nest ndarray * nest ndarray) :=
  d <- self id ;;
  n <- lift_result (n_train_samples d) ;;
  if (batch_size >? Z.of_nat n)%Z then raise (BatchSizeError n)
  else
    _ <- lift_result (train_set d) ;;
    (if (minibatch_idx d + batch_size >? Z.of_nat n)%Z
     then next_epoch None else ret tt) ;;;
    d <- self id ;;
    let idx := py_slice (train_perm d) (Some (minibatch_idx d))
                        (Some (minibatch_idx d + batch_size)%Z) in
    assign (set_minibatch_indicies (Some idx)) ;;;
    assign (set_minibatch_idx (minibatch_idx d + batch_size)%Z) ;;;
    xs <- lift_result
            (map_result (fun x => np_take x idx) (_train_inputs d)) ;;
    batch_inputs <- lift_result (pack_sequence_as (inputs_structure d) xs) ;;
    ts <- lift_result
            (map_result (fun x => np_take x idx) (_train_targets d)) ;;
    batch_targets <- lift_result
                       (pack_sequence_as (targets_structure d) ts) ;;
    ret (batch_inputs, batch_targets).

Definition minibatch_indicies (d : t) : option (list nat) :=
  _minibatch_indicies d.

(** *** [__init__] *)

Definition has_same_batch (data : list ndarray) : result bool :=
  match data with
  | x :: rest => Ok (forallb (fun y => length y =? length x) rest)
  | [] => Raise IndexError
  end.

(** The block that verifies an optional set against the structures of
    the training data; the constructor has it once for the test set
    and once for the validation set. *)
Definition verify_optional (message : string)
    (inputs_structure targets_structure : nest nat)
    (set : option (nest ndarray * nest ndarray))
  : result (option (list ndarray * list ndarray)) :=
  match set with
  | None => Ok None
  | Some (set_inputs, set_targets) =>
      _ <-- assert_same_structure set_inputs inputs_structure ;;
      _ <-- assert_same_structure set_targets targets_structure ;;
      let set_inputs := flatten set_inputs in
      let set_targets := flatten set_targets in
      same <-- has_same_batch (set_inputs ++ set_targets) ;;
      if same : bool then Ok (Some (set_inputs, set_targets))
      else Raise (SameBatchError message)
  end.

Definition default_labels (prefix : string) (n : nat) : list string :=
  map (fun i => prefix +:+ pretty i) (seq 0 n).

Definition labels_for {A} (prefix : string) (label : option (nest string))
    (data : nest A) : result (list string) :=
  match label with
  | None => Ok (default_labels prefix (length (flatten data)))
  | Some label =>
      _ <-- assert_same_structure label data ;; Ok (flatten label)
  end.

Definition is_None {A} (x : option A) : bool :=
  match x with None => true | Some _ => false end.

(** What the branch that prepares the validation set leaves in
    [train_idx], [validation_idx] and the four local lists. *)
Record prepared : Type := {
  p_train_idx : option (list nat);
  p_validation_idx : option (list nat);
  p_train_inputs : list ndarray;
  p_train_targets : list ndarray;
  p_validation : option (list ndarray * list ndarray);
}.

Definition prepare_validation (flat_inputs flat_targets : list ndarray)
    (n_inputs : nat) (validation : option (list ndarray * list ndarray))
    (seed : option Z) (train_frac : float) : M rng prepared :=
  if is_None validation && (0 <? train_frac)%float then
    seed_if_truthy seed ;;;
    perm <- random_permutation n_inputs ;;
    split <- lift_result (round_mul n_inputs train_frac) ;;
    let train_idx := sorted (py_slice perm None (Some split)) in
    let validation_idx := sorted (py_slice perm (Some split) None) in
    validation_inputs <- lift_result
      (map_result (fun x => np_take x validation_idx) flat_inputs) ;;
    validation_targets <- lift_result
      (map_result (fun x => np_take x validation_idx) flat_targets) ;;
    train_inputs <- lift_result
      (map_result (fun x => np_take x train_idx) flat_inputs) ;;
    train_targets <- lift_result
      (map_result (fun x => np_take x train_idx) flat_targets) ;;
    ret {| p_train_idx := Some train_idx;
           p_validation_idx := Some validation_idx;
           p_train_inputs := train_inputs;
           p_train_targets := train_targets;
           p_validation := Some (validation_inputs, validation_targets) |}
  else
    ret {| p_train_idx := None;
           p_validation_idx := None;
           p_train_inputs := flat_inputs;
           p_train_targets := flat_targets;
           p_validation := validation |}.

(** The attributes the constructor has assigned when it calls
    [update_stats]; those it assigns later hold a placeholder. *)
Definition assemble (inputs_label targets_label : list string)
    (flat_inputs flat_targets : list ndarray)
    (inputs_structure targets_structure : nest nat) (p : prepared)
    (test : option (list ndarray * list ndarray)) : t :=
  {| _inputs_label := inputs_label;
     _targets_label := targets_label;
     _inputs_shape := map batchify_shape flat_inputs;
     _targets_shape := map batchify_shape flat_targets;
     inputs_structure := inputs_structure;
     targets_structure := targets_structure;
     train_idx := p_train_idx p;
     validation_idx := p_validation_idx p;
     _train_inputs := p_train_inputs p;
     _train_targets := p_train_targets p;
     _validation_inputs := fst <$> p_validation p;
     _validation_targets := snd <$> p_validation p;
     _test_inputs := fst <$> test;
     _test_targets := snd <$> test;
     _inputs_mean := [];
     _inputs_std := [];
     _inputs_stationary_mean := [];
     _inputs_stationary_std := [];
     minibatch_idx := 0;
     train_perm := [];
     _minibatch_indicies := None;
     normalizer := None |}.

(** The end of the constructor, from [self.update_stats()] on, run on
    the object with the attributes assigned so far. *)
Definition finish_init : method unit :=
  update_stats None ;;;
  d <- self id ;;
  n <- lift_result (n_train_samples d) ;;
  assign (set_cursor 0 (seq 0 n) None) ;;;
  next_epoch None ;;;
  assign (set_normalizer None).

Definition init (inputs targets : nest ndarray)
    (test validation : option (nest ndarray * nest ndarray))
    (seed : option Z) (train_frac : float)
    (inputs_label targets_label : option (nest string)) : M rng t :=
  let flat_inputs := flatten inputs in
  let flat_targets := flatten targets in
  inputs_label <- lift_result (labels_for "inputs" inputs_label inputs) ;;
  targets_label <- lift_result (labels_for "targets" targets_label targets) ;;
  n_inputs <- lift_result (match flat_inputs with
                           | x :: _ => Ok (length x)
                           | [] => Raise IndexError
                           end) ;;
  same <- lift_result (has_same_batch (flat_inputs ++ flat_targets)) ;;
  if negb same then
    raise (SameBatchError
             "All inputs and targets must share same batch size")
  else
    inputs_structure <- lift_result
      (pack_sequence_as inputs (seq 0 (length flat_inputs))) ;;
    targets_structure <- lift_result
      (pack_sequence_as targets (seq 0 (length flat_targets))) ;;
    test <- lift_result
      (verify_optional
         "All test inputs and targets must share same batch size"
         inputs_structure targets_structure test) ;;
    validation <- lift_result
      (verify_optional
         "All validation inputs and targets must share same batch size"
         inputs_structure targets_structure validation) ;;
    p <- prepare_validation flat_inputs flat_targets n_inputs validation
           seed train_frac ;;
    let d := assemble inputs_label targets_label flat_inputs flat_targets
               inputs_structure targets_structure p test in
    fun g => match finish_init (d, g) with
             | (Ok _, (d', g')) => (Ok d', g')
             | (Raise e, (_, g')) => (Raise e, g')
             end.

(** *** [copy] *)

(** The two halves of an optional set, as the arguments of the
    constructor; inputs without targets do not pass its checks. *)
Definition both {A} (inputs targets : option A) : result (option (A * A)) :=
  match inputs, targets with
  | Some x, Some y => Ok (Some (x, y))
  | Some _, None => Raise TypeError
  | None, _ => Ok None
  end.

(** The default of [train_frac], the double nearest to 0.8. *)
Definition default_train_frac : float := 0x1.999999999999ap-1%float.

Definition copy : method t :=
  d <- self id ;;
  x <- lift_result (train_inputs d) ;;
  inputs <- lift_result (py_copy x) ;;
  y <- lift_result (train_targets d) ;;
  targets <- lift_result (py_copy y) ;;
  vi <- lift_result (validation_inputs d) ;;
  vt <- lift_result (validation_targets d) ;;
  ti <- lift_result (test_inputs d) ;;
  tt <- lift_result (test_targets d) ;;
  test <- lift_result (both ti tt) ;;
  validation <- lift_result (both vi vt) ;;
  global (init inputs targets test validation None default_train_frac
            None None).
End Dataset.
End Dataset.

(** ** [MultiDataset] *)

Module MultiDataset.

(** The [Dataset] objects alive, by address.  A [MultiDataset] holds
    addresses, so the same object may be held twice. *)
Abbreviation heap := (list Dataset.t).
Abbreviation world := (list Dataset.t * rng)%type.

Section MultiDataset.
Context `{ArrayLib} `{RandomLib}.

Record t : Type := {
  _datasets : list nat;
  (* the list [normalizers] that [normalize_all] captures *)
  normalizer : option (list (option Dataset.closure));
}.

(** The constructor, on the addresses of the datasets given. *)
Definition init (datasets : list nat) : t :=
  {| _datasets := datasets; normalizer := None |}.

(** A method call on the object at address [d]. *)
Definition call {A} (d : nat) (m : Dataset.method A) : M world A :=
  fun w =>
    match w.1 !! d with
    | Some o =>
        match m (o, w.2) with
        | (r, (o', g')) => (r, (<[d := o']> w.1, g'))
        end
    | None => (Raise AttributeError, w)   (* no object: not reached *)
    end.

(** A property read on the object at address [d]. *)
Definition read {A} (f : Dataset.t -> result A) (d : nat) : M world A :=
  call d (o <- Dataset.self id ;; lift_result (f o)).

Definition inputs_label (md : t) :=
  mapM_ (read Dataset.inputs_label) (_datasets md).
Definition targets_label (md : t) :=
  mapM_ (read Dataset.targets_label) (_datasets md).
Definition train_inputs (md : t) :=
  mapM_ (read Dataset.train_inputs) (_datasets md).
Definition train_targets (md : t) :=
  mapM_ (read Dataset.train_targets) (_datasets md).
Definition test_inputs (md : t) :=
  mapM_ (read Dataset.test_inputs) (_datasets md).
Definition test_targets (md : t) :=
  mapM_ (read Dataset.test_targets) (_datasets md).
Definition validation_inputs (md : t) :=
  mapM_ (read Dataset.validation_inputs) (_datasets md).
Definition validation_targets (md : t) :=
  mapM_ (read Dataset.validation_targets) (_datasets md).

Definition update_stats (md : t) (ax : option axis) : M world unit :=
  mapM_ (fun d => call d (Dataset.update_stats ax)) (_datasets md) ;;;
  ret tt.

Definition normalize (md : t) (ax : option axis) : M world t :=
  normalizers <-
    mapM_ (fun d => call d (Dataset.normalize ax None) ;;;
                    read (fun o => Ok (Dataset.normalizer o)) d)
          (_datasets md) ;;
  ret {| _datasets := _datasets md; normalizer := Some normalizers |}.

(** [normalize_all]: [zip] stops at the shorter of the two lists. *)
Fixpoint normalize_all (normalizers : list (option Dataset.closure))
    (data : list (nest ndarray)) : result (list (nest ndarray)) :=
  match data, normalizers with
  | d :: data', n :: normalizers' =>
      x <-- Dataset.apply_normalizer n d ;;
      xs <-- normalize_all normalizers' data' ;;
      Ok (x :: xs)
  | _, _ => Ok []
  end.

Definition n_train_samples (md : t) : M world nat :=
  ns <- mapM_ (read Dataset.n_train_samples) (_datasets md) ;;
  lift_result (py_min ns).

Definition n_test_samples (md : t) : M world nat :=
  ns <- mapM_ (read Dataset.n_test_samples) (_datasets md) ;;
  lift_result (py_min ns).

Definition n_validation_samples (md : t) : M world nat :=
  ns <- mapM_ (read Dataset.n_validation_samples) (_datasets md) ;;
  lift_result (py_min ns).

(** Unzips a list of pairs into the two names on the left of the
    assignment. *)
Definition unzip2 {A B} (pairs : list (A * B)) : result (list A * list B) :=
  match pairs with
  | [] => Raise UnpackError
  | _ :: _ => Ok (map fst pairs, map snd pairs)
  end.

Definition minibatch (md : t) (batch_size : Z)
  : M world (list (nest ndarray) * list (nest ndarray)) :=
  n <- n_train_samples md ;;
  if (batch_size >? Z.of_nat n)%Z then raise (BatchSizeError n)
  else
    minibatches <-
      mapM_ (fun dataset => call dataset (Dataset.minibatch batch_size))
            (_datasets md) ;;
    lift_result (unzip2 minibatches).

Definition next_epoch (md : t) (seed : option Z) : M world unit :=
  mapM_ (fun d => call d (Dataset.next_epoch seed)) (_datasets md) ;;;
  ret tt.
End MultiDataset.
End MultiDataset.

(** ** Reference instances of the collaborators *)

Module Reference.

(** *** A generator: a linear congruential state, and a permutation
    built by inserting each index at a drawn position. *)

Definition lcg (g : Z) : Z := ((1103515245 * g + 12345) mod 2 ^ 31)%Z.

Definition insert_at {A} (k : nat) (x : A) (l : list A) : list A :=
  take k l ++ x :: drop k l.

Fixpoint shuffle (l : list nat) (g : Z) : list nat * Z :=
  match l with
  | [] => ([], g)
  | x :: l' =>
      let (p, g') := shuffle l' g in
      let g'' := lcg g' in
      (insert_at (Z.to_nat (g'' mod (Z.of_nat (length p) + 1))) x p, g'')
  end.

Definition seed (s : Z) : result Z :=
  if ((0 <=? s) && (s <? 2 ^ 32))%Z then Ok s else Raise NumpyError.

Definition permutation (n : nat) (g : Z) : list nat * Z :=
  shuffle (seq 0 n) g.

(** *** One-dimensional arrays of doubles, of shape [(N,)]. *)

Definition fsum (x : list float) : float := foldl PrimFloat.add 0%float x.

Definition count (n : nat) : float :=
  PrimFloat.of_uint63 (Uint63.of_Z (Z.of_nat n)).

Definition mean_all (x : list float) : float :=
  (fsum x / count (length x))%float.

Definition std_all (x : list float) : float :=
  let m := mean_all x in
  let sq := map (fun v => ((v - m) * (v - m))%float) x in
  PrimFloat.sqrt (fsum sq / count (length x - 1))%float.

(** An axis argument is a tuple of ints; a one-dimensional array has
    the axis 0 (also written -1). *)
Definition mean (x : list float) (ax : list Z) : result (list float) :=
  match ax with
  | [] => Ok x
  | [a] => if ((a =? 0) || (a =? -1))%Z then Ok [mean_all x]
           else Raise NumpyError
  | _ => Raise NumpyError
  end.

Definition std (x : list float) (ax : list Z) : result (list float) :=
  match ax with
  | [] => Ok (map (fun _ => PrimFloat.nan) x)
  | [a] => if ((a =? 0) || (a =? -1))%Z then Ok [std_all x]
           else Raise NumpyError
  | _ => Raise NumpyError
  end.

(** An operation applied elementwise, broadcasting a length of one. *)
Definition broadcast (op : float -> float -> float) (x y : list float)
  : result (list float) :=
  match x, y with
  | [a], _ => Ok (map (op a) y)
  | _, [b] => Ok (map (fun a => op a b) x)
  | _, _ => if length x =? length y then Ok (zip_with op x y)
            else Raise NumpyError
  end.
End Reference.

#[export] Instance reference_random : RandomLib.
Proof.
  refine {| rng := Z;
            np_random_seed := Reference.seed;
            np_random_permutation := Reference.permutation |}.
  intros n g. unfold Reference.permutation.
  generalize (seq 0 n) as l. induction l as [|x l IH]; simpl; [done|].
  destruct (Reference.shuffle l g) as [p g'] eqn:E. simpl in *.
  unfold Reference.insert_at.
  rewrite <- Permutation_middle. rewrite take_drop. by constructor.
Defined.

#[export] Instance reference_array : ArrayLib := {|
  Row := float;
  scalar := float;
  axis := list Z;
  tensor_shape := list (option nat);
  np_ndim := fun _ => 1;
  axis_range := fun k => map Z.of_nat (seq 0 k);
  np_mean := Reference.mean;
  np_std := Reference.std;
  np_mean_all := Reference.mean_all;
  np_std_all := Reference.std_all;
  np_sub := Reference.broadcast PrimFloat.sub;
  np_div := Reference.broadcast PrimFloat.div;
  batchify_shape := fun _ => [None];
|}.

(** ** Predicates used by the statements *)

(** The sign of a float is [s], or the float is not a number. *)
Definition signed_as (s : bool) (x : spec_float) : Prop :=
  match x with
  | S754_zero s' | S754_infinity s' | S754_finite s' _ _ => s' = s
  | S754_nan => True
  end.

(** Every leaf of a batch has [n] rows. *)
Definition has_size {A} (n : nat) (b : nest (list A)) : Prop :=
  Forall (fun leaf => length leaf = n) (flatten b).

Section Predicates.
Context `{ArrayLib} `{RandomLib}.

(** The invariant of a constructed [Dataset] with [n] training
    samples, as far as serving minibatches needs it. *)
Record well_formed (n : nat) (d : Dataset.t) : Prop := {
  wf_some_leaf : Dataset._train_inputs d <> [];
  wf_inputs : Forall (fun x => length x = n) (Dataset._train_inputs d);
  wf_targets : Forall (fun x => length x = n) (Dataset._train_targets d);
  wf_inputs_structure :
    length (flatten (Dataset.inputs_structure d))
    = length (Dataset._train_inputs d);
  wf_targets_structure :
    length (flatten (Dataset.targets_structure d))
    = length (Dataset._train_targets d);
  wf_perm : Dataset.train_perm d ≡ₚ seq 0 n;
}.

(** What [normalize] leaves alone. *)
Definition untouched (d : Dataset.t) :=
  (Dataset._train_targets d, Dataset._test_targets d,
   Dataset._validation_targets d,
   Dataset._inputs_label d, Dataset._targets_label d,
   Dataset.inputs_structure d, Dataset.targets_structure d).

(** A method that leaves them alone, whatever its outcome. *)
Definition preserves {A} (m : Dataset.method A) : Prop :=
  forall s, untouched (m s).2.1 = untouched s.1.

(** [ys] is [xs] with the transform of closure [c] applied leaf by
    leaf. *)
Definition normalized_by (c : Dataset.closure) (xs ys : list ndarray)
  : Prop :=
  length ys = length xs /\
  forall i x, xs !! i = Some x ->
    exists y mu sigma (on : bool),
      ys !! i = Some y /\
      Dataset.inputs_mean c !! i = Some mu /\
      Dataset.inputs_std c !! i = Some sigma /\
      Dataset.control c !! i = Some on /\
      if on then exists z, np_sub x mu = Ok z /\ np_div z sigma = Ok y
      else y = x.

Definition option_normalized_by (c : Dataset.closure)
    (xs ys : option (list ndarray)) : Prop :=
  match xs, ys with
  | None, None => True
  | Some xs, Some ys => normalized_by c xs ys
  | _, _ => False
  end.

(** [calls] calls of [minibatch(b)] in a row, reading
    [minibatch_indicies] after each. *)
Fixpoint serve (calls : nat) (b : Z) : Dataset.method (list (list nat)) :=
  match calls with
  | 0 => ret []
  | S calls' =>
      Dataset.minibatch b ;;;
      last <- Dataset.self Dataset.minibatch_indicies ;;
      rest <- serve calls' b ;;
      ret (default [] last :: rest)
  end.

(** [m] is the least of [ns]. *)
Definition minimum (m : nat) (ns : list nat) : Prop :=
  m ∈ ns /\ Forall (fun n => m <= n) ns.

(** The counts of the dataset at address [l] in the heap [h]: [c] is
    its numbers of training, test and validation samples. *)
Definition counts (h : MultiDataset.heap) (l : nat) (c : nat * nat * nat)
  : Prop :=
  exists o, h !! l = Some o
            /\ well_formed c.1.1 o
            /\ Dataset.n_test_samples o = Ok c.1.2
            /\ Dataset.n_validation_samples o = Ok c.2.

(** The calls [MultiDataset.minibatch] makes on the datasets at
    addresses [ds], one after the other, and what they return. *)
Inductive served (b : Z)
  : list nat -> MultiDataset.world
    -> list (nest ndarray * nest ndarray) -> MultiDataset.world -> Prop :=
| served_nil w : served b [] w [] w
| served_cons l ls h g o r o' g' rs w :
    h !! l = Some o ->
    Dataset.minibatch b (o, g) = (Ok r, (o', g')) ->
    served b ls (<[l := o']> h, g') rs w ->
    served b (l :: ls) (h, g) (r :: rs) w.
End Predicates.

(** ** Further predicates *)

(** The sizes of the batches that cut [R] samples into batches of [B]:
    whole batches, then the rest unless it is cut off or empty. *)
Definition chunk_sizes (R B : Z) (cutoff : bool) : list nat :=
  replicate (Z.to_nat (R / B)) (Z.to_nat B)
  ++ (if cutoff || (R mod B =? 0)%Z then [] else [Z.to_nat (R mod B)]).

(** Leaf [j] of every batch, the batches put end to end. *)
Definition leaf_column {A} (j : nat) (bs : list (nest (list A))) : list A :=
  concat (map (fun b => default [] (flatten b !! j)) bs).

(** [t] is a tuple at the top. *)
Definition is_tuple {A} (t : nest A) : bool :=
  match t with
  | Node KTuple _ => true
  | _ => false
  end.

Section FurtherPredicates.
Context `{ArrayLib} `{RandomLib}.

(** A [Dataset] with its cursor blanked: two objects that agree on it
    differ in [minibatch_idx], [train_perm] and [minibatch_indicies] at
    most. *)
Definition beside_cursor (d : Dataset.t) : Dataset.t :=
  Dataset.set_cursor 0 [] None d.

(** The same for the four statistics. *)
Definition beside_stats (d : Dataset.t) : Dataset.t :=
  Dataset.set_stats [] [] [] [] d.

(** The cursor, the indices of the split and the generator. *)
Definition cursor_and_generator (s : Dataset.t * rng) :=
  (Dataset.minibatch_idx s.1, Dataset.train_perm s.1,
   Dataset._minibatch_indicies s.1, Dataset.train_idx s.1,
   Dataset.validation_idx s.1, s.2).

(** A method that leaves [f] of the state as it was, whatever its
    outcome. *)
Definition keeps {A X} (f : Dataset.t * rng -> X) (m : Dataset.method A)
  : Prop :=
  forall s, f (m s).2 = f s.


(** One entry per leaf in every per-leaf attribute. *)
Record aligned (ni nt : nat) (d : Dataset.t) : Prop := {
  al_inputs_structure : length (flatten (Dataset.inputs_structure d)) = ni;
  al_targets_structure : length (flatten (Dataset.targets_structure d)) = nt;
  al_inputs_label : length (Dataset._inputs_label d) = ni;
  al_targets_label : length (Dataset._targets_label d) = nt;
  al_inputs_shape : length (Dataset._inputs_shape d) = ni;
  al_targets_shape : length (Dataset._targets_shape d) = nt;
  al_train_inputs : length (Dataset._train_inputs d) = ni;
  al_train_targets : length (Dataset._train_targets d) = nt;
  al_mean : length (Dataset._inputs_mean d) = ni;
  al_std : length (Dataset._inputs_std d) = ni;
  al_stationary_mean : length (Dataset._inputs_stationary_mean d) = ni;
  al_stationary_std : length (Dataset._inputs_stationary_std d) = ni;
  al_test_inputs :
    forall v, Dataset._test_inputs d = Some v -> length v = ni;
  al_test_targets :
    forall v, Dataset._test_targets d = Some v -> length v = nt;
  al_validation_inputs :
    forall v, Dataset._validation_inputs d = Some v -> length v = ni;
  al_validation_targets :
    forall v, Dataset._validation_targets d = Some v -> length v = nt;
}.

(** An optional test or validation set that the constructor accepts
    beside [inputs] and [targets]: nested as they are, and with one
    number of rows in all its leaves. *)
Definition fits (inputs targets : nest ndarray)
    (set : option (nest ndarray * nest ndarray)) : Prop :=
  match set with
  | None => True
  | Some (set_inputs, set_targets) =>
      same_structure set_inputs inputs = true
      /\ same_structure set_targets targets = true
      /\ exists n, Forall (fun y => length y = n)
                     (flatten set_inputs ++ flatten set_targets)
  end.

(** A label, when given, is nested as the data. *)
Definition label_fits {A} (label : option (nest string)) (data : nest A)
  : Prop :=
  match label with
  | None => True
  | Some l => same_structure l data = true
  end.

(** The cursor is inside the epoch. *)
Definition in_epoch (n : nat) (d : Dataset.t) : Prop :=
  well_formed n d /\ (0 <= Dataset.minibatch_idx d <= Z.of_nat n)%Z.

(** The data a dataset holds: the three sets, their structures and
    shapes, and the statistics. *)
Definition data_of (d : Dataset.t) :=
  (Dataset._train_inputs d, Dataset._train_targets d,
   Dataset._validation_inputs d, Dataset._validation_targets d,
   Dataset._test_inputs d, Dataset._test_targets d,
   Dataset.inputs_structure d, Dataset.targets_structure d,
   Dataset._inputs_shape d, Dataset._targets_shape d,
   Dataset._inputs_mean d, Dataset._inputs_std d,
   Dataset._inputs_stationary_mean d, Dataset._inputs_stationary_std d).
End FurtherPredicates.

(** ** Concrete inputs

    Small inputs on the reference instances, on which the statements
    below are evaluated. *)

Module Example.

(** Arrays of shape [(n,)] holding 0.0, 1.0, ... *)
Definition arange (n : nat) : list float := map Reference.count (seq 0 n).

(** A single array of three rows, not nested. *)
Definition three_rows : nest (list float) := Leaf (arange 3).

(** A single array of one row. *)
Definition one_row : nest (list float) := Leaf (arange 1).

(** [Dataset(inputs, targets, train_frac=train_frac)] on two arrays of
    [n] rows, with the generator in state [g]. *)
Definition construct (n : nat) (train_frac : float) (g : Z)
  : result Dataset.t * Z :=
  Dataset.init (Leaf (arange n)) (Leaf (arange n)) None None None train_frac
    None None g.

(** An object with no data, which stands for a construction that
    raised. *)
Definition blank : Dataset.t :=
  Dataset.assemble [] [] [] [] (Leaf 0) (Leaf 0)
    {| Dataset.p_train_idx := None; Dataset.p_validation_idx := None;
       Dataset.p_train_inputs := []; Dataset.p_train_targets := [];
       Dataset.p_validation := None |} None.

(** Inputs in a tuple of two arrays of four rows, a test set of two
    rows, and a split in halves. *)
Definition construct_nested (g : Z) : result Dataset.t * Z :=
  Dataset.init (Node KTuple [Leaf (arange 4); Leaf (arange 4)])
    (Leaf (arange 4))
    (Some (Node KTuple [Leaf (arange 2); Leaf (arange 2)], Leaf (arange 2)))
    None None 0.5%float None None g.

Definition nested : Dataset.t :=
  match construct_nested 3 with
  | (Ok d, _) => d
  | (Raise _, _) => Dataset.assemble [] [] [] [] (Leaf 0) (Leaf 0)
                      {| Dataset.p_train_idx := None;
                         Dataset.p_validation_idx := None;
                         Dataset.p_train_inputs := [];
                         Dataset.p_train_targets := [];
                         Dataset.p_validation := None |} None
  end.

(** [nested.normalize(control=(True, False))]: the state it leaves. *)
Definition nested_normalized : Dataset.t * Z :=
  (Dataset.normalize None (Some (Node KTuple [Leaf true; Leaf false]))
     (nested, 9%Z)).2.

(** [Dataset(inputs, targets, seed=seed)] on two arrays of ten rows,
    with the generator in state [g]: the indices of the split, when the
    construction returns. *)
Definition split_of (seed : option Z) (g : Z)
  : option (option (list nat) * option (list nat)) :=
  match Dataset.init (Leaf (arange 10)) (Leaf (arange 10)) None None seed
          Dataset.default_train_frac None None g with
  | (Ok d, _) => Some (Dataset.train_idx d, Dataset.validation_idx d)
  | (Raise _, _) => None
  end.

(** The object that [construct] returns. *)
Definition built (n : nat) (train_frac : float) (g : Z) : Dataset.t :=
  match construct n train_frac g with
  | (Ok d, _) => d
  | (Raise _, _) => blank
  end.

(** Two datasets, of ten and of twenty training rows, and the
    [MultiDataset] of the two. *)
Definition two_datasets : MultiDataset.heap :=
  [built 10 0%float 5; built 20 0%float 7].

Definition multi : MultiDataset.t := MultiDataset.init [0; 1].

(** Two input arrays in a tuple, with labels, a test set of two rows
    and a validation set of one row all given. *)
Definition tuple_of (n : nat) : nest (list float) :=
  Node KTuple [Leaf (arange n); Leaf (arange n)].

Definition construct_given (g : Z) : result Dataset.t * Z :=
  Dataset.init (tuple_of 4) (Leaf (arange 4))
    (Some (tuple_of 2, Leaf (arange 2)))
    (Some (tuple_of 1, Leaf (arange 1)))
    None Dataset.default_train_frac
    (Some (Node KTuple [Leaf "image"; Leaf "mask"]))
    (Some (Leaf "label")) g.

Definition given : Dataset.t :=
  match construct_given 3 with
  | (Ok d, _) => d
  | (Raise _, _) => blank
  end.

(** The statistics of the training inputs of [d], as [update_stats]
    takes them. *)
Definition stats_of (d : Dataset.t)
  : list (list float * list float * float * float) :=
  match map_result (fun x => Dataset.get_stats x None)
          (Dataset._train_inputs d) with
  | Ok stats => stats
  | Raise _ => []
  end.

(** Two arrays of four rows with a validation set of two rows and a
    label for the inputs. *)
Definition construct_with_validation (g : Z) : result Dataset.t * Z :=
  Dataset.init (Leaf (arange 4)) (Leaf (arange 4)) None
    (Some (Leaf (arange 2), Leaf (arange 2)))
    None Dataset.default_train_frac (Some (Leaf "image")) None g.

Definition built_with_validation (g : Z) : Dataset.t :=
  match construct_with_validation g with
  | (Ok d, _) => d
  | (Raise _, _) => blank
  end.

(** Two datasets of ten training rows each, built with the generator
    in different states, a third one that is not held, and the
    [MultiDataset] of the first two. *)
Definition two_of_ten : MultiDataset.heap :=
  [built 10 0%float 5; built 10 0%float 7; built 20 0%float 7].

Definition pair : MultiDataset.t := MultiDataset.init [0; 1].

(** [multi.normalize()] on the two datasets: the object and the state
    it leaves. *)
Definition multi_normalized : MultiDataset.t * (MultiDataset.heap * Z) :=
  match MultiDataset.normalize multi None (two_datasets, 1%Z) with
  | (Ok md, w) => (md, w)
  | (Raise _, w) => (multi, w)
  end.
End Example.

(** * Properties *)

(** ** The monad and the list helpers *)

Lemma map_result_Forall2 {A B} (f : A -> result B) xs ys :
  map_result f xs = Ok ys <-> Forall2 (fun x y => f x = Ok y) xs ys.
Proof.
  revert ys. induction xs as [|x xs IH]; simpl; intros ys.
  - split; [intros [= <-]; constructor|inversion 1; done].
  - destruct (f x) as [y|e] eqn:E; simpl.
    + destruct (map_result f xs) as [ys'|e] eqn:E'; simpl.
      * split.
        -- intros [= <-]. constructor; [done|]. by apply IH.
        -- inversion 1 as [|? y' ? ys'' Hy Hys]; subst.
           apply IH in Hys. congruence.
      * split; [done|]. inversion 1 as [|? y' ? ys'' Hy Hys]; subst.
        apply IH in Hys. done.
    + split; [done|]. inversion 1; congruence.
Qed.

Lemma np_take_length {A} (x : list A) idx r :
  np_take x idx = Ok r -> length r = length idx.
Proof.
  unfold np_take. rewrite map_result_Forall2.
  intros HF. symmetry. by eapply Forall2_length.
Qed.

Lemma np_take_ok {A} (x : list A) idx :
  Forall (fun i => i < length x) idx -> exists r, np_take x idx = Ok r.
Proof.
  induction 1 as [|i idx Hi _ [r IH]]; [by exists []|].
  destruct (lookup_lt_is_Some_2 x i Hi) as [v Hv].
  exists (v :: r). unfold np_take in *. simpl. by rewrite Hv; simpl; rewrite IH.
Qed.

(** Gathering the same indices from leaves that all have [n] rows. *)
Lemma gather_ok {A} (leaves : list (list A)) n idx :
  Forall (fun x => length x = n) leaves ->
  Forall (fun i => i < n) idx ->
  exists rs, map_result (fun x => np_take x idx) leaves = Ok rs
             /\ length rs = length leaves
             /\ Forall (fun r => length r = length idx) rs.
Proof.
  intros Hl Hi. induction Hl as [|x leaves Hx _ (rs & IH & Hlen & Hrs)].
  - exists []. by repeat split.
  - destruct (np_take_ok x idx) as [r Hr]; [by rewrite Hx|].
    exists (r :: rs). simpl. rewrite Hr; simpl. rewrite IH; simpl.
    repeat split; [by f_equal|]. constructor; [|done].
    by eapply np_take_length.
Qed.

(** ** Slices *)

Lemma py_slice_split {A} (l : list A) (s : Z) :
  py_slice l None (Some s) ++ py_slice l (Some s) None = l.
Proof.
  unfold py_slice. rewrite Z.sub_0_r. simpl. rewrite drop_0.
  set (n := Z.of_nat (length l)). set (c := clip n s).
  assert (0 <= c <= n)%Z as Hc by (unfold c, clip; case_match; lia).
  rewrite (take_ge (drop _ _)); [apply take_drop|].
  rewrite length_drop. lia.
Qed.

Lemma py_slice_inside {A} (l : list A) (a b : Z) :
  (0 <= a)%Z -> (a <= b)%Z -> (b <= Z.of_nat (length l))%Z ->
  py_slice l (Some a) (Some b)
  = take (Z.to_nat (b - a)) (drop (Z.to_nat a) l).
Proof.
  intros Ha Hab Hb. unfold py_slice, clip.
  repeat case_match; try lia.
  by rewrite !Z.min_l by lia.
Qed.

Lemma py_slice_from {A} (l : list A) (a : Z) :
  (0 <= a)%Z ->
  py_slice l (Some a) None = drop (Z.to_nat a) l.
Proof.
  intros Ha. unfold py_slice, clip. case_match; [lia|].
  destruct (Z.min_spec a (Z.of_nat (length l))) as [[? ->]|[? ->]].
  - apply take_ge. rewrite length_drop. lia.
  - rewrite Z.sub_diag, Nat2Z.id. simpl.
    rewrite !drop_ge; [done|lia..].
Qed.

Lemma py_slice_upto {A} (l : list A) (b : Z) :
  (0 <= b)%Z ->
  py_slice l None (Some b) = take (Z.to_nat b) l.
Proof.
  intros Hb. unfold py_slice, clip. case_match; [lia|].
  rewrite Z.sub_0_r. simpl. rewrite drop_0.
  destruct (Z.min_spec b (Z.of_nat (length l))) as [[? ->]|[? ->]]; [done|].
  rewrite Nat2Z.id. rewrite !take_ge; [done|lia..].
Qed.

Lemma py_slice_Forall {A} (P : A -> Prop) (l : list A) lo hi :
  Forall P l -> Forall P (py_slice l lo hi).
Proof. intros Hl. unfold py_slice. by apply Forall_take, Forall_drop. Qed.

Lemma perm_bounded (p : list nat) n : p ≡ₚ seq 0 n -> Forall (fun i => i < n) p.
Proof.
  intros Hp. rewrite Hp. apply Forall_forall. intros i Hi.
  apply elem_of_seq in Hi. lia.
Qed.

Lemma perm_length (p : list nat) n : p ≡ₚ seq 0 n -> length p = n.
Proof. intros Hp. by rewrite Hp, length_seq. Qed.

(** ** Nested structures *)

Lemma nest_ind {A} (P : nest A -> Prop) :
  (forall a, P (Leaf a)) ->
  (forall k ts, Forall P ts -> P (Node k ts)) ->
  forall t, P t.
Proof.
  intros HL HN. fix IH 1. intros [a|k ts]; [apply HL|].
  apply HN. induction ts as [|t ts IHts]; constructor; [apply IH|apply IHts].
Qed.

Lemma pack_aux_spec {A B} (s : nest A) (flat : list B) :
  length (flatten s) <= length flat ->
  exists t, pack_aux s flat = Some (t, drop (length (flatten s)) flat)
            /\ flatten t = take (length (flatten s)) flat
            /\ same_structure s t = true.
Proof.
  revert flat. induction s as [a|k ts IH] using nest_ind; intros flat Hlen.
  - destruct flat as [|x flat]; simpl in *; [lia|].
    exists (Leaf x). by rewrite drop_0, take_0.
  - simpl in *.
    set (go := fix go (ss : list (nest A)) (flat : list B)
                 : option (list (nest B) * list B) :=
                 match ss with
                 | [] => Some ([], flat)
                 | s' :: ss' =>
                     match pack_aux s' flat with
                     | Some (t', rest) =>
                         match go ss' rest with
                         | Some (ts', rest') => Some (t' :: ts', rest')
                         | None => None
                         end
                     | None => None
                     end
                 end).
    set (same := fix go (ss : list (nest A)) (ts : list (nest B)) : bool :=
                 match ss, ts with
                 | [], [] => true
                 | s' :: ss', t' :: ts' => same_structure s' t' && go ss' ts'
                 | _, _ => false
                 end).
    assert (exists ts', go ts flat
                        = Some (ts', drop (length (concat (map flatten ts))) flat)
                        /\ concat (map flatten ts')
                           = take (length (concat (map flatten ts))) flat
                        /\ same ts ts' = true) as (ts' & Hgo & Hflat & Hsame).
    { clear k. revert flat Hlen.
      induction IH as [|s ts Hs _ IHts]; intros flat Hlen; simpl in *.
      - exists []. by rewrite drop_0, take_0.
      - rewrite length_app in Hlen.
        destruct (Hs flat) as (t & Ht & Hft & Hst); [lia|].
        destruct (IHts (drop (length (flatten s)) flat))
          as (ts' & Hts & Hfts & Hsts); [rewrite length_drop; lia|].
        exists (t :: ts'). rewrite Ht, Hts. simpl.
        rewrite Hft, Hfts, Hst, Hsts, length_app, drop_drop.
        split; [done|]. split; [|done].
        by rewrite take_take_drop. }
    exists (Node k ts'). rewrite Hgo. simpl. fold same. rewrite Hsame.
    split; [done|]. split; [done|]. by destruct k.
Qed.

Lemma pack_sequence_as_ok {A B} (s : nest A) (flat : list B) :
  length (flatten s) = length flat ->
  exists t, pack_sequence_as s flat = Ok t
            /\ flatten t = flat /\ same_structure s t = true.
Proof.
  intros Hlen. unfold pack_sequence_as.
  destruct (pack_aux_spec s flat) as (t & -> & Hf & Hs); [lia|].
  rewrite Hlen, Nat.eqb_refl.
  exists t. split; [done|]. split; [|done]. rewrite Hf, Hlen. by apply take_ge.
Qed.

Lemma pack_sequence_as_inv {A B} (s : nest A) (flat : list B) t :
  pack_sequence_as s flat = Ok t ->
  flatten t = flat /\ same_structure s t = true.
Proof.
  unfold pack_sequence_as. destruct (_ =? _) eqn:E; [|done].
  apply Nat.eqb_eq in E.
  destruct (pack_aux_spec s flat) as (t' & -> & Hf & Hs); [lia|].
  intros [= <-]. split; [|done]. rewrite Hf, E. by apply take_ge.
Qed.

Lemma py_slice_inside_length {A} (l : list A) (a b : Z) :
  (0 <= a)%Z -> (a <= b)%Z -> (b <= Z.of_nat (length l))%Z ->
  length (py_slice l (Some a) (Some b)) = Z.to_nat (b - a).
Proof.
  intros. rewrite py_slice_inside by done.
  rewrite length_take, length_drop. lia.
Qed.

Lemma py_slice_from_length {A} (l : list A) (a : Z) :
  (0 <= a)%Z ->
  length (py_slice l (Some a) None) = length l - Z.to_nat a.
Proof. intros. rewrite py_slice_from by done. apply length_drop. Qed.

Lemma py_slice_upto_length {A} (l : list A) (b : Z) :
  (0 <= b)%Z ->
  length (py_slice l None (Some b)) = Z.to_nat b `min` length l.
Proof. intros. rewrite py_slice_upto by done. apply length_take. Qed.

(** ** [batchify] *)

Section BatchifyFacts.
Context {A : Type} `{RandomLib}.
Variable data : nest (list A).
Variable x : list A.
Variable xs : list (list A).
Variable N : nat.
Hypothesis data_leaves : flatten data = x :: xs.
Hypothesis same_length : Forall (fun y => length y = N) (x :: xs).

Lemma length_first_leaf : length x = N.
Proof using same_length. by inversion same_length. Qed.

Lemma get_data_ok (idx : list nat) :
  Forall (fun i => i < N) idx ->
  exists b, Batchify.get_data data idx = Ok b
            /\ has_size (length idx) b
            /\ same_structure data b = true.
Proof using data_leaves same_length.
  intros Hidx. unfold Batchify.get_data, Batchify.flat_data.
  destruct (gather_ok (flatten data) N idx) as (rs & -> & Hlen & Hrs);
    [by rewrite data_leaves|done|].
  simpl.
  destruct (pack_sequence_as_ok data rs) as (b & -> & Hb & Hs); [done|].
  exists b. unfold has_size. by rewrite Hb.
Qed.

Lemma next_AtYield B n_epochs shuffle cutoff perm pos epoch g :
  Batchify.next data B n_epochs shuffle cutoff
    (Batchify.AtYield perm pos epoch, g)
  = Batchify.turn data B n_epochs shuffle cutoff N perm pos epoch
      (Batchify.Finished, g).
Proof using data_leaves same_length.
  unfold Batchify.next, Batchify.flat_data. rewrite data_leaves.
  by rewrite length_first_leaf.
Qed.

Lemma next_Created B n_epochs shuffle cutoff g :
  exists perm g',
    perm ≡ₚ seq 0 N /\
    Batchify.next data B n_epochs shuffle cutoff (Batchify.Created, g)
    = Batchify.turn data B n_epochs shuffle cutoff N perm 0 0
        (Batchify.Finished, g').
Proof using data_leaves same_length.
  unfold Batchify.next, Batchify.flat_data. rewrite data_leaves.
  rewrite length_first_leaf.
  destruct shuffle; cbn.
  - pose proof (np_random_permutation_perm N g) as Hp.
    unfold bind. simpl.
    destruct (np_random_permutation N g) as [p g']. by exists p, g'.
  - by exists (seq 0 N), g.
Qed.

End BatchifyFacts.




(** C4: one row, a batch size of three and three epochs, which hold
    three samples between them.  The first batch overflows the epoch
    while two more epochs remain, so it straddles: the whole old
    permutation and the head of the new one, which has one index only.
    The batch has two rows, not three, and the sample that is left
    comes as a batch of its own. *)
Theorem batchify_straddle_short `{RandomLib} (g : rng) :
  Batchify.run Example.one_row 3 3 false false 4 (Batchify.Created, g)
  = ([Leaf [0%float; 0%float]; Leaf [0%float]], Batchify.Exhausted,
     (Batchify.Finished, g)).
Proof. reflexivity. Qed.

(** ** [Dataset]: the cursor *)

Section DatasetFacts.
Context `{ArrayLib} `{RandomLib}.

Lemma n_train_samples_wf n d :
  well_formed n d -> Dataset.n_train_samples d = Ok n.
Proof.
  intros [Hne Hin _ _ _ _]. unfold Dataset.n_train_samples.
  destruct (Dataset._train_inputs d) as [|x xs]; [done|].
  apply Forall_cons in Hin as [Hx _]. by rewrite Hx.
Qed.

Lemma train_set_wf n d :
  well_formed n d -> exists r, Dataset.train_set d = Ok r.
Proof.
  intros [_ _ _ Hi Ht _].
  unfold Dataset.train_set, Dataset.train_inputs, Dataset.train_targets.
  destruct (pack_sequence_as_ok _ _ Hi) as (a & -> & _).
  destruct (pack_sequence_as_ok _ _ Ht) as (b & -> & _).
  by exists (a, b).
Qed.

Lemma well_formed_set_cursor n d i p last :
  well_formed n d -> p ≡ₚ seq 0 n ->
  well_formed n (Dataset.set_cursor i p last d).
Proof. intros [? ? ? ? ? ?] Hp. by constructor. Qed.

Lemma next_epoch_None n d g :
  well_formed n d ->
  Dataset.next_epoch None (d, g)
  = (Ok tt, (Dataset.set_cursor 0 (np_random_permutation n g).1
               (Dataset._minibatch_indicies d) d,
             (np_random_permutation n g).2)).
Proof.
  intros Hwf. unfold Dataset.next_epoch, bind; simpl.
  unfold Dataset.n_train_samples. simpl.
  pose proof (n_train_samples_wf n d Hwf) as Hn.
  unfold Dataset.n_train_samples in Hn. rewrite Hn. simpl.
  unfold Dataset.global, Dataset.random_permutation. simpl.
  by destruct (np_random_permutation n g).
Qed.

(** The batch that [minibatch] gathers for the indices [idx]. *)
Lemma gather_batch n d idx :
  well_formed n d -> Forall (fun i => i < n) idx ->
  exists xs bi ts bt,
    map_result (fun x => np_take x idx) (Dataset._train_inputs d) = Ok xs
    /\ pack_sequence_as (Dataset.inputs_structure d) xs = Ok bi
    /\ map_result (fun x => np_take x idx) (Dataset._train_targets d) = Ok ts
    /\ pack_sequence_as (Dataset.targets_structure d) ts = Ok bt
    /\ flatten bi = xs /\ flatten bt = ts
    /\ has_size (length idx) bi /\ has_size (length idx) bt.
Proof.
  intros [_ Hin Htg Hi Ht _] Hidx.
  destruct (gather_ok _ n idx Hin Hidx) as (xs & Hxs & Hlx & Hsx).
  destruct (gather_ok _ n idx Htg Hidx) as (ts & Hts & Hlt & Hst).
  destruct (pack_sequence_as_ok (Dataset.inputs_structure d) xs)
    as (bi & Hbi & Hfi & _); [congruence|].
  destruct (pack_sequence_as_ok (Dataset.targets_structure d) ts)
    as (bt & Hbt & Hft & _); [congruence|].
  exists xs, bi, ts, bt. unfold has_size. rewrite Hfi, Hft. done.
Qed.

(** What a call of [minibatch] that passes the size check does. *)
Lemma minibatch_served n d g (b : Z) :
  well_formed n d -> (b <= Z.of_nat n)%Z ->
  let overflow := (Dataset.minibatch_idx d + b >? Z.of_nat n)%Z in
  let drawn := np_random_permutation n g in
  let perm := if overflow then drawn.1 else Dataset.train_perm d in
  let start := if overflow then 0%Z else Dataset.minibatch_idx d in
  let idx := py_slice perm (Some start) (Some (start + b)%Z) in
  exists bi bt,
    Dataset.minibatch b (d, g)
    = (Ok (bi, bt),
       (Dataset.set_cursor (start + b) perm (Some idx) d,
        if overflow then drawn.2 else g))
    /\ map_result (fun x => np_take x idx) (Dataset._train_inputs d)
       = Ok (flatten bi)
    /\ map_result (fun x => np_take x idx) (Dataset._train_targets d)
       = Ok (flatten bt)
    /\ same_structure (Dataset.inputs_structure d) bi = true
    /\ same_structure (Dataset.targets_structure d) bt = true
    /\ pack_sequence_as (Dataset.inputs_structure d) (flatten bi) = Ok bi
    /\ pack_sequence_as (Dataset.targets_structure d) (flatten bt) = Ok bt.
Proof.
  intros Hwf Hb overflow drawn perm start idx.
  assert (perm ≡ₚ seq 0 n) as Hperm.
  { unfold perm. destruct overflow; [apply np_random_permutation_perm|].
    by destruct Hwf. }
  assert (Forall (fun i => i < n) idx) as Hidx.
  { apply py_slice_Forall. by eapply perm_bounded. }
  destruct (gather_batch n d idx Hwf Hidx)
    as (xs & bi & ts & bt & Hxs & Hbi & Hts & Hbt & Hfi & Hft & _).
  exists bi, bt.
  destruct (pack_sequence_as_inv _ _ _ Hbi) as [_ Hsi].
  destruct (pack_sequence_as_inv _ _ _ Hbt) as [_ Hst].
  rewrite Hfi, Hft. split; [|done].
  clear Hsi Hst Hfi Hft.
  destruct (train_set_wf n d Hwf) as [r Hr].
  unfold Dataset.minibatch, bind; simpl.
  rewrite (n_train_samples_wf n d Hwf). simpl.
  destruct (Z.gtb_spec b (Z.of_nat n)) as [|_]; [lia|].
  rewrite Hr. simpl. fold overflow.
  subst perm start idx drawn. destruct overflow.
  - rewrite (next_epoch_None n d g Hwf). simpl.
    simpl in Hxs, Hts, Hbi, Hbt. by rewrite Hxs, Hbi, Hts, Hbt.
  - simpl. simpl in Hxs, Hts, Hbi, Hbt. by rewrite Hxs, Hbi, Hts, Hbt.
Qed.

Lemma minibatch_refused n d g (b : Z) :
  well_formed n d -> (Z.of_nat n < b)%Z ->
  Dataset.minibatch b (d, g) = (Raise (BatchSizeError n), (d, g)).
Proof.
  intros Hwf Hb. unfold Dataset.minibatch, bind; simpl.
  rewrite (n_train_samples_wf n d Hwf). simpl.
  by destruct (Z.gtb_spec b (Z.of_nat n)) as [_|]; [|lia].
Qed.
End DatasetFacts.

(** ** Inverting a run that succeeded *)

Lemma bind_Ok {S A B} (m : M S A) (k : A -> M S B) s b s' :
  bind m k s = (Ok b, s') ->
  exists a s1, m s = (Ok a, s1) /\ k a s1 = (Ok b, s').
Proof.
  unfold bind. destruct (m s) as [[a|e] s1]; [|done]. by exists a, s1.
Qed.

Lemma rbind_Ok {A B} (r : result A) (k : A -> result B) b :
  rbind r k = Ok b -> exists a, r = Ok a /\ k a = Ok b.
Proof. destruct r as [a|e]; [|done]. by exists a. Qed.

Section InitFacts.
Context `{ArrayLib} `{RandomLib}.

Lemma update_stats_Ok ax d g d' g' :
  Dataset.update_stats ax (d, g) = (Ok tt, (d', g')) ->
  exists stats,
    map_result (fun x => Dataset.get_stats x ax) (Dataset._train_inputs d)
    = Ok stats
    /\ d' = Dataset.set_stats (map (fun s => s.1.1.1) stats)
              (map (fun s => s.1.1.2) stats)
              (map (fun s => s.1.2) stats) (map (fun s => s.2) stats) d
    /\ g' = g.
Proof.
  unfold Dataset.update_stats, bind, Dataset.self, gets, lift_result,
    Dataset.assign, modify, raise; simpl.
  destruct (map_result _ _) as [[|st stats]|e]; simpl; try done.
  intros [= <- <-]. by eexists.
Qed.

(** The end of the constructor: statistics, then a cursor at 0 on a
    fresh permutation. *)
Lemma finish_init_Ok d g d' g' :
  Dataset.finish_init (d, g) = (Ok tt, (d', g')) ->
  exists n m s sm ss,
    Dataset.n_train_samples d = Ok n
    /\ d' = Dataset.set_normalizer None
              (Dataset.set_cursor 0 (np_random_permutation n g).1 None
                 (Dataset.set_stats m s sm ss d))
    /\ g' = (np_random_permutation n g).2.
Proof.
  unfold Dataset.finish_init, Dataset.update_stats, Dataset.next_epoch, bind,
    Dataset.self, gets, lift_result, Dataset.assign, modify, raise, ret,
    Dataset.global, Dataset.random_permutation, Dataset.seed_if_truthy; simpl.
  destruct (map_result _ _) as [[|st stats]|e]; simpl; try done.
  unfold Dataset.n_train_samples; simpl.
  destruct (Dataset._train_inputs d) as [|x xs]; simpl; [done|].
  destruct (np_random_permutation (length x) g) as [p g2] eqn:Hp; simpl.
  intros [= <- <-]. exists (length x). rewrite Hp. by eexists _, _, _, _.
Qed.
End InitFacts.

Section ConstructorFacts.
Context `{ArrayLib} `{RandomLib}.

Lemma init_Ok inputs targets test validation seed train_frac il tl g d g' :
  Dataset.init inputs targets test validation seed train_frac il tl g
  = (Ok d, g') ->
  exists x rest il' tl' istr tstr test' validation' p g1,
    flatten inputs = x :: rest
    /\ Dataset.has_same_batch (flatten inputs ++ flatten targets) = Ok true
    /\ pack_sequence_as inputs (seq 0 (length (flatten inputs))) = Ok istr
    /\ pack_sequence_as targets (seq 0 (length (flatten targets))) = Ok tstr
    /\ Dataset.verify_optional
         "All test inputs and targets must share same batch size"
         istr tstr test = Ok test'
    /\ Dataset.verify_optional
         "All validation inputs and targets must share same batch size"
         istr tstr validation = Ok validation'
    /\ Dataset.prepare_validation (flatten inputs) (flatten targets)
         (length x) validation' seed train_frac g = (Ok p, g1)
    /\ Dataset.finish_init
         (Dataset.assemble il' tl' (flatten inputs) (flatten targets)
            istr tstr p test', g1)
       = (Ok tt, (d, g')).
Proof.
  unfold Dataset.init, bind, lift_result, raise; simpl.
  destruct (Dataset.labels_for "inputs" il inputs) as [il'|]; [|done].
  destruct (Dataset.labels_for "targets" tl targets) as [tl'|]; [|done].
  destruct (flatten inputs) as [|x rest] eqn:Hflat; [done|].
  destruct (Dataset.has_same_batch _) as [[]|] eqn:Hsame; simpl; [|done..].
  destruct (pack_sequence_as inputs _) as [istr|]; [|done].
  destruct (pack_sequence_as targets _) as [tstr|]; [|done].
  destruct (Dataset.verify_optional _ istr tstr test)
    as [test'|] eqn:Htest; [|done].
  destruct (Dataset.verify_optional _ istr tstr validation)
    as [validation'|] eqn:Hval; [|done].
  destruct (Dataset.prepare_validation _ _ _ _ _ _ _) as [[p|?] g1] eqn:Hp;
    [|done].
  destruct (Dataset.finish_init _) as [[[]|?] [d1 g2]] eqn:Hfin; [|done].
  intros [= <- <-].
  exists x, rest, il', tl', istr, tstr, test', validation', p, g1.
  by repeat (split; [done|]).
Qed.

(** The branch that splits. *)
Lemma prepare_validation_split flat_inputs flat_targets n seed train_frac
    g p g1 :
  (0 <? train_frac)%float = true ->
  Dataset.prepare_validation flat_inputs flat_targets n None seed train_frac g
  = (Ok p, g1) ->
  exists g0 split vi vt,
    let perm := (np_random_permutation n g0).1 in
    let tr := sorted (py_slice perm None (Some split)) in
    let va := sorted (py_slice perm (Some split) None) in
    Dataset.seed_if_truthy seed g = (Ok tt, g0)
    /\ g1 = (np_random_permutation n g0).2
    /\ round_mul n train_frac = Ok split
    /\ Dataset.p_train_idx p = Some tr
    /\ Dataset.p_validation_idx p = Some va
    /\ map_result (fun x => np_take x tr) flat_inputs
       = Ok (Dataset.p_train_inputs p)
    /\ map_result (fun x => np_take x tr) flat_targets
       = Ok (Dataset.p_train_targets p)
    /\ Dataset.p_validation p = Some (vi, vt)
    /\ map_result (fun x => np_take x va) flat_inputs = Ok vi
    /\ map_result (fun x => np_take x va) flat_targets = Ok vt.
Proof.
  intros Hfrac. unfold Dataset.prepare_validation. simpl. rewrite Hfrac.
  unfold bind, lift_result, Dataset.random_permutation, ret; simpl.
  destruct (Dataset.seed_if_truthy seed g) as [[[]|?] g0] eqn:Hseed; [|done].
  destruct (np_random_permutation n g0) as [perm g2] eqn:Hperm. simpl.
  destruct (round_mul n train_frac) as [cut|]; [|done].
  set (tr := sorted (py_slice perm None (Some cut))).
  set (va := sorted (py_slice perm (Some cut) None)).
  destruct (map_result (fun x => np_take x va) flat_inputs)
    as [vi|] eqn:Hvi; [|done].
  destruct (map_result (fun x => np_take x va) flat_targets)
    as [vt|] eqn:Hvt; [|done].
  destruct (map_result (fun x => np_take x tr) flat_inputs)
    as [ti|] eqn:Hti; [|done].
  destruct (map_result (fun x => np_take x tr) flat_targets)
    as [tt'|] eqn:Htt; [|done].
  intros [= <- <-]. exists g0, cut, vi, vt. rewrite Hperm. simpl.
  fold tr va. by rewrite Hvi, Hvt, Hti, Htt.
Qed.

(** The branch that does not. *)
Lemma prepare_validation_whole flat_inputs flat_targets n validation seed
    train_frac g p g1 :
  Dataset.is_None validation && (0 <? train_frac)%float = false ->
  Dataset.prepare_validation flat_inputs flat_targets n validation seed
    train_frac g = (Ok p, g1) ->
  p = {| Dataset.p_train_idx := None; Dataset.p_validation_idx := None;
         Dataset.p_train_inputs := flat_inputs;
         Dataset.p_train_targets := flat_targets;
         Dataset.p_validation := validation |}
  /\ g1 = g.
Proof.
  intros Hno. unfold Dataset.prepare_validation. rewrite Hno.
  by intros [= <- <-].
Qed.

Lemma has_same_batch_true (data : list ndarray) :
  Dataset.has_same_batch data = Ok true ->
  exists x rest, data = x :: rest
                 /\ Forall (fun y => length y = length x) data.
Proof.
  destruct data as [|x rest]; [done|]. simpl. intros [= Hall].
  exists x, rest. split; [done|]. constructor; [done|].
  apply Forall_forall. intros y Hy.
  rewrite forallb_forall in Hall. apply Nat.eqb_eq, Hall.
  by apply list_elem_of_In.
Qed.
End ConstructorFacts.

(** ** The split *)

Lemma binary_round_aux_sign sx mx ex lx :
  signed_as sx (binary_round_aux prec emax sx mx ex lx).
Proof.
  unfold binary_round_aux.
  destruct (shr_fexp prec emax mx ex lx) as [mrs e'].
  destruct (shr_fexp prec emax _ e' loc_Exact) as [mrs' e''].
  destruct (shr_m mrs'); simpl; [done| |done].
  by case_match.
Qed.

Lemma SFmul_sign x y :
  signed_as false x -> signed_as false y ->
  signed_as false (SFmul prec emax x y).
Proof.
  destruct x as [sx|sx| |sx mx ex], y as [sy|sy| |sy my ey]; simpl;
    try done; try (by intros -> ->).
  intros -> ->. apply binary_round_aux_sign.
Qed.

Lemma binary_normalize_sign z :
  (0 <= z)%Z -> signed_as false (binary_normalize prec emax z 0 false).
Proof.
  intros Hz. unfold binary_normalize. destruct z as [|p|p]; [done| |lia].
  unfold binary_round. destruct (shl_align p 0 _) as [mz ez].
  apply binary_round_aux_sign.
Qed.

Lemma py_round_nonneg x s :
  signed_as false (Prim2SF x) -> py_round x = Ok s -> (0 <= s)%Z.
Proof.
  unfold py_round. destruct (Prim2SF x) as [sx|sx| |sx m e]; simpl; try done.
  - by intros _ [= <-].
  - intros -> [= <-].
    destruct (Z.leb_spec 0 e).
    + apply Z.mul_nonneg_nonneg; [done|]. by apply Z.pow_nonneg.
    + assert (0 < 2 ^ (- e))%Z by (apply Z.pow_pos_nonneg; lia).
      assert (0 <= Z.pos m / 2 ^ (- e))%Z by (apply Z.div_pos; lia).
      repeat case_match; lia.
Qed.

Lemma positive_sign f :
  (0 <? f)%float = true -> signed_as false (Prim2SF f).
Proof.
  rewrite ltb_spec. change (Prim2SF 0) with (S754_zero false).
  unfold SFltb, SFcompare.
  destruct (Prim2SF f) as [s|s| |s m e]; simpl; try done; by destruct s.
Qed.

(** A positive fraction of a length rounds to a natural number. *)
Lemma round_mul_nonneg n f s :
  (0 <? f)%float = true -> round_mul n f = Ok s -> (0 <= s)%Z.
Proof.
  intros Hf. unfold round_mul. apply py_round_nonneg.
  rewrite mul_spec. apply SFmul_sign; [|by apply positive_sign].
  unfold float_of_len. rewrite of_uint63_spec.
  apply binary_normalize_sign, Uint63.to_Z_bounded.
Qed.

Lemma sorted_Permutation l : sorted l ≡ₚ l.
Proof. apply merge_sort_Permutation. Qed.

Lemma sorted_StronglySorted l : StronglySorted le (sorted l).
Proof. apply (StronglySorted_merge_sort le). Qed.

Lemma gathered_lengths {A} (leaves rs : list (list A)) idx :
  map_result (fun x => np_take x idx) leaves = Ok rs ->
  length rs = length leaves /\ Forall (fun r => length r = length idx) rs.
Proof.
  rewrite map_result_Forall2. intros HF. split.
  - symmetry. by eapply Forall2_length.
  - induction HF as [|x r leaves rs Hr _ IH]; constructor; [|done].
    by eapply np_take_length.
Qed.

(** C2, amended: a construction that splits takes as [train_idx] the
    first round(n_inputs * train_frac) indices of the permutation, or
    all n_inputs of them when that number is larger; [train_idx] and
    [validation_idx] are sorted, disjoint and together a permutation of
    the indices below n_inputs, and the leaves of the training and of
    the validation inputs have as many rows as the two have indices. *)
Theorem automatic_split `{ArrayLib} `{RandomLib}
    (inputs targets : nest ndarray)
    (test : option (nest ndarray * nest ndarray)) (seed : option Z)
    (train_frac : float) (il tl : option (nest string)) (g g' : rng)
    (d : Dataset.t) :
  Dataset.init inputs targets test None seed train_frac il tl g = (Ok d, g') ->
  (0 <? train_frac)%float = true ->
  exists x rest cut tr va vi,
    flatten inputs = x :: rest
    /\ round_mul (length x) train_frac = Ok cut
    /\ (0 <= cut)%Z
    /\ Dataset.train_idx d = Some tr
    /\ Dataset.validation_idx d = Some va
    /\ length tr = Z.to_nat cut `min` length x
    /\ StronglySorted le tr
    /\ StronglySorted le va
    /\ (forall i, i ∈ tr -> i ∉ va)
    /\ tr ++ va ≡ₚ seq 0 (length x)
    /\ Forall (fun leaf => length leaf = length tr) (Dataset._train_inputs d)
    /\ Dataset._validation_inputs d = Some vi
    /\ Forall (fun leaf => length leaf = length va) vi
    /\ length tr + length va = length x.
Proof.
  intros Hinit Hfrac.
  apply init_Ok in Hinit
    as (x & rest & il' & tl' & istr & tstr & test' & validation' & p & g1
        & Hflat & _ & _ & _ & _ & Hnone & Hprep & Hfin).
  injection Hnone as <-.
  apply prepare_validation_split in Hprep
    as (g0 & cut & vi & vt & _ & _ & Hcut & Htr & Hva & Hti & _ & Hval
        & Hvi & _); [|done].
  apply finish_init_Ok in Hfin as (n & m & s & sm & ss & _ & -> & _).
  set (perm := (np_random_permutation (length x) g0).1) in *.
  set (tr := sorted (py_slice perm None (Some cut))) in *.
  set (va := sorted (py_slice perm (Some cut) None)) in *.
  assert (perm ≡ₚ seq 0 (length x)) as Hperm
    by apply np_random_permutation_perm.
  assert (tr ++ va ≡ₚ seq 0 (length x)) as Hall.
  { unfold tr, va. rewrite !sorted_Permutation, py_slice_split. done. }
  pose proof (round_mul_nonneg _ _ _ Hfrac Hcut) as Hpos.
  assert (length tr = Z.to_nat cut `min` length x) as Hlen.
  { unfold tr. rewrite sorted_Permutation, py_slice_upto_length by done.
    by rewrite (perm_length _ _ Hperm). }
  exists x, rest, cut, tr, va, vi. simpl. rewrite Htr, Hva, Hval. simpl.
  repeat (split; [done|]).
  split; [apply sorted_StronglySorted|].
  split; [apply sorted_StronglySorted|].
  split.
  { assert (NoDup (tr ++ va)) as Hnd by (rewrite Hall; apply NoDup_seq).
    apply NoDup_app in Hnd as (_ & Hdisj & _). done. }
  split; [done|].
  split; [by apply gathered_lengths in Hti as [_ ?]|].
  split; [done|].
  split; [by apply gathered_lengths in Hvi as [_ ?]|].
  apply Permutation_length in Hall. by rewrite length_app, length_seq in Hall.
Qed.

Lemma automatic_split_witness :
  exists x rest cut tr va vi,
    flatten (Leaf (Example.arange 10)) = x :: rest
    /\ round_mul (length x) Dataset.default_train_frac = Ok cut
    /\ (0 <= cut)%Z
    /\ Dataset.train_idx (Example.built 10 Dataset.default_train_frac 42)
       = Some tr
    /\ Dataset.validation_idx (Example.built 10 Dataset.default_train_frac 42)
       = Some va
    /\ length tr = Z.to_nat cut `min` length x
    /\ StronglySorted le tr
    /\ StronglySorted le va
    /\ (forall i, i ∈ tr -> i ∉ va)
    /\ tr ++ va ≡ₚ seq 0 (length x)
    /\ Forall (fun leaf => length leaf = length tr)
         (Dataset._train_inputs
            (Example.built 10 Dataset.default_train_frac 42))
    /\ Dataset._validation_inputs
         (Example.built 10 Dataset.default_train_frac 42) = Some vi
    /\ Forall (fun leaf => length leaf = length va) vi
    /\ length tr + length va = length x.
Proof.
  apply (@automatic_split reference_array reference_random
           (Leaf (Example.arange 10)) (Leaf (Example.arange 10)) None None
           Dataset.default_train_frac None None 42%Z
           (Example.construct 10 Dataset.default_train_frac 42).2).
  - vm_compute. reflexivity.
  - vm_compute. reflexivity.
Defined.

(** C2 as stated fails on a fraction above one: two rows with
    [train_frac=2.0] are split at round(2 * 2.0) = 4, the construction
    succeeds, and [train_idx] has the two indices there are, not four. *)
Lemma split_beyond_the_data :
  exists d g',
    Dataset.init (Leaf (Example.arange 2)) (Leaf (Example.arange 2)) None None
      None 2%float None None 0%Z = (Ok d, g')
    /\ (0 <? 2)%float = true
    /\ round_mul 2 2%float = Ok 4%Z
    /\ exists tr, Dataset.train_idx d = Some tr /\ Z.of_nat (length tr) <> 4%Z.
Proof.
  eexists _, _. split; [vm_compute; reflexivity|].
  split; [reflexivity|]. split; [reflexivity|].
  eexists. split; [reflexivity|]. vm_compute. discriminate.
Qed.

(** ** Minibatches *)

(** C1: [minibatch(batch_size)] raises, and then the size error, exactly
    when batch_size > n_train_samples, leaving the object as it was.
    Otherwise, when the cursor would overflow it first starts an epoch
    (a fresh permutation, the cursor at 0, the rest of the old
    permutation dropped); then it returns, in the structures of the
    inputs and of the targets, the rows of every training leaf at the
    indices of the slice [start, start + batch_size) of the permutation,
    records the slice as [minibatch_indicies] and moves the cursor to
    start + batch_size. *)
Theorem minibatch_spec `{ArrayLib} `{RandomLib} (n : nat) (d : Dataset.t)
    (g : rng) (batch_size : Z) :
  well_formed n d ->
  ((exists e s, Dataset.minibatch batch_size (d, g) = (Raise e, s))
   <-> (batch_size > Z.of_nat n)%Z)
  /\ ((batch_size > Z.of_nat n)%Z ->
      Dataset.minibatch batch_size (d, g) = (Raise (BatchSizeError n), (d, g)))
  /\ ((batch_size <= Z.of_nat n)%Z ->
      let overflow :=
        (Dataset.minibatch_idx d + batch_size >? Z.of_nat n)%Z in
      let drawn := np_random_permutation n g in
      let perm := if overflow then drawn.1 else Dataset.train_perm d in
      let start := if overflow then 0%Z else Dataset.minibatch_idx d in
      let idx := py_slice perm (Some start) (Some (start + batch_size)%Z) in
      exists batch_inputs batch_targets d',
        Dataset.minibatch batch_size (d, g)
        = (Ok (batch_inputs, batch_targets),
           (d', if overflow then drawn.2 else g))
        /\ d' = Dataset.set_cursor (start + batch_size) perm (Some idx) d
        /\ Dataset.minibatch_indicies d' = Some idx
        /\ Dataset.minibatch_idx d' = (start + batch_size)%Z
        /\ map_result (fun x => np_take x idx) (Dataset._train_inputs d)
           = Ok (flatten batch_inputs)
        /\ map_result (fun x => np_take x idx) (Dataset._train_targets d)
           = Ok (flatten batch_targets)
        /\ same_structure (Dataset.inputs_structure d) batch_inputs = true
        /\ same_structure (Dataset.targets_structure d) batch_targets = true).
Proof.
  intros Hwf. split; [split|split].
  - intros (e & s & Hraise).
    destruct (Z_le_gt_dec batch_size (Z.of_nat n)) as [Hle|Hgt]; [|done].
    destruct (minibatch_served n d g batch_size Hwf Hle)
      as (bi & bt & Hok & _).
    simpl in Hok. congruence.
  - intros Hgt. eexists _, _. apply (minibatch_refused n d g); [done|lia].
  - intros Hgt. apply (minibatch_refused n d g); [done|lia].
  - intros Hle overflow drawn perm start idx.
    destruct (minibatch_served n d g batch_size Hwf Hle)
      as (bi & bt & Hok & Hi & Ht & Hsi & Hst & _).
    exists bi, bt. eexists. split; [exact Hok|]. done.
Qed.

Lemma minibatch_spec_witness :
  ((exists e s,
       Dataset.minibatch 3 (Example.built 10 0%float 5, 11%Z) = (Raise e, s))
   <-> (3 > Z.of_nat 10)%Z)
  /\ ((3 > Z.of_nat 10)%Z ->
      Dataset.minibatch 3 (Example.built 10 0%float 5, 11%Z)
      = (Raise (BatchSizeError 10), (Example.built 10 0%float 5, 11%Z)))
  /\ ((3 <= Z.of_nat 10)%Z ->
      let d := Example.built 10 0%float 5 in
      let overflow := (Dataset.minibatch_idx d + 3 >? Z.of_nat 10)%Z in
      let drawn := np_random_permutation 10 11%Z in
      let perm := if overflow then drawn.1 else Dataset.train_perm d in
      let start := if overflow then 0%Z else Dataset.minibatch_idx d in
      let idx := py_slice perm (Some start) (Some (start + 3)%Z) in
      exists batch_inputs batch_targets d',
        Dataset.minibatch 3 (d, 11%Z)
        = (Ok (batch_inputs, batch_targets),
           (d', if overflow then drawn.2 else 11%Z))
        /\ d' = Dataset.set_cursor (start + 3) perm (Some idx) d
        /\ Dataset.minibatch_indicies d' = Some idx
        /\ Dataset.minibatch_idx d' = (start + 3)%Z
        /\ map_result (fun x => np_take x idx) (Dataset._train_inputs d)
           = Ok (flatten batch_inputs)
        /\ map_result (fun x => np_take x idx) (Dataset._train_targets d)
           = Ok (flatten batch_targets)
        /\ same_structure (Dataset.inputs_structure d) batch_inputs = true
        /\ same_structure (Dataset.targets_structure d) batch_targets = true).
Proof.
  apply (@minibatch_spec reference_array reference_random 10
           (Example.built 10 0%float 5) 11%Z 3).
  constructor.
  - vm_compute. discriminate.
  - vm_compute. repeat constructor.
  - vm_compute. repeat constructor.
  - vm_compute. reflexivity.
  - vm_compute. reflexivity.
  - apply (bool_decide_unpack _). vm_compute. exact I.
Defined.

Section EpochFacts.
Context `{ArrayLib} `{RandomLib}.

Lemma serve_S (calls : nat) (b : Z) s :
  serve (S calls) b s
  = match Dataset.minibatch b s with
    | (Ok _, s1) =>
        match serve calls b s1 with
        | (Ok rest, s2) =>
            (Ok (default [] (Dataset.minibatch_indicies s1.1) :: rest), s2)
        | (Raise e, s2) => (Raise e, s2)
        end
    | (Raise e, s1) => (Raise e, s1)
    end.
Proof.
  simpl. unfold bind, Dataset.self, gets, ret.
  destruct (Dataset.minibatch b s) as [[r|e] s1]; [|done]. simpl.
  by destruct (serve calls b s1) as [[rest|e] s2].
Qed.

(** Calls that stay inside the permutation take it slice after slice. *)
Lemma serve_within_epoch (calls : nat) (b : Z) n d g :
  well_formed n d -> (1 <= b)%Z -> (0 <= Dataset.minibatch_idx d)%Z ->
  (Dataset.minibatch_idx d + Z.of_nat calls * b <= Z.of_nat n)%Z ->
  exists chunks d',
    serve calls b (d, g) = (Ok chunks, (d', g))
    /\ concat chunks
       = take (calls * Z.to_nat b)
           (drop (Z.to_nat (Dataset.minibatch_idx d)) (Dataset.train_perm d))
    /\ length chunks = calls
    /\ well_formed n d'
    /\ Dataset.minibatch_idx d'
       = (Dataset.minibatch_idx d + Z.of_nat calls * b)%Z.
Proof.
  intros Hwf Hb. revert d Hwf.
  induction calls as [|calls IH]; intros d Hwf Hpos Hfit.
  - exists [], d. simpl. rewrite take_0.
    do 4 (split; [done|]). lia.
  - destruct (minibatch_served n d g b Hwf) as (bi & bt & Hcall & _); [lia|].
    simpl in Hcall.
    destruct (Z.gtb_spec (Dataset.minibatch_idx d + b) (Z.of_nat n)); [lia|].
    set (idx := py_slice (Dataset.train_perm d)
                  (Some (Dataset.minibatch_idx d))
                  (Some (Dataset.minibatch_idx d + b)%Z)) in Hcall.
    set (d1 := Dataset.set_cursor (Dataset.minibatch_idx d + b)
                 (Dataset.train_perm d) (Some idx) d) in Hcall.
    assert (well_formed n d1) as Hwf1
      by (apply well_formed_set_cursor; [done|by destruct Hwf]).
    destruct (IH d1 Hwf1) as (chunks & d' & Hrest & Hcat & Hlen & Hwf' & Hidx);
      [simpl; lia|simpl; lia|].
    exists (idx :: chunks), d'.
    split.
    { rewrite serve_S, Hcall, Hrest. done. }
    pose proof (perm_length _ _ (wf_perm _ _ Hwf)) as Hperm.
    split.
    { simpl concat. rewrite Hcat. simpl Dataset.minibatch_idx.
      simpl Dataset.train_perm. unfold idx.
      rewrite py_slice_inside by lia.
      replace (Z.to_nat (Dataset.minibatch_idx d + b))
        with (Z.to_nat (Dataset.minibatch_idx d) + Z.to_nat b) by lia.
      rewrite <- drop_drop.
      replace (Dataset.minibatch_idx d + b - Dataset.minibatch_idx d)%Z
        with b by lia.
      by rewrite take_take_drop. }
    split; [simpl; lia|]. split; [done|].
    rewrite Hidx. simpl. lia.
Qed.

(** A call that rolls over does what the same call does on the object
    with the new epoch started. *)
Lemma minibatch_rollover n d g (b : Z) :
  well_formed n d -> (1 <= b <= Z.of_nat n)%Z ->
  (Z.of_nat n < Dataset.minibatch_idx d + b)%Z ->
  Dataset.minibatch b (d, g)
  = Dataset.minibatch b
      (Dataset.set_cursor 0 (np_random_permutation n g).1
         (Dataset._minibatch_indicies d) d,
       (np_random_permutation n g).2).
Proof.
  intros Hwf Hb Hover.
  set (drawn := np_random_permutation n g).
  set (d1 := Dataset.set_cursor 0 drawn.1 (Dataset._minibatch_indicies d) d).
  assert (well_formed n d1) as Hwf1.
  { apply well_formed_set_cursor; [done|apply np_random_permutation_perm]. }
  destruct (minibatch_served n d g b Hwf)
    as (bi & bt & -> & Hi & Ht & _ & _ & Hpi & Hpt); [lia|].
  destruct (minibatch_served n d1 drawn.2 b Hwf1)
    as (bi' & bt' & -> & Hi' & Ht' & _ & _ & Hpi' & Hpt'); [lia|].
  simpl in *. fold drawn in Hi, Ht |- *.
  destruct (Z.gtb_spec (Dataset.minibatch_idx d + b) (Z.of_nat n)); [|lia].
  destruct (Z.gtb_spec (0 + b) (Z.of_nat n)); [lia|].
  rewrite Hi in Hi'. injection Hi' as Hi'.
  rewrite Ht in Ht'. injection Ht' as Ht'.
  rewrite Hi', Hpi' in Hpi. rewrite Ht', Hpt' in Hpt.
  injection Hpi as <-. injection Hpt as <-. done.
Qed.

(** One epoch, from its boundary: the cursor at 0, or a cursor from
    which the next call rolls over. *)
Lemma serve_epoch (k : nat) (b : Z) n d g :
  well_formed n d -> (1 <= b)%Z -> Z.of_nat n = (Z.of_nat k * b)%Z ->
  Dataset.minibatch_idx d = 0%Z
  \/ (Z.of_nat n < Dataset.minibatch_idx d + b)%Z ->
  exists chunks d' g',
    serve k b (d, g) = (Ok chunks, (d', g'))
    /\ concat chunks ≡ₚ seq 0 n
    /\ length chunks = k
    /\ well_formed n d'
    /\ (Z.of_nat n < Dataset.minibatch_idx d' + b)%Z.
Proof.
  intros Hwf Hb Hn Hstart.
  assert (forall d0 g0, well_formed n d0 -> Dataset.minibatch_idx d0 = 0%Z ->
            exists chunks d' g',
              serve k b (d0, g0) = (Ok chunks, (d', g'))
              /\ concat chunks ≡ₚ seq 0 n
              /\ length chunks = k
              /\ well_formed n d'
              /\ (Z.of_nat n < Dataset.minibatch_idx d' + b)%Z) as Hzero.
  { intros d0 g0 Hwf0 Hcur.
    destruct (serve_within_epoch k b n d0 g0 Hwf0 Hb)
      as (chunks & d' & Hrun & Hcat & Hlen & Hwf' & Hidx); [lia|lia|].
    exists chunks, d', g0. split; [done|]. split.
    { rewrite Hcat, Hcur. simpl. rewrite drop_0.
      pose proof (wf_perm _ _ Hwf0) as Hp.
      rewrite take_ge; [done|]. rewrite (perm_length _ _ Hp). lia. }
    split; [done|]. split; [done|]. lia. }
  destruct Hstart as [Hcur|Hover]; [by apply Hzero|].
  destruct k as [|k].
  { exists [], d, g. simpl. replace n with 0 in * by lia.
    do 3 (split; [done|]). split; [done|lia]. }
  assert (b <= Z.of_nat n)%Z as Hle by nia.
  destruct (Hzero (Dataset.set_cursor 0 (np_random_permutation n g).1
                     (Dataset._minibatch_indicies d) d)
              (np_random_permutation n g).2)
    as (chunks & d' & g' & Hrun & Hrest); [|done|].
  { apply well_formed_set_cursor; [done|apply np_random_permutation_perm]. }
  exists chunks, d', g'. split; [|done].
  rewrite serve_S in Hrun |- *.
  rewrite (minibatch_rollover n d g b Hwf); [|lia|done]. exact Hrun.
Qed.

Lemma serve_add (a c : nat) (b : Z) s :
  serve (a + c) b s
  = match serve a b s with
    | (Ok xs, s') =>
        match serve c b s' with
        | (Ok ys, s'') => (Ok (xs ++ ys), s'')
        | (Raise e, s'') => (Raise e, s'')
        end
    | (Raise e, s') => (Raise e, s')
    end.
Proof.
  revert s. induction a as [|a IH]; intros s.
  - simpl. by destruct (serve c b s) as [[ys|e] s''].
  - replace (S a + c) with (S (a + c)) by done. rewrite !serve_S.
    destruct (Dataset.minibatch b s) as [[r|e] s1]; [|done].
    rewrite IH. destruct (serve a b s1) as [[xs|e] s2]; [|done].
    by destruct (serve c b s2) as [[ys|e] s3].
Qed.
End EpochFacts.

(** C9: with a batch size b >= 1 that divides n_train_samples, calls of
    [minibatch(b)] from the boundary of an epoch (the cursor at 0, or a
    cursor from which the next call rolls over) fall into epochs of
    n_train_samples / b calls.  The index sets of the calls of one epoch
    put end to end are a permutation of the indices below
    n_train_samples, without a repeat: every index once, the sets of
    two calls disjoint. *)
Theorem minibatch_epochs `{ArrayLib} `{RandomLib} (n : nat) (d : Dataset.t)
    (g : rng) (b : Z) (k m : nat) :
  well_formed n d -> (1 <= b)%Z -> Z.of_nat n = (Z.of_nat k * b)%Z ->
  Dataset.minibatch_idx d = 0%Z
  \/ (Z.of_nat n < Dataset.minibatch_idx d + b)%Z ->
  exists chunks s',
    serve (m * k) b (d, g) = (Ok chunks, s')
    /\ length chunks = m * k
    /\ forall e, e < m ->
         let epoch := take k (drop (e * k) chunks) in
         length epoch = k
         /\ concat epoch ≡ₚ seq 0 n
         /\ NoDup (concat epoch).
Proof.
  intros Hwf Hb Hn. revert d g Hwf.
  induction m as [|m IH]; intros d g Hwf Hstart.
  - exists [], (d, g). simpl. split; [done|]. split; [done|]. lia.
  - destruct (serve_epoch k b n d g Hwf Hb Hn Hstart)
      as (first & d' & g' & Hfirst & Hperm & Hlen & Hwf' & Hstart').
    destruct (IH d' g' Hwf' (or_intror Hstart'))
      as (others & s' & Hothers & Hlen' & Hepochs).
    exists (first ++ others), s'.
    replace (S m * k) with (k + m * k) by lia.
    rewrite serve_add, Hfirst, Hothers. split; [done|].
    split; [rewrite length_app; lia|].
    intros [|e] He.
    + simpl. rewrite drop_0, take_app_length' by done.
      split; [done|]. split; [done|]. rewrite Hperm. apply NoDup_seq.
    + replace (S e * k) with (length first + e * k) by lia.
      rewrite drop_app_add. apply Hepochs. lia.
Qed.

Lemma minibatch_epochs_witness :
  exists chunks s',
    serve (3 * 2) 5 (Example.built 10 0%float 5, 11%Z) = (Ok chunks, s')
    /\ length chunks = 3 * 2
    /\ forall e, e < 3 ->
         let epoch := take 2 (drop (e * 2) chunks) in
         length epoch = 2
         /\ concat epoch ≡ₚ seq 0 10
         /\ NoDup (concat epoch).
Proof.
  apply (@minibatch_epochs reference_array reference_random 10
           (Example.built 10 0%float 5) 11%Z 5 2 3).
  - constructor.
    + vm_compute. discriminate.
    + vm_compute. repeat constructor.
    + vm_compute. repeat constructor.
    + vm_compute. reflexivity.
    + vm_compute. reflexivity.
    + apply (bool_decide_unpack _). vm_compute. exact I.
  - lia.
  - lia.
  - left. vm_compute. reflexivity.
Defined.

(** The constructor establishes the invariant, with the cursor at 0. *)
Lemma init_well_formed `{ArrayLib} `{RandomLib} inputs targets test validation
    seed train_frac il tl g d g' :
  Dataset.init inputs targets test validation seed train_frac il tl g
  = (Ok d, g') ->
  exists n, well_formed n d /\ Dataset.minibatch_idx d = 0%Z.
Proof.
  intros Hinit.
  apply init_Ok in Hinit
    as (x & rest & il' & tl' & istr & tstr & test' & validation' & p & g1
        & Hflat & Hsame & Histr & Htstr & _ & _ & Hprep & Hfin).
  apply finish_init_Ok in Hfin as (n & m & s & sm & ss & Hn & -> & _).
  apply pack_sequence_as_inv in Histr as [Histr _].
  apply pack_sequence_as_inv in Htstr as [Htstr _].
  exists n. split; [|done].
  assert (Forall (fun y => length y = n) (Dataset.p_train_inputs p)
          /\ Forall (fun y => length y = n) (Dataset.p_train_targets p)
          /\ length (Dataset.p_train_inputs p) = length (flatten inputs)
          /\ length (Dataset.p_train_targets p) = length (flatten targets))
    as (Hin & Htg & Hli & Hlt).
  { unfold Dataset.n_train_samples in Hn. simpl in Hn.
    destruct (Dataset.is_None validation' && (0 <? train_frac)%float)
      eqn:Hbranch.
    - apply andb_prop in Hbranch as [Hnone Hfrac].
      destruct validation'; [done|].
      apply prepare_validation_split in Hprep
        as (g0 & cut & vi & vt & _ & _ & _ & _ & _ & Hti & Htt & _); [|done].
      apply gathered_lengths in Hti as [Hli Hti].
      apply gathered_lengths in Htt as [Hlt Htt].
      destruct (Dataset.p_train_inputs p) as [|y ys]; [done|].
      injection Hn as <-.
      apply Forall_cons in Hti as [Hy Hti]. rewrite <- Hy in Hti, Htt.
      by repeat split; [constructor| | |].
    - apply prepare_validation_whole in Hprep as [-> _]; [|done].
      simpl in *. rewrite Hflat in Hn. injection Hn as <-.
      apply has_same_batch_true in Hsame as (x0 & rest0 & Hdata & Hall).
      rewrite Hflat in Hdata. injection Hdata as <- _.
      by apply Forall_app in Hall as [? ?]. }
  constructor; simpl.
  - unfold Dataset.n_train_samples in Hn. simpl in Hn.
    by destruct (Dataset.p_train_inputs p).
  - done.
  - done.
  - by rewrite Histr, length_seq.
  - by rewrite Htstr, length_seq.
  - apply np_random_permutation_perm.
Qed.

(** ** [normalize] *)

Section NormalizeFacts.
Context `{ArrayLib} `{RandomLib}.

Lemma flatten_of_list {A} (l : list A) : flatten (of_list l) = l.
Proof. simpl. induction l as [|x l IH]; simpl; [done|]. by rewrite IH. Qed.

Lemma normalize_leaves_spec xs means stds ctl ys :
  Dataset.normalize_leaves xs means stds ctl = Ok ys ->
  length ys = length xs ->
  normalized_by {| Dataset.inputs_mean := means; Dataset.inputs_std := stds;
                   Dataset.control := ctl |} xs ys.
Proof.
  revert means stds ctl ys.
  induction xs as [|x xs IH]; intros means stds ctl ys Hrun Hlen.
  - split; [done|]. intros i y Hi. by rewrite lookup_nil in Hi.
  - destruct means as [|mu means], stds as [|sigma stds], ctl as [|on ctl];
      simpl in Hrun; try (injection Hrun as <-; done).
    apply rbind_Ok in Hrun as (y & Hy & Hrun).
    apply rbind_Ok in Hrun as (ys' & Hys & Hrun). injection Hrun as <-.
    simpl in Hlen. injection Hlen as Hlen.
    destruct (IH means stds ctl ys' Hys Hlen) as [_ Hrest].
    split; [simpl; by f_equal|].
    intros [|i] x' Hi; simpl in *.
    + injection Hi as <-. exists y, mu, sigma, on.
      do 4 (split; [done|]). destruct on; [|by injection Hy].
      apply rbind_Ok in Hy as (z & Hz & Hy). by exists z.
    + by apply Hrest.
Qed.

(** The transform on a flat list of leaves. *)
Lemma normalize_inputs_of_list c xs t :
  Dataset.normalize_inputs c (of_list xs) = Ok t ->
  normalized_by c xs (flatten t).
Proof.
  unfold Dataset.normalize_inputs. rewrite flatten_of_list.
  intros Hrun. apply rbind_Ok in Hrun as (ys & Hys & Hpack).
  pose proof Hpack as Hlen. unfold pack_sequence_as in Hlen.
  rewrite flatten_of_list in Hlen.
  destruct (Nat.eqb_spec (length xs) (length ys)) as [Hlen'|]; [|done].
  apply pack_sequence_as_inv in Hpack as [-> _].
  destruct c as [means stds ctl]. by apply normalize_leaves_spec.
Qed.

End NormalizeFacts.

(** C5: a call of [normalize] that returns has replaced every
    training-input leaf i whose control[i] is true (all of them when no
    control is given) by (leaf - mean_i) / std_i, with the mean and the
    standard deviation that [update_stats] computed from the training
    inputs at the start of the call, and has left every leaf whose
    control[i] is false as it was; the test and the validation inputs,
    when present, went through the same transform, and the transform is
    stored as [normalizer]. *)
Theorem normalize_spec `{ArrayLib} `{RandomLib} (d d' : Dataset.t) (g g' : rng)
    (ax : option axis) (ctl : option (nest bool)) :
  Dataset.normalize ax ctl (d, g) = (Ok tt, (d', g')) ->
  exists stats,
    map_result (fun x => Dataset.get_stats x ax) (Dataset._train_inputs d)
    = Ok stats
    /\ let c :=
         {| Dataset.inputs_mean := map (fun s => s.1.1.1) stats;
            Dataset.inputs_std := map (fun s => s.1.1.2) stats;
            Dataset.control :=
              match ctl with
              | None => replicate (length (Dataset._train_inputs d)) true
              | Some c => flatten c
              end |} in
       Dataset.normalizer d' = Some c
       /\ normalized_by c (Dataset._train_inputs d) (Dataset._train_inputs d')
       /\ option_normalized_by c (Dataset._test_inputs d)
            (Dataset._test_inputs d')
       /\ option_normalized_by c (Dataset._validation_inputs d)
            (Dataset._validation_inputs d')
       /\ Dataset.apply_normalizer (Dataset.normalizer d')
          = Dataset.normalize_inputs c.
Proof.
  unfold Dataset.normalize. intros Hrun.
  apply bind_Ok in Hrun as ([] & [d1 g1] & Hstats & Hrun).
  apply update_stats_Ok in Hstats as (stats & Hstats & -> & ->).
  exists stats. split; [done|]. simpl.
  set (c := {| Dataset.inputs_mean := map (fun s => s.1.1.1) stats;
               Dataset.inputs_std := map (fun s => s.1.1.2) stats;
               Dataset.control :=
                 match ctl with
                 | None => replicate (length (Dataset._train_inputs d)) true
                 | Some c => flatten c
                 end |}).
  unfold bind, Dataset.self, gets, Dataset.assign, modify, lift_result, ret
    in Hrun.
  simpl in Hrun. fold c in Hrun.
  destruct (Dataset.normalize_inputs c (of_list (Dataset._train_inputs d)))
    as [train'|] eqn:Htrain; [|done].
  simpl in Hrun.
  apply normalize_inputs_of_list in Htrain.
  assert (exists d2,
             option_normalized_by c (Dataset._test_inputs d)
               (Dataset._test_inputs d2)
             /\ option_normalized_by c (Dataset._validation_inputs d)
                  (Dataset._validation_inputs d2)
             /\ Dataset._train_inputs d2 = flatten train'
             /\ Dataset.normalizer d2 = Some c
             /\ Dataset.update_stats ax (d2, g) = (Ok tt, (d', g')))
    as (d2 & Htest & Hvalidation & Htr & Hnorm & Hlast).
  { destruct (Dataset._test_inputs d) as [test|] eqn:Htest; simpl in Hrun.
    - destruct (Dataset.normalize_inputs c (of_list test))
        as [test'|] eqn:Ht; [|done]. simpl in Hrun.
      apply normalize_inputs_of_list in Ht.
      destruct (Dataset._validation_inputs d) as [validation|] eqn:Hvalidation;
        simpl in Hrun.
      + destruct (Dataset.normalize_inputs c (of_list validation))
          as [validation'|] eqn:Hv; [|done]. simpl in Hrun.
        apply normalize_inputs_of_list in Hv.
        by refine (ex_intro _ _ (conj _ (conj _ (conj _ (conj _ Hrun))))).
      + refine (ex_intro _ _ (conj _ (conj _ (conj _ (conj _ Hrun)))));
          simpl; try done.
        by rewrite Hvalidation.
    - destruct (Dataset._validation_inputs d) as [validation|] eqn:Hvalidation;
        simpl in Hrun.
      + destruct (Dataset.normalize_inputs c (of_list validation))
          as [validation'|] eqn:Hv; [|done]. simpl in Hrun.
        apply normalize_inputs_of_list in Hv.
        refine (ex_intro _ _ (conj _ (conj _ (conj _ (conj _ Hrun)))));
          simpl; try done.
        by rewrite Htest.
      + refine (ex_intro _ _ (conj _ (conj _ (conj _ (conj _ Hrun)))));
          simpl; try done.
        * by rewrite Htest.
        * by rewrite Hvalidation. }
  apply update_stats_Ok in Hlast as (stats' & _ & -> & ->). simpl.
  rewrite Hnorm, Htr. done.
Qed.

Lemma normalize_spec_witness :
  exists stats,
    map_result (fun x => Dataset.get_stats x None)
      (Dataset._train_inputs Example.nested) = Ok stats
    /\ let c :=
         {| Dataset.inputs_mean := map (fun s => s.1.1.1) stats;
            Dataset.inputs_std := map (fun s => s.1.1.2) stats;
            Dataset.control := flatten (Node KTuple [Leaf true; Leaf false]) |}
       in
       Dataset.normalizer Example.nested_normalized.1 = Some c
       /\ normalized_by c (Dataset._train_inputs Example.nested)
            (Dataset._train_inputs Example.nested_normalized.1)
       /\ option_normalized_by c (Dataset._test_inputs Example.nested)
            (Dataset._test_inputs Example.nested_normalized.1)
       /\ option_normalized_by c (Dataset._validation_inputs Example.nested)
            (Dataset._validation_inputs Example.nested_normalized.1)
       /\ Dataset.apply_normalizer
            (Dataset.normalizer Example.nested_normalized.1)
          = Dataset.normalize_inputs c.
Proof.
  apply (@normalize_spec reference_array reference_random Example.nested
           Example.nested_normalized.1 9%Z Example.nested_normalized.2 None
           (Some (Node KTuple [Leaf true; Leaf false]))).
  vm_compute. reflexivity.
Defined.

Section FrameFacts.
Context `{ArrayLib} `{RandomLib}.

Lemma preserves_ret {A} (a : A) : preserves (ret a).
Proof. done. Qed.

Lemma preserves_raise {A} e : preserves (raise (A := A) e).
Proof. done. Qed.

Lemma preserves_lift_result {A} (r : result A) : preserves (lift_result r).
Proof. done. Qed.

Lemma preserves_self {A} (f : Dataset.t -> A) : preserves (Dataset.self f).
Proof. done. Qed.

Lemma preserves_bind {A B} (m : Dataset.method A) (k : A -> Dataset.method B) :
  preserves m -> (forall a, preserves (k a)) -> preserves (bind m k).
Proof.
  intros Hm Hk s. unfold bind. specialize (Hm s).
  destruct (m s) as [[a|e] s1]; [|done]. simpl in Hm.
  by rewrite Hk.
Qed.

Lemma preserves_assign (f : Dataset.t -> Dataset.t) :
  (forall d, untouched (f d) = untouched d) -> preserves (Dataset.assign f).
Proof. intros Hf s. apply Hf. Qed.

Lemma preserves_update_stats ax : preserves (Dataset.update_stats ax).
Proof.
  unfold Dataset.update_stats.
  apply preserves_bind; [apply preserves_self|intros xs].
  apply preserves_bind; [apply preserves_lift_result|intros stats].
  destruct stats; [apply preserves_raise|by apply preserves_assign].
Qed.

Lemma preserves_normalize ax ctl : preserves (Dataset.normalize ax ctl).
Proof.
  unfold Dataset.normalize.
  repeat first
    [ apply preserves_update_stats
    | apply preserves_self
    | apply preserves_lift_result
    | apply preserves_ret
    | apply preserves_assign; done
    | apply preserves_bind; [|intros ?]
    | case_match ].
Qed.
End FrameFacts.

(** C10: a call of [normalize], whether it returns or raises, leaves
    the targets of the training, test and validation sets, the labels
    of inputs and targets and the two structures as they were. *)
Theorem normalize_frame `{ArrayLib} `{RandomLib} (d : Dataset.t) (g : rng)
    (ax : option axis) (ctl : option (nest bool)) :
  untouched (Dataset.normalize ax ctl (d, g)).2.1 = untouched d.
Proof. apply (preserves_normalize ax ctl (d, g)). Qed.

(** ** Seeds *)

Section SeedFacts.
Context `{ArrayLib} `{RandomLib}.

(** A seed that is not 0 makes the split the same whatever the state of
    the generator was. *)
Lemma seeded_split_deterministic inputs targets test (seed : Z) train_frac
    il tl g1 g2 :
  seed <> 0%Z -> (0 <? train_frac)%float = true ->
  (Dataset.init inputs targets test None (Some seed) train_frac il tl g1).1
  = (Dataset.init inputs targets test None (Some seed) train_frac il tl g2).1.
Proof.
  intros Hseed Hfrac.
  unfold Dataset.init, bind, lift_result, raise; simpl.
  destruct (Dataset.labels_for "inputs" il inputs) as [il'|]; [|done].
  destruct (Dataset.labels_for "targets" tl targets) as [tl'|]; [|done].
  destruct (flatten inputs) as [|x rest] eqn:Hflat; [done|].
  destruct (Dataset.has_same_batch _) as [[]|] eqn:Hsame; simpl; [|done..].
  destruct (pack_sequence_as inputs _) as [istr|]; [|done].
  destruct (pack_sequence_as targets _) as [tstr|]; [|done].
  destruct (Dataset.verify_optional _ istr tstr test) as [test'|]; [|done].
  unfold Dataset.prepare_validation. simpl. rewrite Hfrac.
  unfold bind, Dataset.seed_if_truthy, Dataset.truthy, Dataset.random_seed.
  destruct (Z.eqb_spec seed 0) as [|_]; [done|]. simpl.
  by destruct (np_random_seed seed) as [g'|e].
Qed.

Lemma seeded_epoch_deterministic (seed : Z) d g1 g2 :
  seed <> 0%Z ->
  (Dataset.next_epoch (Some seed) (d, g1)).1
  = (Dataset.next_epoch (Some seed) (d, g2)).1
  /\ (Dataset.next_epoch (Some seed) (d, g1)).2.1
     = (Dataset.next_epoch (Some seed) (d, g2)).2.1.
Proof.
  intros Hseed.
  unfold Dataset.next_epoch, bind, Dataset.assign, modify, Dataset.global,
    Dataset.seed_if_truthy, Dataset.truthy, Dataset.random_seed; simpl.
  destruct (Z.eqb_spec seed 0) as [|_]; [done|]. simpl.
  by destruct (np_random_seed seed) as [g'|e].
Qed.

(** The seed 0 is passed over by [if seed:]. *)
Lemma seed_zero_is_no_seed inputs targets test validation train_frac il tl g :
  Dataset.init inputs targets test validation (Some 0%Z) train_frac il tl g
  = Dataset.init inputs targets test validation None train_frac il tl g.
Proof. done. Qed.

Lemma seed_zero_is_no_seed_epoch s :
  Dataset.next_epoch (Some 0%Z) s = Dataset.next_epoch None s.
Proof. done. Qed.
End SeedFacts.

(** C6: the seed 0 is given and is not applied.  Two constructions from
    the same ten rows with [seed=0], the generator in two different
    states, draw two different splits, and [next_epoch(0)] on one object
    draws two different permutations; with the seed 42 the two splits
    are the same. *)
Theorem seed_zero_not_applied :
  Example.split_of (Some 0%Z) 5
  = Some (Some [0; 2; 3; 5; 6; 7; 8; 9], Some [1; 4])
  /\ Example.split_of (Some 0%Z) 6
     = Some (Some [0; 2; 3; 4; 6; 7; 8; 9], Some [1; 5])
  /\ Example.split_of (Some 42%Z) 5 = Example.split_of (Some 42%Z) 6
  /\ Dataset.train_perm
       (Dataset.next_epoch (Some 0%Z) (Example.built 10 0%float 5, 5%Z)).2.1
     = [7; 5; 6; 0; 9; 3; 2; 8; 1; 4]
  /\ Dataset.train_perm
       (Dataset.next_epoch (Some 0%Z) (Example.built 10 0%float 5, 6%Z)).2.1
     = [0; 4; 8; 9; 6; 7; 3; 2; 1; 5].
Proof. vm_compute. done. Qed.

(** ** [copy] *)

(** C7: a dataset constructed without a validation set
    ([train_frac=0]) has ten training rows; its copy is constructed
    with the default [train_frac], so it splits: eight training rows
    and two validation rows.  The original is left as it was. *)
Theorem copy_splits_again :
  let d := Example.built 10 0%float 5 in
  Dataset.n_train_samples d = Ok 10
  /\ Dataset._validation_inputs d = None
  /\ exists d' g',
       Dataset.copy (d, 11%Z) = (Ok d', (d, g'))
       /\ Dataset.n_train_samples d' = Ok 8
       /\ Dataset.n_validation_samples d' = Ok 2
       /\ Dataset._train_inputs d' <> Dataset._train_inputs d.
Proof.
  split; [vm_compute; reflexivity|]. split; [vm_compute; reflexivity|].
  eexists _, _. split; [vm_compute; reflexivity|].
  split; [vm_compute; reflexivity|]. split; [vm_compute; reflexivity|].
  vm_compute. discriminate.
Qed.

(** A structure held in a tuple has no [copy]. *)
Lemma copy_of_tuple_raises :
  (Dataset.copy (Example.nested, 11%Z)).1 = Raise AttributeError.
Proof. vm_compute. reflexivity. Qed.

(** ** [MultiDataset] *)

Section MultiFacts.
Context `{ArrayLib} `{RandomLib}.

Lemma read_at {A} (f : Dataset.t -> result A) l (h : MultiDataset.heap) g o :
  h !! l = Some o ->
  MultiDataset.read f l (h, g) = (f o, (h, g)).
Proof.
  intros Hl. unfold MultiDataset.read, MultiDataset.call. simpl. rewrite Hl.
  unfold bind, Dataset.self, gets, lift_result. simpl.
  by rewrite list_insert_id.
Qed.

(** Reading one count from every dataset changes nothing. *)
Lemma read_all {A} (f : Dataset.t -> result A) ds (h : MultiDataset.heap) g
    (vs : list A) :
  Forall2 (fun l v => exists o, h !! l = Some o /\ f o = Ok v) ds vs ->
  mapM_ (MultiDataset.read f) ds (h, g) = (Ok vs, (h, g)).
Proof.
  induction 1 as [|l v ds vs (o & Hl & Hv) _ IH]; [done|].
  simpl. unfold bind at 1. rewrite (read_at f l h g o Hl), Hv.
  unfold bind at 1. by rewrite IH.
Qed.

Lemma foldl_min_le (ns : list nat) (a : nat) :
  foldl Nat.min a ns <= a /\ Forall (fun n => foldl Nat.min a ns <= n) ns
  /\ (foldl Nat.min a ns = a \/ foldl Nat.min a ns ∈ ns).
Proof.
  revert a. induction ns as [|n ns IH]; intros a; simpl.
  - split; [done|]. split; [constructor|by left].
  - destruct (IH (a `min` n)) as (Hle & Hall & Hin).
    split; [lia|]. split; [constructor; [lia|done]|].
    destruct Hin as [Heq|Hin]; [|right; by constructor].
    rewrite Heq. destruct (Nat.min_spec a n) as [[_ ->]|[_ ->]];
      [by left|right; constructor].
Qed.

Lemma py_min_minimum (ns : list nat) :
  ns <> [] -> exists m, py_min ns = Ok m /\ minimum m ns.
Proof.
  destruct ns as [|a ns]; [done|]. intros _. simpl. eexists. split; [done|].
  destruct (foldl_min_le ns a) as (Hle & Hall & Hin). split.
  - destruct Hin as [->|Hin]; [constructor|by constructor].
  - by constructor.
Qed.

Lemma well_formed_unique n n' d :
  well_formed n d -> well_formed n' d -> n = n'.
Proof.
  intros Hn Hn'. apply n_train_samples_wf in Hn, Hn'. congruence.
Qed.

(** A dataset that served a minibatch has the counts it had. *)
Lemma counts_after_call (h : MultiDataset.heap) l o o' g b r g' l' c :
  h !! l = Some o ->
  well_formed c.1.1 o \/ l <> l' ->
  Dataset.minibatch b (o, g) = (Ok r, (o', g')) ->
  counts h l' c -> counts (<[l := o']> h) l' c.
Proof.
  intros Hl Hc Hcall (o0 & Hl' & Hwf & Htest & Hval).
  destruct (decide (l = l')) as [<-|Hne].
  - assert (o0 = o) as -> by congruence.
    destruct (minibatch_served c.1.1 o g b Hwf) as (bi & bt & Hrun & _).
    { destruct (Z_le_gt_dec b (Z.of_nat c.1.1)) as [|Hgt]; [done|].
      rewrite (minibatch_refused c.1.1 o g b Hwf) in Hcall by lia. done. }
    rewrite Hcall in Hrun. injection Hrun as _ -> _.
    eexists.
    split.
    { apply list_lookup_insert_eq. by eapply lookup_lt_Some. }
    split; [|done].
    apply well_formed_set_cursor; [done|].
    case_match; [apply np_random_permutation_perm|by destruct Hwf].
  - exists o0. by rewrite list_lookup_insert_ne.
Qed.

(** The calls on the datasets, one after the other, all return. *)
Lemma serve_all (b : Z) ds cs (h : MultiDataset.heap) g :
  Forall2 (counts h) ds cs ->
  Forall (fun c => (b <= Z.of_nat c.1.1)%Z) cs ->
  exists rs w,
    mapM_ (fun l => MultiDataset.call l (Dataset.minibatch b)) ds (h, g)
    = (Ok rs, w)
    /\ served b ds (h, g) rs w
    /\ length rs = length ds.
Proof.
  revert cs h g. induction ds as [|l ds IH]; intros cs h g Hcs Hb.
  - exists [], (h, g). repeat split. constructor.
  - apply Forall2_cons_inv_l in Hcs as (c & cs' & Hc & Hrest & ->).
    rename cs' into cs.
    apply Forall_cons in Hb as [Hbc Hb].
    pose proof Hc as (o & Hl & Hwf & _).
    destruct (minibatch_served c.1.1 o g b Hwf Hbc) as (bi & bt & Hcall & _).
    simpl in Hcall.
    match type of Hcall with _ = (_, (?o1, ?g1)) =>
      set (o' := o1) in *; set (g' := g1) in * end.
    assert (Forall2 (counts (<[l := o']> h)) ds cs) as Hrest'.
    { eapply Forall2_impl; [exact Hrest|]. intros l' c' Hc'.
      eapply counts_after_call; [exact Hl| |exact Hcall|exact Hc'].
      destruct (decide (l = l')) as [<-|]; [|by right]. left.
      destruct Hc' as (o0 & Hl0 & Hwf0 & _).
      assert (o0 = o) as -> by congruence.
      by rewrite (well_formed_unique _ _ _ Hwf0 Hwf). }
    destruct (IH cs (<[l := o']> h) g' Hrest' Hb)
      as (rs & w & Hrun & Hserved & Hlen).
    exists ((bi, bt) :: rs), w. split; [|split].
    + simpl. unfold bind at 1. unfold MultiDataset.call at 1. simpl.
      rewrite Hl, Hcall. unfold bind at 1. rewrite Hrun. done.
    + econstructor; [exact Hl|exact Hcall|exact Hserved].
    + simpl. by rewrite Hlen.
Qed.
End MultiFacts.

(** C8, amended: for a [MultiDataset] that holds at least one dataset,
    [n_train_samples], [n_test_samples] and [n_validation_samples] are
    the least of the counts of the datasets held, and reading them
    changes nothing; [minibatch(batch_size)] raises, and then the size
    error with nothing changed, exactly when batch_size exceeds the
    least number of training samples; otherwise it calls
    [minibatch(batch_size)] on every dataset held, in the order of
    construction, each on its own object, and returns the inputs and
    the targets of the calls as two lists in that order. *)
Theorem multi_minibatch_spec `{ArrayLib} `{RandomLib} (md : MultiDataset.t)
    (h : MultiDataset.heap) (g : rng) (cs : list (nat * nat * nat))
    (batch_size : Z) :
  MultiDataset._datasets md <> [] ->
  Forall2 (counts h) (MultiDataset._datasets md) cs ->
  exists n t v,
    minimum n (map (fun c => c.1.1) cs)
    /\ minimum t (map (fun c => c.1.2) cs)
    /\ minimum v (map (fun c => c.2) cs)
    /\ MultiDataset.n_train_samples md (h, g) = (Ok n, (h, g))
    /\ MultiDataset.n_test_samples md (h, g) = (Ok t, (h, g))
    /\ MultiDataset.n_validation_samples md (h, g) = (Ok v, (h, g))
    /\ ((exists e w, MultiDataset.minibatch md batch_size (h, g) = (Raise e, w))
        <-> (batch_size > Z.of_nat n)%Z)
    /\ ((batch_size > Z.of_nat n)%Z ->
        MultiDataset.minibatch md batch_size (h, g)
        = (Raise (BatchSizeError n), (h, g)))
    /\ ((batch_size <= Z.of_nat n)%Z ->
        exists rs w,
          served batch_size (MultiDataset._datasets md) (h, g) rs w
          /\ length rs = length (MultiDataset._datasets md)
          /\ MultiDataset.minibatch md batch_size (h, g)
             = (Ok (map fst rs, map snd rs), w)).
Proof.
  intros Hne Hcs.
  assert (cs <> []) as Hcs_ne.
  { intros ->. apply Forall2_nil_inv_r in Hcs. done. }
  destruct (py_min_minimum (map (fun c => c.1.1) cs)) as (n & Hn & Hmin_n);
    [by destruct cs|].
  destruct (py_min_minimum (map (fun c => c.1.2) cs)) as (t & Ht & Hmin_t);
    [by destruct cs|].
  destruct (py_min_minimum (map (fun c => c.2) cs)) as (v & Hv & Hmin_v);
    [by destruct cs|].
  assert (MultiDataset.n_train_samples md (h, g) = (Ok n, (h, g))) as Hread_n.
  { unfold MultiDataset.n_train_samples, bind.
    rewrite (read_all _ _ h g (map (fun c => c.1.1) cs)).
    - unfold lift_result. by rewrite Hn.
    - apply Forall2_fmap_r. eapply Forall2_impl; [exact Hcs|].
      intros l c (o & Hl & Hwf & _). exists o. split; [done|].
      by apply n_train_samples_wf. }
  assert (MultiDataset.n_test_samples md (h, g) = (Ok t, (h, g))) as Hread_t.
  { unfold MultiDataset.n_test_samples, bind.
    rewrite (read_all _ _ h g (map (fun c => c.1.2) cs)).
    - unfold lift_result. by rewrite Ht.
    - apply Forall2_fmap_r. eapply Forall2_impl; [exact Hcs|].
      intros l c (o & Hl & _ & Htest & _). by exists o. }
  assert (MultiDataset.n_validation_samples md (h, g) = (Ok v, (h, g)))
    as Hread_v.
  { unfold MultiDataset.n_validation_samples, bind.
    rewrite (read_all _ _ h g (map (fun c => c.2) cs)).
    - unfold lift_result. by rewrite Hv.
    - apply Forall2_fmap_r. eapply Forall2_impl; [exact Hcs|].
      intros l c (o & Hl & _ & _ & Hval). by exists o. }
  assert ((batch_size > Z.of_nat n)%Z ->
          MultiDataset.minibatch md batch_size (h, g)
          = (Raise (BatchSizeError n), (h, g))) as Hrefused.
  { intros Hgt. unfold MultiDataset.minibatch, bind. rewrite Hread_n.
    by destruct (Z.gtb_spec batch_size (Z.of_nat n)); [|lia]. }
  assert ((batch_size <= Z.of_nat n)%Z ->
          exists rs w,
            served batch_size (MultiDataset._datasets md) (h, g) rs w
            /\ length rs = length (MultiDataset._datasets md)
            /\ MultiDataset.minibatch md batch_size (h, g)
               = (Ok (map fst rs, map snd rs), w)) as Hserved.
  { intros Hle.
    destruct (serve_all batch_size (MultiDataset._datasets md) cs h g Hcs)
      as (rs & w & Hrun & Hserved & Hlen).
    { destruct Hmin_n as [_ Hall]. rewrite Forall_fmap in Hall.
      eapply Forall_impl; [exact Hall|]. simpl. lia. }
    exists rs, w. split; [done|]. split; [done|].
    unfold MultiDataset.minibatch, bind. rewrite Hread_n.
    destruct (Z.gtb_spec batch_size (Z.of_nat n)); [lia|].
    rewrite Hrun. unfold lift_result, MultiDataset.unzip2.
    destruct rs; [|done]. by destruct (MultiDataset._datasets md). }
  exists n, t, v. do 6 (split; [done|]).
  split; [split|by split].
  - intros (e & w & Hraise).
    destruct (Z_le_gt_dec batch_size (Z.of_nat n)) as [Hle|Hgt]; [|done].
    destruct (Hserved Hle) as (rs & w' & _ & _ & Hok). congruence.
  - intros Hgt. eexists _, _. by apply Hrefused.
Qed.

Lemma multi_minibatch_spec_witness :
  exists n t v,
    minimum n (map (fun c => c.1.1) [(10, 0, 0); (20, 0, 0)])
    /\ minimum t (map (fun c => c.1.2) [(10, 0, 0); (20, 0, 0)])
    /\ minimum v (map (fun c => c.2) [(10, 0, 0); (20, 0, 0)])
    /\ MultiDataset.n_train_samples Example.multi (Example.two_datasets, 1%Z)
       = (Ok n, (Example.two_datasets, 1%Z))
    /\ MultiDataset.n_test_samples Example.multi (Example.two_datasets, 1%Z)
       = (Ok t, (Example.two_datasets, 1%Z))
    /\ MultiDataset.n_validation_samples Example.multi
         (Example.two_datasets, 1%Z)
       = (Ok v, (Example.two_datasets, 1%Z))
    /\ ((exists e w,
            MultiDataset.minibatch Example.multi 5
              (Example.two_datasets, 1%Z) = (Raise e, w))
        <-> (5 > Z.of_nat n)%Z)
    /\ ((5 > Z.of_nat n)%Z ->
        MultiDataset.minibatch Example.multi 5 (Example.two_datasets, 1%Z)
        = (Raise (BatchSizeError n), (Example.two_datasets, 1%Z)))
    /\ ((5 <= Z.of_nat n)%Z ->
        exists rs w,
          served 5 (MultiDataset._datasets Example.multi)
            (Example.two_datasets, 1%Z) rs w
          /\ length rs = length (MultiDataset._datasets Example.multi)
          /\ MultiDataset.minibatch Example.multi 5
               (Example.two_datasets, 1%Z)
             = (Ok (map fst rs, map snd rs), w)).
Proof.
  apply (@multi_minibatch_spec reference_array reference_random Example.multi
           Example.two_datasets 1%Z [(10, 0, 0); (20, 0, 0)] 5).
  - discriminate.
  - repeat constructor.
    + eexists. split; [reflexivity|]. split; [|split; reflexivity].
      constructor.
      * vm_compute. discriminate.
      * vm_compute. repeat constructor.
      * vm_compute. repeat constructor.
      * vm_compute. reflexivity.
      * vm_compute. reflexivity.
      * apply (bool_decide_unpack _). vm_compute. exact I.
    + eexists. split; [reflexivity|]. split; [|split; reflexivity].
      constructor.
      * vm_compute. discriminate.
      * vm_compute. repeat constructor.
      * vm_compute. repeat constructor.
      * vm_compute. reflexivity.
      * vm_compute. reflexivity.
      * apply (bool_decide_unpack _). vm_compute. exact I.
Defined.

(** The scenario of the specification: datasets of 10 and of 20
    training samples. *)
Lemma multi_ten_and_twenty :
  (MultiDataset.n_train_samples Example.multi (Example.two_datasets, 1%Z)).1
  = Ok 10
  /\ is_ok (MultiDataset.minibatch Example.multi 5
              (Example.two_datasets, 1%Z)).1 = true
  /\ (MultiDataset.minibatch Example.multi 15 (Example.two_datasets, 1%Z)).1
     = Raise (BatchSizeError 10).
Proof. vm_compute. done. Qed.

(** C8 as stated fails on a [MultiDataset] that holds no dataset:
    [n_train_samples] raises, there being no least count, and
    [minibatch(0)] raises although 0 exceeds no count; the error is that
    of [min], not the size error. *)
Lemma multi_dataset_of_none :
  MultiDataset.n_train_samples (MultiDataset.init [])
    (@nil (@Dataset.t reference_array), 1%Z)
  = (Raise EmptySequenceError, ([], 1%Z))
  /\ MultiDataset.minibatch (MultiDataset.init []) 0
       (@nil (@Dataset.t reference_array), 1%Z)
     = (Raise EmptySequenceError, ([], 1%Z)).
Proof. split; reflexivity. Qed.

(** ** The straddling batch *)

(** A turn of [batchify] that overflows the epoch while another epoch
    remains yields the rest of the old permutation and the head of the
    new one: [N - pos] rows and [min(missing, N)] rows.  That is
    [batchsize] rows as long as [pos + batchsize <= 2 * N]. *)
Lemma straddle_size {A} `{RandomLib} (data : nest (list A)) (x : list A)
    (xs : list (list A)) (N : nat) (B n_epochs : Z) (shuffle cutoff : bool)
    (perm : list nat) (pos epoch : Z) (s : Batchify.frame * rng) :
  flatten data = x :: xs ->
  Forall (fun y => length y = N) (x :: xs) ->
  perm ≡ₚ seq 0 N ->
  (0 <= pos <= Z.of_nat N)%Z -> (Z.of_nat N < pos + B)%Z ->
  epoch <> (n_epochs - 1)%Z ->
  (n_epochs <= 0 \/ epoch < n_epochs - 1 \/ pos < Z.of_nat N)%Z ->
  exists b s',
    Batchify.turn data B n_epochs shuffle cutoff N perm pos epoch s
    = (Ok (Some b), s')
    /\ has_size (Z.to_nat (Z.of_nat N - pos)
                 + Z.to_nat (Z.min (pos + B - Z.of_nat N) (Z.of_nat N))) b.
Proof.
  intros Hdata Hsame Hperm Hpos Hover Hmore Hloop.
  unfold Batchify.turn.
  replace ((n_epochs <=? 0)%Z || (epoch <? n_epochs - 1)%Z
           || (pos <? Z.of_nat N)%Z) with true.
  2:{ symmetry. rewrite !orb_true_iff.
      rewrite Z.leb_le, !Z.ltb_lt. tauto. }
  destruct (Z.gtb_spec (pos + B) (Z.of_nat N)); [|lia].
  destruct (Z.eqb_spec epoch (n_epochs - 1)); [done|].
  unfold bind at 1.
  assert (exists perm' s1,
             Batchify.get_perm shuffle N s = (Ok perm', s1)
             /\ perm' ≡ₚ seq 0 N) as (perm' & s1 & -> & Hperm').
  { unfold Batchify.get_perm. destruct shuffle.
    - pose proof (np_random_permutation_perm N s.2) as Hp.
      destruct (np_random_permutation N s.2) as [p g']. by eexists _, _.
    - by eexists _, _. }
  set (idx := py_slice perm (Some pos) None
              ++ py_slice perm' None (Some (pos + B - Z.of_nat N)%Z)).
  destruct (get_data_ok data x xs N Hdata Hsame idx) as (b & Hb & Hsize & _).
  { apply Forall_app. split; apply py_slice_Forall; by eapply perm_bounded. }
  exists b. unfold bind, lift_result, Batchify.suspend, modify, ret.
  rewrite Hb. eexists. split; [done|].
  unfold idx in Hsize.
  rewrite length_app, py_slice_from_length, py_slice_upto_length in Hsize
    by lia.
  rewrite (perm_length _ _ Hperm), (perm_length _ _ Hperm') in Hsize.
  replace (Z.to_nat (Z.of_nat N - pos)
           + Z.to_nat (Z.min (pos + B - Z.of_nat N) (Z.of_nat N)))
    with (N - Z.to_nat pos + Z.to_nat (pos + B - Z.of_nat N) `min` N) by lia.
  done.
Qed.

(** ** The invariant is kept *)

Section InvariantFacts.
Context `{ArrayLib} `{RandomLib}.

Lemma next_epoch_well_formed n d g :
  well_formed n d -> well_formed n (Dataset.next_epoch None (d, g)).2.1.
Proof.
  intros Hwf. rewrite (next_epoch_None n d g Hwf). simpl.
  apply well_formed_set_cursor; [done|apply np_random_permutation_perm].
Qed.

Lemma minibatch_well_formed n d g (b : Z) :
  well_formed n d -> well_formed n (Dataset.minibatch b (d, g)).2.1.
Proof.
  intros Hwf. destruct (Z_le_gt_dec b (Z.of_nat n)) as [Hle|Hgt].
  - destruct (minibatch_served n d g b Hwf Hle) as (bi & bt & -> & _).
    simpl. apply well_formed_set_cursor; [done|].
    case_match; [apply np_random_permutation_perm|by destruct Hwf].
  - rewrite (minibatch_refused n d g b Hwf) by lia. done.
Qed.
End InvariantFacts.

(** ** A copy that does not split *)

Section CopyFacts.
Context `{ArrayLib} `{RandomLib}.

Lemma py_copy_Ok {A} (x y : nest A) : py_copy x = Ok y -> y = x.
Proof. destruct x as [a|[] ts]; simpl; congruence. Qed.

Lemma pack_optional_Ok {A B} (structure : nest A) (v : option (list B)) r :
  Dataset.pack_optional structure v = Ok r ->
  (v = None /\ r = None)
  \/ exists flat t, v = Some flat /\ r = Some t /\ flatten t = flat.
Proof.
  destruct v as [flat|]; simpl; [|intros [= <-]; by left].
  destruct (pack_sequence_as structure flat) as [t|] eqn:Ht; [|done].
  intros [= <-]. right. exists flat, t.
  by apply pack_sequence_as_inv in Ht as [-> _].
Qed.

Lemma verify_optional_Ok message istr tstr set v :
  Dataset.verify_optional message istr tstr set = Ok v ->
  v = (fun s => (flatten s.1, flatten s.2)) <$> set.
Proof.
  destruct set as [[a b]|]; simpl; [|by intros [= <-]].
  destruct (assert_same_structure a istr); [|done]. simpl.
  destruct (assert_same_structure b tstr); [|done]. simpl.
  destruct (Dataset.has_same_batch _) as [[]|]; simpl; [|done..].
  by intros [= <-].
Qed.

(** When the dataset has a validation set, a copy that is returned
    holds the training, validation and test leaves of the original, a
    cursor at 0 on a permutation of its own and the identity as
    normalizer; the original is not changed. *)
Lemma copy_with_validation d g d' s' vi vt :
  Dataset._validation_inputs d = Some vi ->
  Dataset._validation_targets d = Some vt ->
  Dataset.copy (d, g) = (Ok d', s') ->
  s'.1 = d
  /\ Dataset._train_inputs d' = Dataset._train_inputs d
  /\ Dataset._train_targets d' = Dataset._train_targets d
  /\ Dataset._validation_inputs d' = Some vi
  /\ Dataset._validation_targets d' = Some vt
  /\ Dataset._test_inputs d' = Dataset._test_inputs d
  /\ (Dataset._test_inputs d = None
      \/ Dataset._test_targets d' = Dataset._test_targets d)
  /\ Dataset.train_idx d' = None
  /\ Dataset.normalizer d' = None
  /\ Dataset.minibatch_idx d' = 0%Z.
Proof.
  intros Hvi Hvt.
  unfold Dataset.copy, bind, Dataset.self, gets, lift_result, Dataset.global.
  simpl.
  destruct (Dataset.train_inputs d) as [x|] eqn:Hx; [|done].
  destruct (py_copy x) as [inputs|] eqn:Hcx; [|done].
  destruct (Dataset.train_targets d) as [y|] eqn:Hy; [|done].
  destruct (py_copy y) as [targets|] eqn:Hcy; [|done].
  apply py_copy_Ok in Hcx as ->. apply py_copy_Ok in Hcy as ->.
  apply pack_sequence_as_inv in Hx as [Hx _].
  apply pack_sequence_as_inv in Hy as [Hy _].
  destruct (Dataset.validation_inputs d) as [vin|] eqn:Hvin; [|done].
  destruct (Dataset.validation_targets d) as [vtn|] eqn:Hvtn; [|done].
  destruct (Dataset.test_inputs d) as [tin|] eqn:Htin; [|done].
  destruct (Dataset.test_targets d) as [ttn|] eqn:Httn; [|done].
  unfold Dataset.validation_inputs, Dataset.validation_targets in Hvin, Hvtn.
  rewrite Hvi in Hvin. rewrite Hvt in Hvtn.
  apply pack_optional_Ok in Hvin as [[? _]|(? & a & [= <-] & -> & Ha)];
    [done|].
  apply pack_optional_Ok in Hvtn as [[? _]|(? & b & [= <-] & -> & Hb)];
    [done|].
  destruct (Dataset.both tin ttn) as [test|] eqn:Htest; [|done].
  simpl.
  destruct (Dataset.init x y test (Some (a, b)) None Dataset.default_train_frac
              None None g) as [[d1|] g1] eqn:Hinit; [|done].
  intros [= <- <-]. split; [done|].
  apply init_Ok in Hinit
    as (x0 & rest & il' & tl' & istr & tstr & test' & validation' & p & g2
        & _ & _ & _ & _ & Hvtest & Hvval & Hprep & Hfin).
  apply verify_optional_Ok in Hvtest as ->.
  apply verify_optional_Ok in Hvval as ->. simpl in Hprep.
  apply prepare_validation_whole in Hprep as [-> ->]; [|done].
  apply finish_init_Ok in Hfin as (n & m & s & sm & ss & _ & -> & _).
  simpl. rewrite Hx, Hy, Ha, Hb. do 4 (split; [done|]).
  unfold Dataset.test_inputs, Dataset.test_targets in Htin, Httn.
  apply pack_optional_Ok in Htin
    as [[Hti ->]|(ti & c & Hti & -> & Hc)].
  - simpl in Htest. injection Htest as <-. simpl. rewrite Hti.
    split; [done|]. split; [by left|done].
  - apply pack_optional_Ok in Httn
      as [[Htt ->]|(tt' & e & Htt & -> & He)]; [done|].
    simpl in Htest. injection Htest as <-. simpl.
    rewrite Hti, Htt, Hc, He. split; [done|]. split; [by right|done].
Qed.
End CopyFacts.

(** * Further properties *)

(** ** [batchify] over several epochs *)

Lemma chunk_sizes_step (R B : Z) cutoff :
  (0 < B <= R)%Z ->
  chunk_sizes R B cutoff = Z.to_nat B :: chunk_sizes (R - B) B cutoff.
Proof.
  intros HB. unfold chunk_sizes.
  assert (R / B = (R - B) / B + 1)%Z as ->.
  { replace R with ((R - B) + 1 * B)%Z at 1 by lia.
    rewrite Z.div_add by lia. done. }
  assert (R mod B = (R - B) mod B)%Z as ->.
  { replace R with ((R - B) + 1 * B)%Z at 1 by lia.
    rewrite Z.mod_add by lia. done. }
  assert (0 <= (R - B) / B)%Z by (apply Z.div_pos; lia).
  replace (Z.to_nat ((R - B) / B + 1)) with (S (Z.to_nat ((R - B) / B)))
    by lia.
  done.
Qed.

Lemma chunk_sizes_rest (R B : Z) cutoff :
  (0 < R < B)%Z ->
  chunk_sizes R B cutoff = if cutoff then [] else [Z.to_nat R].
Proof.
  intros HR. unfold chunk_sizes.
  rewrite Z.div_small, Z.mod_small by lia. simpl.
  destruct cutoff; [done|]. simpl.
  by destruct (Z.eqb_spec R 0); [lia|].
Qed.

Lemma chunk_sizes_0 (B : Z) cutoff : (0 < B)%Z -> chunk_sizes 0 B cutoff = [].
Proof.
  intros HB. unfold chunk_sizes. rewrite Z.div_0_l, Z.mod_0_l by lia.
  simpl. by rewrite orb_true_r.
Qed.

Section BatchifyEpochs.
Context {A : Type} `{RandomLib}.
Variable data : nest (list A).
Variable x : list A.
Variable xs : list (list A).
Variable N : nat.
Hypothesis data_leaves : flatten data = x :: xs.
Hypothesis same_length : Forall (fun y => length y = N) (x :: xs).

(** A turn whose batch fits in the epoch. *)
Lemma turn_fits B n_epochs shuffle cutoff perm pos epoch g :
  perm ≡ₚ seq 0 N ->
  (0 <= pos)%Z -> (0 <= B)%Z -> (pos + B <= Z.of_nat N)%Z ->
  (n_epochs <= 0 \/ epoch < n_epochs - 1 \/ pos < Z.of_nat N)%Z ->
  exists b,
    Batchify.turn data B n_epochs shuffle cutoff N perm pos epoch
      (Batchify.Finished, g)
    = (Ok (Some b), (Batchify.AtYield perm (pos + B) epoch, g))
    /\ Batchify.get_data data (py_slice perm (Some pos) (Some (pos + B)%Z))
       = Ok b
    /\ has_size (Z.to_nat B) b
    /\ same_structure data b = true.
Proof using data_leaves same_length.
  intros Hperm Hpos HB Hfit Hloop. unfold Batchify.turn.
  replace ((n_epochs <=? 0)%Z || (epoch <? n_epochs - 1)%Z
           || (pos <? Z.of_nat N)%Z) with true.
  2:{ symmetry. rewrite !orb_true_iff, Z.leb_le, !Z.ltb_lt. tauto. }
  destruct (Z.gtb_spec (pos + B) (Z.of_nat N)); [lia|].
  destruct (get_data_ok data x xs N data_leaves same_length
              (py_slice perm (Some pos) (Some (pos + B)%Z)))
    as (b & Hb & Hsize & Hs).
  { apply py_slice_Forall. by eapply perm_bounded. }
  exists b. unfold bind, lift_result, Batchify.suspend, modify, ret.
  rewrite Hb. simpl. do 2 (split; [done|]). split; [|done].
  rewrite py_slice_inside_length in Hsize;
    [|lia|lia|rewrite (perm_length _ _ Hperm); lia].
  by replace (pos + B - pos)%Z with B in Hsize by lia.
Qed.

(** A turn that straddles two epochs, with the state it leaves. *)
Lemma turn_straddle B n_epochs shuffle cutoff perm pos epoch g :
  perm ≡ₚ seq 0 N ->
  (0 <= pos <= Z.of_nat N)%Z -> (Z.of_nat N < pos + B)%Z ->
  (pos + B - Z.of_nat N <= Z.of_nat N)%Z ->
  epoch <> (n_epochs - 1)%Z ->
  (n_epochs <= 0 \/ epoch < n_epochs - 1 \/ pos < Z.of_nat N)%Z ->
  exists b perm' g',
    Batchify.turn data B n_epochs shuffle cutoff N perm pos epoch
      (Batchify.Finished, g)
    = (Ok (Some b),
       (Batchify.AtYield perm' (pos + B - Z.of_nat N) (epoch + 1), g'))
    /\ perm' ≡ₚ seq 0 N
    /\ has_size (Z.to_nat B) b
    /\ same_structure data b = true.
Proof using data_leaves same_length.
  intros Hperm Hpos Hover Hmissing Hmore Hloop. unfold Batchify.turn.
  replace ((n_epochs <=? 0)%Z || (epoch <? n_epochs - 1)%Z
           || (pos <? Z.of_nat N)%Z) with true.
  2:{ symmetry. rewrite !orb_true_iff, Z.leb_le, !Z.ltb_lt. tauto. }
  destruct (Z.gtb_spec (pos + B) (Z.of_nat N)); [|lia].
  destruct (Z.eqb_spec epoch (n_epochs - 1)); [done|].
  unfold bind at 1.
  assert (exists perm' g',
             Batchify.get_perm shuffle N (Batchify.Finished, g)
             = (Ok perm', (Batchify.Finished, g'))
             /\ perm' ≡ₚ seq 0 N) as (perm' & g' & -> & Hperm').
  { unfold Batchify.get_perm. destruct shuffle; simpl.
    - pose proof (np_random_permutation_perm N g) as Hp.
      destruct (np_random_permutation N g) as [p g']. by eexists _, _.
    - by eexists _, _. }
  set (idx := py_slice perm (Some pos) None
              ++ py_slice perm' None (Some (pos + B - Z.of_nat N)%Z)).
  destruct (get_data_ok data x xs N data_leaves same_length idx)
    as (b & Hb & Hsize & Hs).
  { apply Forall_app. split; apply py_slice_Forall; by eapply perm_bounded. }
  exists b, perm', g'. unfold bind, lift_result, Batchify.suspend, modify, ret.
  rewrite Hb. simpl. do 2 (split; [done|]). split; [|done].
  unfold idx in Hsize.
  rewrite length_app, py_slice_from_length, py_slice_upto_length in Hsize
    by lia.
  rewrite (perm_length _ _ Hperm), (perm_length _ _ Hperm') in Hsize.
  by replace (N - Z.to_nat pos + Z.to_nat (pos + B - Z.of_nat N) `min` N)
    with (Z.to_nat B) in Hsize by lia.
Qed.

(** The generator suspended in epoch [epoch] at [pos], with [R] samples
    still to come. *)
Lemma run_epochs (B n_epochs : Z) shuffle cutoff fuel perm pos epoch g :
  (1 <= B <= Z.of_nat N)%Z -> (1 <= n_epochs)%Z ->
  perm ≡ₚ seq 0 N ->
  (0 <= pos <= Z.of_nat N)%Z -> (0 <= epoch <= n_epochs - 1)%Z ->
  ((n_epochs - 1 - epoch) * Z.of_nat N + (Z.of_nat N - pos)
   < Z.of_nat fuel)%Z ->
  exists bs s',
    Batchify.run data B n_epochs shuffle cutoff fuel
      (Batchify.AtYield perm pos epoch, g)
    = (bs, Batchify.Exhausted, s')
    /\ Forall2 has_size
         (chunk_sizes ((n_epochs - 1 - epoch) * Z.of_nat N
                       + (Z.of_nat N - pos)) B cutoff) bs
    /\ Forall (fun b => same_structure data b = true) bs.
Proof using data_leaves same_length.
  intros HB Hn. revert perm pos epoch g.
  induction fuel as [|fuel IH]; intros perm pos epoch g Hperm Hpos Hepoch Hfuel.
  { nia. }
  simpl. rewrite (next_AtYield data x xs N data_leaves same_length).
  set (R := ((n_epochs - 1 - epoch) * Z.of_nat N + (Z.of_nat N - pos))%Z)
    in *.
  destruct (Z_le_gt_dec (pos + B) (Z.of_nat N)) as [Hfit|Hover].
  - (* a whole batch inside the epoch *)
    destruct (turn_fits B n_epochs shuffle cutoff perm pos epoch g Hperm)
      as (b & -> & _ & Hsize & Hs); [lia..|].
    destruct (IH perm (pos + B)%Z epoch g Hperm)
      as (bs & s' & -> & Hsizes & Hss); [lia|lia|nia|].
    exists (b :: bs), s'. split; [done|].
    rewrite (chunk_sizes_step R) by (unfold R; nia).
    replace (R - B)%Z
      with ((n_epochs - 1 - epoch) * Z.of_nat N
            + (Z.of_nat N - (pos + B)))%Z by (unfold R; lia).
    split; by constructor.
  - destruct (Z.eq_dec epoch (n_epochs - 1)%Z) as [Hlast|Hmore].
    + (* the end of the last epoch *)
      assert (R = Z.of_nat N - pos)%Z as HR by (unfold R; nia).
      unfold Batchify.turn. simpl.
      destruct (Z.leb_spec n_epochs 0); [lia|].
      destruct (Z.ltb_spec epoch (n_epochs - 1)); [lia|]. simpl.
      destruct (Z.ltb_spec pos (Z.of_nat N)) as [Hlt|Hge].
      * destruct (Z.gtb_spec (pos + B) (Z.of_nat N)); [|lia].
        destruct (Z.eqb_spec epoch (n_epochs - 1)); [|done].
        rewrite (chunk_sizes_rest R) by lia.
        destruct cutoff; simpl.
        -- exists [], (Batchify.Finished, g). by repeat split.
        -- destruct (get_data_ok data x xs N data_leaves same_length
                       (py_slice perm (Some pos) None))
             as (b & Hb & Hsize & Hs).
           { apply py_slice_Forall. by eapply perm_bounded. }
           unfold bind, lift_result, Batchify.suspend, modify, ret.
           rewrite Hb. simpl. destruct fuel as [|fuel]; [lia|]. simpl.
           exists [b], (Batchify.Finished, g). split; [done|].
           rewrite py_slice_from_length, (perm_length _ _ Hperm) in Hsize
             by lia.
           replace (Z.to_nat R) with (N - Z.to_nat pos) by lia.
           split; by repeat constructor.
      * exists [], (Batchify.Finished, g). split; [done|].
        replace R with 0%Z by lia. rewrite chunk_sizes_0 by lia.
        split; constructor.
    + (* a batch across two epochs *)
      destruct (turn_straddle B n_epochs shuffle cutoff perm pos epoch g
                  Hperm)
        as (b & perm' & g' & -> & Hperm' & Hsize & Hs); [lia..|].
      destruct (IH perm' (pos + B - Z.of_nat N)%Z (epoch + 1)%Z g' Hperm')
        as (bs & s' & -> & Hsizes & Hss); [lia|lia|nia|].
      exists (b :: bs), s'. split; [done|].
      rewrite (chunk_sizes_step R) by (unfold R; nia).
      replace (R - B)%Z
        with ((n_epochs - 1 - (epoch + 1)) * Z.of_nat N
              + (Z.of_nat N - (pos + B - Z.of_nat N)))%Z by (unfold R; lia).
      split; by constructor.
Qed.

(** The generator that never stops. *)
Lemma run_forever (B n_epochs : Z) shuffle cutoff fuel perm pos epoch g :
  (1 <= B <= Z.of_nat N)%Z -> (n_epochs <= 0)%Z ->
  perm ≡ₚ seq 0 N -> (0 <= pos <= Z.of_nat N)%Z -> (0 <= epoch)%Z ->
  exists bs s',
    Batchify.run data B n_epochs shuffle cutoff fuel
      (Batchify.AtYield perm pos epoch, g)
    = (bs, Batchify.Pending, s')
    /\ length bs = fuel
    /\ Forall (has_size (Z.to_nat B)) bs
    /\ Forall (fun b => same_structure data b = true) bs.
Proof using data_leaves same_length.
  intros HB Hn. revert perm pos epoch g.
  induction fuel as [|fuel IH]; intros perm pos epoch g Hperm Hpos Hepoch.
  { exists [], (Batchify.AtYield perm pos epoch, g). by repeat split. }
  simpl. rewrite (next_AtYield data x xs N data_leaves same_length).
  destruct (Z_le_gt_dec (pos + B) (Z.of_nat N)) as [Hfit|Hover].
  - destruct (turn_fits B n_epochs shuffle cutoff perm pos epoch g Hperm)
      as (b & -> & _ & Hsize & Hs); [lia..|].
    destruct (IH perm (pos + B)%Z epoch g Hperm)
      as (bs & s' & -> & Hlen & Hsizes & Hss); [lia|lia|].
    exists (b :: bs), s'. split; [done|]. split; [simpl; lia|].
    split; by constructor.
  - destruct (turn_straddle B n_epochs shuffle cutoff perm pos epoch g Hperm)
      as (b & perm' & g' & -> & Hperm' & Hsize & Hs); [lia..|].
    destruct (IH perm' (pos + B - Z.of_nat N)%Z (epoch + 1)%Z g' Hperm')
      as (bs & s' & -> & Hlen & Hsizes & Hss); [lia|lia|].
    exists (b :: bs), s'. split; [done|]. split; [simpl; lia|].
    split; by constructor.
Qed.
End BatchifyEpochs.

(** ** Gathering rows *)

Lemma np_take_Forall2 {A} (x : list A) idx r :
  np_take x idx = Ok r <-> Forall2 (fun i v => x !! i = Some v) idx r.
Proof.
  unfold np_take. rewrite map_result_Forall2. split.
  - induction 1 as [|i v idx r Hi _ IH]; constructor; [|done].
    by destruct (x !! i); [injection Hi as ->|].
  - induction 1 as [|i v idx r Hi _ IH]; constructor; [|done].
    by rewrite Hi.
Qed.

Lemma np_take_app {A} (x : list A) a b ra rb :
  np_take x a = Ok ra -> np_take x b = Ok rb ->
  np_take x (a ++ b) = Ok (ra ++ rb).
Proof. rewrite !np_take_Forall2. apply Forall2_app. Qed.

Lemma np_take_seq {A} (x : list A) : np_take x (seq 0 (length x)) = Ok x.
Proof.
  apply np_take_Forall2.
  assert (forall pre, Forall2 (fun i v => (pre ++ x) !! i = Some v)
                        (seq (length pre) (length x)) x) as Hgen.
  { induction x as [|v x IH]; intros pre; simpl; constructor.
    - by rewrite list_lookup_middle.
    - specialize (IH (pre ++ [v])). rewrite length_app in IH. simpl in IH.
      replace (length pre + 1) with (S (length pre)) in IH by lia.
      by rewrite <- app_assoc in IH. }
  apply (Hgen []).
Qed.

Lemma np_take_Permutation {A} (x : list A) p q r :
  p ≡ₚ q -> np_take x p = Ok r ->
  exists r', np_take x q = Ok r' /\ r ≡ₚ r'.
Proof.
  intros Hpq. revert r. setoid_rewrite np_take_Forall2.
  induction Hpq as [|i p q _ IH|i j p|p q s _ IH1 _ IH2]; intros r Hr.
  - apply Forall2_nil_inv_l in Hr as ->. by exists [].
  - apply Forall2_cons_inv_l in Hr as (v & r' & Hv & Hr & ->).
    destruct (IH r' Hr) as (r'' & Hr'' & Hperm).
    exists (v :: r''). split; [by constructor|by constructor].
  - apply Forall2_cons_inv_l in Hr as (v & r' & Hv & Hr & ->).
    apply Forall2_cons_inv_l in Hr as (w & r'' & Hw & Hr & ->).
    exists (w :: v :: r''). split; [by repeat constructor|by constructor].
  - destruct (IH1 r Hr) as (r1 & Hr1 & Hp1).
    destruct (IH2 r1 Hr1) as (r2 & Hr2 & Hp2).
    exists r2. split; [done|by etrans].
Qed.

(** Rows gathered at a permutation of the indices are the rows, in
    another order. *)
Lemma np_take_all {A} (x : list A) p r :
  p ≡ₚ seq 0 (length x) -> np_take x p = Ok r -> r ≡ₚ x.
Proof.
  intros Hp Hr. destruct (np_take_Permutation x _ _ r Hp Hr) as (r' & Hr' & ->).
  rewrite np_take_seq in Hr'. by injection Hr' as <-.
Qed.

Section BatchifyRows.
Context {A : Type} `{RandomLib}.
Variable data : nest (list A).
Variable x : list A.
Variable xs : list (list A).
Variable N : nat.
Hypothesis data_leaves : flatten data = x :: xs.
Hypothesis same_length : Forall (fun y => length y = N) (x :: xs).

Lemma get_data_column idx b j leaf :
  Batchify.get_data data idx = Ok b -> (x :: xs) !! j = Some leaf ->
  exists r, flatten b !! j = Some r /\ np_take leaf idx = Ok r.
Proof using data_leaves.
  unfold Batchify.get_data, Batchify.flat_data. rewrite data_leaves.
  intros Hb Hj. apply rbind_Ok in Hb as (batch & Hbatch & Hpack).
  apply pack_sequence_as_inv in Hpack as [-> _].
  apply map_result_Forall2 in Hbatch.
  destruct (Forall2_lookup_l _ _ _ _ _ Hbatch Hj) as (r & Hr & Htake).
  by exists r.
Qed.

Lemma next_Created_perm B n_epochs shuffle cutoff g :
  Batchify.next data B n_epochs shuffle cutoff (Batchify.Created, g)
  = Batchify.turn data B n_epochs shuffle cutoff N
      (if shuffle then (np_random_permutation N g).1 else seq 0 N) 0 0
      (Batchify.Finished,
       if shuffle then (np_random_permutation N g).2 else g).
Proof using data_leaves same_length.
  unfold Batchify.next, Batchify.flat_data. rewrite data_leaves.
  rewrite (length_first_leaf x xs N same_length).
  destruct shuffle; cbn; [|done].
  unfold bind. simpl. by destruct (np_random_permutation N g).
Qed.

(** One epoch without cutoff, from [pos]: leaf by leaf, the batches put
    end to end are the rows at the rest of the permutation. *)
Lemma run_one_epoch_column (B : Z) shuffle perm g fuel (pos : Z) :
  (1 <= B)%Z -> perm ≡ₚ seq 0 N ->
  (0 <= pos <= Z.of_nat N)%Z -> (Z.of_nat N - pos < Z.of_nat fuel)%Z ->
  exists bs s',
    Batchify.run data B 1 shuffle false fuel (Batchify.AtYield perm pos 0, g)
    = (bs, Batchify.Exhausted, s')
    /\ forall j leaf, (x :: xs) !! j = Some leaf ->
         np_take leaf (drop (Z.to_nat pos) perm) = Ok (leaf_column j bs).
Proof using data_leaves same_length.
  intros HB Hperm. revert pos g.
  pose proof (perm_length _ _ Hperm) as Hlen.
  induction fuel as [|fuel IH]; intros pos g Hpos Hfuel; [lia|].
  simpl. rewrite (next_AtYield data x xs N data_leaves same_length).
  destruct (Z_le_gt_dec (pos + B) (Z.of_nat N)) as [Hfit|Hover].
  - destruct (turn_fits data x xs N data_leaves same_length B 1 shuffle false
                perm pos 0 g Hperm)
      as (b & -> & Hb & _); [lia..|].
    destruct (IH (pos + B)%Z g) as (bs & s' & -> & Hcol); [lia|lia|].
    exists (b :: bs), s'. split; [done|]. intros j leaf Hj.
    destruct (get_data_column _ _ _ _ Hb Hj) as (r & Hr & Htake).
    unfold leaf_column. simpl. rewrite Hr. simpl.
    rewrite py_slice_inside in Htake by lia.
    replace (pos + B - pos)%Z with B in Htake by lia.
    rewrite <- (take_drop (Z.to_nat B) (drop (Z.to_nat pos) perm)).
    apply np_take_app; [done|].
    rewrite drop_drop.
    replace (Z.to_nat pos + Z.to_nat B) with (Z.to_nat (pos + B)) by lia.
    by apply Hcol.
  - unfold Batchify.turn. simpl.
    destruct (Z.ltb_spec pos (Z.of_nat N)).
    2:{ exists [], (Batchify.Finished, g). split; [done|]. intros j leaf _.
        rewrite drop_ge by lia. done. }
    destruct (Z.gtb_spec (pos + B) (Z.of_nat N)); [|lia]. simpl.
    destruct (get_data_ok data x xs N data_leaves same_length
                (py_slice perm (Some pos) None)) as (b & Hb & _).
    { apply py_slice_Forall. by eapply perm_bounded. }
    unfold bind, lift_result, Batchify.suspend, modify, ret. rewrite Hb.
    simpl. destruct fuel as [|fuel]; [lia|]. simpl.
    exists [b], (Batchify.Finished, g). split; [done|]. intros j leaf Hj.
    destruct (get_data_column _ _ _ _ Hb Hj) as (r & Hr & Htake).
    unfold leaf_column. simpl. rewrite Hr. simpl. rewrite app_nil_r.
    by rewrite py_slice_from in Htake by lia.
Qed.
End BatchifyRows.

(** X1: with 1 <= batchsize <= N and n_epochs >= 1 epochs, [batchify]
    cuts the N * n_epochs samples of all the epochs into batches of
    batchsize, straddling the epochs; only the rest at the very end is
    shorter, and is dropped with cutoff.  Every batch has the structure
    of the data, and the generator is then exhausted. *)
Theorem batchify_epochs {A} `{RandomLib} (data : nest (list A)) (x : list A)
    (xs : list (list A)) (N : nat) (B n_epochs : Z) (shuffle cutoff : bool)
    (g : rng) (fuel : nat) :
  flatten data = x :: xs ->
  Forall (fun y => length y = N) (x :: xs) ->
  (1 <= B <= Z.of_nat N)%Z -> (1 <= n_epochs)%Z ->
  (n_epochs * Z.of_nat N < Z.of_nat fuel)%Z ->
  exists bs s',
    Batchify.run data B n_epochs shuffle cutoff fuel (Batchify.Created, g)
    = (bs, Batchify.Exhausted, s')
    /\ Forall2 has_size (chunk_sizes (n_epochs * Z.of_nat N) B cutoff) bs
    /\ Forall (fun b => same_structure data b = true) bs.
Proof.
  intros Hdata Hsame HB Hn Hfuel. destruct fuel as [|fuel]; [nia|].
  destruct (next_Created data x xs N Hdata Hsame B n_epochs shuffle cutoff g)
    as (perm & g' & Hperm & Hnext).
  destruct (run_epochs data x xs N Hdata Hsame B n_epochs shuffle cutoff
              (S fuel) perm 0 0 g')
    as (bs & s' & Hrun & Hsizes & Hss); [done|done|done|lia|lia|nia|].
  exists bs, s'. simpl in Hrun |- *.
  rewrite (next_AtYield data x xs N Hdata Hsame) in Hrun.
  rewrite Hnext, Hrun. split; [done|]. split; [|done].
  by replace (n_epochs * Z.of_nat N)%Z
    with ((n_epochs - 1 - 0) * Z.of_nat N + (Z.of_nat N - 0))%Z by lia.
Qed.

Lemma batchify_epochs_witness :
  exists bs s',
    Batchify.run Example.three_rows 2 2 true false 7 (Batchify.Created, 7%Z)
    = (bs, Batchify.Exhausted, s')
    /\ Forall2 has_size (chunk_sizes (2 * Z.of_nat 3) 2 false) bs
    /\ Forall (fun b => same_structure Example.three_rows b = true) bs.
Proof.
  apply (@batchify_epochs float reference_random Example.three_rows
           (Example.arange 3) [] 3 2 2 true false 7%Z 7).
  - reflexivity.
  - repeat constructor.
  - lia.
  - lia.
  - lia.
Defined.

(** X2: with n_epochs <= 0 and 1 <= batchsize <= N the generator never
    stops and never raises: whatever number of batches is asked for, it
    yields that many, each of exactly batchsize rows and of the
    structure of the data, cutoff or not. *)
Theorem batchify_forever {A} `{RandomLib} (data : nest (list A)) (x : list A)
    (xs : list (list A)) (N : nat) (B n_epochs : Z) (shuffle cutoff : bool)
    (g : rng) (fuel : nat) :
  flatten data = x :: xs ->
  Forall (fun y => length y = N) (x :: xs) ->
  (1 <= B <= Z.of_nat N)%Z -> (n_epochs <= 0)%Z ->
  exists bs s',
    Batchify.run data B n_epochs shuffle cutoff fuel (Batchify.Created, g)
    = (bs, Batchify.Pending, s')
    /\ length bs = fuel
    /\ Forall (has_size (Z.to_nat B)) bs
    /\ Forall (fun b => same_structure data b = true) bs.
Proof.
  intros Hdata Hsame HB Hn. destruct fuel as [|fuel].
  { exists [], (Batchify.Created, g). by repeat split. }
  destruct (next_Created data x xs N Hdata Hsame B n_epochs shuffle cutoff g)
    as (perm & g' & Hperm & Hnext).
  destruct (run_forever data x xs N Hdata Hsame B n_epochs shuffle cutoff
              (S fuel) perm 0 0 g')
    as (bs & s' & Hrun & Hlen & Hsizes & Hss); [done|done|done|lia|lia|].
  exists bs, s'. simpl in Hrun |- *.
  rewrite (next_AtYield data x xs N Hdata Hsame) in Hrun.
  by rewrite Hnext, Hrun.
Qed.

Lemma batchify_forever_witness :
  exists bs s',
    Batchify.run Example.three_rows 2 0 true true 9 (Batchify.Created, 7%Z)
    = (bs, Batchify.Pending, s')
    /\ length bs = 9
    /\ Forall (has_size (Z.to_nat 2)) bs
    /\ Forall (fun b => same_structure Example.three_rows b = true) bs.
Proof.
  apply (@batchify_forever float reference_random Example.three_rows
           (Example.arange 3) [] 3 2 0 true true 7%Z 9).
  - reflexivity.
  - repeat constructor.
  - lia.
  - lia.
Defined.

(** X3: one epoch of [batchify] without cutoff serves every row once:
    leaf by leaf, the batches put end to end are the rows of the leaf
    in the order of the permutation, so a rearrangement of the leaf,
    and the leaf itself when shuffle is off. *)
Theorem batchify_serves_every_row {A} `{RandomLib} (data : nest (list A))
    (x : list A) (xs : list (list A)) (N : nat) (B : Z) (shuffle : bool)
    (g : rng) (fuel : nat) :
  flatten data = x :: xs ->
  Forall (fun y => length y = N) (x :: xs) ->
  (1 <= B)%Z -> (N < fuel) ->
  exists bs s',
    Batchify.run data B 1 shuffle false fuel (Batchify.Created, g)
    = (bs, Batchify.Exhausted, s')
    /\ forall j leaf, (x :: xs) !! j = Some leaf ->
         leaf_column j bs ≡ₚ leaf
         /\ (shuffle = false -> leaf_column j bs = leaf).
Proof.
  intros Hdata Hsame HB Hfuel. destruct fuel as [|fuel]; [lia|].
  set (perm := if shuffle then (np_random_permutation N g).1 else seq 0 N).
  assert (perm ≡ₚ seq 0 N) as Hperm.
  { unfold perm. destruct shuffle; [apply np_random_permutation_perm|done]. }
  destruct (run_one_epoch_column data x xs N Hdata Hsame B shuffle perm
              (if shuffle then (np_random_permutation N g).2 else g)
              (S fuel) 0)
    as (bs & s' & Hrun & Hcol); [done|done|lia|lia|].
  exists bs, s'. simpl in Hrun |- *.
  rewrite (next_AtYield data x xs N Hdata Hsame) in Hrun.
  rewrite (next_Created_perm data x xs N Hdata Hsame). fold perm.
  rewrite Hrun. split; [done|]. intros j leaf Hj.
  specialize (Hcol j leaf Hj). simpl in Hcol. rewrite drop_0 in Hcol.
  assert (length leaf = N) as Hlen.
  { rewrite Forall_forall in Hsame. apply Hsame.
    by eapply list_elem_of_lookup_2. }
  split.
  - eapply np_take_all; [|exact Hcol]. by rewrite Hlen.
  - intros ->. unfold perm in Hcol.
    rewrite <- Hlen, np_take_seq in Hcol. by injection Hcol as <-.
Qed.

Lemma batchify_serves_every_row_witness :
  exists bs s',
    Batchify.run Example.three_rows 2 1 false false 4 (Batchify.Created, 7%Z)
    = (bs, Batchify.Exhausted, s')
    /\ forall j leaf, (Example.arange 3 :: []) !! j = Some leaf ->
         leaf_column j bs ≡ₚ leaf
         /\ (false = false -> leaf_column j bs = leaf).
Proof.
  apply (@batchify_serves_every_row float reference_random Example.three_rows
           (Example.arange 3) [] 3 2 false 7%Z 4).
  - reflexivity.
  - repeat constructor.
  - lia.
  - lia.
Defined.

(** X4: data without a leaf (an empty tuple) makes the first [next] of
    the generator raise IndexError, at [flat_data[0]], before anything
    is drawn from the random generator; the generator is finished
    after that. *)
Theorem batchify_no_leaf {A} `{RandomLib} (data : nest (list A))
    (B n_epochs : Z) (shuffle cutoff : bool) (g : rng) (fuel : nat) :
  flatten data = [] ->
  Batchify.run data B n_epochs shuffle cutoff (S fuel) (Batchify.Created, g)
  = ([], Batchify.Failed IndexError, (Batchify.Finished, g))
  /\ Batchify.run data B n_epochs shuffle cutoff (S fuel)
       (Batchify.Finished, g)
     = ([], Batchify.Exhausted, (Batchify.Finished, g)).
Proof.
  intros Hdata. simpl. unfold Batchify.next, Batchify.flat_data, bind.
  simpl. by rewrite Hdata.
Qed.

Lemma batchify_no_leaf_witness :
  Batchify.run (Node KTuple ([] : list (nest (list float)))) 2 1 true false 3
    (Batchify.Created, 7%Z)
  = ([], Batchify.Failed IndexError, (Batchify.Finished, 7%Z))
  /\ Batchify.run (Node KTuple ([] : list (nest (list float)))) 2 1 true false
       3 (Batchify.Finished, 7%Z)
     = ([], Batchify.Exhausted, (Batchify.Finished, 7%Z)).
Proof.
  apply (@batchify_no_leaf float reference_random
           (Node KTuple []) 2 1 true false 7%Z 2).
  reflexivity.
Defined.

(** X5: a batch size of 0 on data with at least one row makes a
    generator that never ends, whatever n_epochs is: every batch is
    empty and the position never moves. *)
Theorem batchify_zero_batchsize {A} `{RandomLib} (data : nest (list A))
    (x : list A) (xs : list (list A)) (N : nat) (n_epochs : Z)
    (shuffle cutoff : bool) (g : rng) (fuel : nat) :
  flatten data = x :: xs ->
  Forall (fun y => length y = N) (x :: xs) ->
  (1 <= N) ->
  exists bs s',
    Batchify.run data 0 n_epochs shuffle cutoff fuel (Batchify.Created, g)
    = (bs, Batchify.Pending, s')
    /\ length bs = fuel
    /\ Forall (has_size 0) bs.
Proof.
  intros Hdata Hsame HN. destruct fuel as [|fuel].
  { exists [], (Batchify.Created, g). by repeat split. }
  destruct (next_Created data x xs N Hdata Hsame 0 n_epochs shuffle cutoff g)
    as (perm & g' & Hperm & Hnext).
  assert (forall fuel',
             exists bs s',
               Batchify.run data 0 n_epochs shuffle cutoff fuel'
                 (Batchify.AtYield perm 0 0, g')
               = (bs, Batchify.Pending, s')
               /\ length bs = fuel'
               /\ Forall (has_size 0) bs) as Hloop.
  { induction fuel' as [|fuel' (bs & s' & IH & Hlen & Hsizes)].
    { eexists [], _. by repeat split. }
    simpl. rewrite (next_AtYield data x xs N Hdata Hsame).
    destruct (turn_fits data x xs N Hdata Hsame 0 n_epochs shuffle cutoff
                perm 0 0 g' Hperm) as (b & -> & _ & Hsize & _); [lia..|].
    change (0 + 0)%Z with 0%Z. rewrite IH. exists (b :: bs), s'.
    split; [done|].
    split; [simpl; lia|]. by constructor. }
  destruct (Hloop (S fuel)) as (bs & s' & Hrun & Hrest).
  exists bs, s'. simpl in Hrun |- *.
  rewrite (next_AtYield data x xs N Hdata Hsame) in Hrun.
  by rewrite Hnext, Hrun.
Qed.

Lemma batchify_zero_batchsize_witness :
  exists bs s',
    Batchify.run Example.three_rows 0 1 false false 5 (Batchify.Created, 7%Z)
    = (bs, Batchify.Pending, s')
    /\ length bs = 5
    /\ Forall (has_size 0) bs.
Proof.
  apply (@batchify_zero_batchsize float reference_random Example.three_rows
           (Example.arange 3) [] 3 1 false false 7%Z 5).
  - reflexivity.
  - repeat constructor.
  - lia.
Defined.

(** ** More on nested structures *)

Lemma same_structure_Node {A B} k k' (ss : list (nest A)) (ts : list (nest B)) :
  same_structure (Node k ss) (Node k' ts) = true
  <-> k = k' /\ Forall2 (fun s t => same_structure s t = true) ss ts.
Proof.
  simpl. rewrite andb_true_iff.
  assert (kind_eqb k k' = true <-> k = k') as ->
    by (destruct k, k'; simpl; split; congruence).
  apply and_iff_compat_l.
  revert ts. induction ss as [|s ss IH]; intros [|t ts].
  - split; [constructor|done].
  - split; [done|inversion 1].
  - split; [done|inversion 1].
  - rewrite andb_true_iff, IH. split.
    + intros [? ?]. by constructor.
    + inversion 1; subst. done.
Qed.

Lemma same_structure_length {A B} (s : nest A) (t : nest B) :
  same_structure s t = true -> length (flatten s) = length (flatten t).
Proof.
  revert t. induction s as [a|k ss IH] using nest_ind; intros [b|k' ts];
    try done.
  rewrite same_structure_Node. intros [_ Hall]. simpl.
  induction Hall as [|s t ss ts Hst _ IHall]; [done|].
  apply Forall_cons in IH as [Hs Hss]. simpl. rewrite !length_app.
  by rewrite (Hs t Hst), (IHall Hss).
Qed.

Lemma same_structure_refl {A} (s : nest A) : same_structure s s = true.
Proof.
  induction s as [a|k ss IH] using nest_ind; [done|].
  apply same_structure_Node. split; [done|].
  induction IH; by constructor.
Qed.

(** Structures of the same nesting are interchangeable on the right of
    a comparison. *)
Lemma same_structure_congr {A B C} (s : nest A) (t : nest B) (u : nest C) :
  same_structure s t = true -> same_structure u s = same_structure u t.
Proof.
  revert s t. induction u as [c|k us IH] using nest_ind;
    intros [a|k1 ss] [b|k2 ts]; try done.
  rewrite same_structure_Node. intros [<- Hall].
  destruct (same_structure (Node k us) (Node k1 ts)) eqn:Hut.
  - apply same_structure_Node in Hut as [-> Hut].
    apply same_structure_Node. split; [done|].
    revert ss ts Hall Hut.
    induction IH as [|u us Hu _ IHus]; intros ss ts Hall Hut.
    + apply Forall2_nil_inv_l in Hut as ->.
      apply Forall2_nil_inv_r in Hall as ->. constructor.
    + apply Forall2_cons_inv_l in Hut as (t & ts' & Hu' & Hut & ->).
      apply Forall2_cons_inv_r in Hall as (s & ss' & Hst & Hall & ->).
      constructor; [|by eapply IHus].
      by rewrite (Hu s t Hst).
  - apply not_true_iff_false. intros Hus. apply not_true_iff_false in Hut.
    apply Hut. apply same_structure_Node in Hus as [-> Hus].
    apply same_structure_Node. split; [done|].
    clear Hut. revert ss ts Hall Hus.
    induction IH as [|u us Hu _ IHus]; intros ss ts Hall Hus.
    + apply Forall2_nil_inv_l in Hus as ->.
      apply Forall2_nil_inv_l in Hall as ->. constructor.
    + apply Forall2_cons_inv_l in Hus as (s & ss' & Hu' & Hus & ->).
      apply Forall2_cons_inv_l in Hall as (t & ts' & Hst & Hall & ->).
      constructor; [|by eapply IHus].
      by rewrite <- (Hu s t Hst).
Qed.

(** Packing depends on the nesting of the template only. *)
Lemma pack_aux_congr {A B C} (s : nest A) (t : nest B) (flat : list C) :
  same_structure s t = true -> pack_aux s flat = pack_aux t flat.
Proof.
  revert t flat. induction s as [a|k ss IH] using nest_ind;
    intros [b|k' ts] flat; try done.
  rewrite same_structure_Node. intros [<- Hall]. simpl.
  set (go1 := fix go (ss : list (nest A)) (flat : list C)
                : option (list (nest C) * list C) :=
                match ss with
                | [] => Some ([], flat)
                | s' :: ss' =>
                    match pack_aux s' flat with
                    | Some (t', rest) =>
                        match go ss' rest with
                        | Some (ts', rest') => Some (t' :: ts', rest')
                        | None => None
                        end
                    | None => None
                    end
                end).
  set (go2 := fix go (ss : list (nest B)) (flat : list C)
                : option (list (nest C) * list C) :=
                match ss with
                | [] => Some ([], flat)
                | s' :: ss' =>
                    match pack_aux s' flat with
                    | Some (t', rest) =>
                        match go ss' rest with
                        | Some (ts', rest') => Some (t' :: ts', rest')
                        | None => None
                        end
                    | None => None
                    end
                end).
  assert (go1 ss flat = go2 ts flat) as ->; [|done].
  revert flat. induction Hall as [|s t ss ts Hst _ IHall]; intros flat;
    [done|].
  apply Forall_cons in IH as [Hs Hss]. simpl.
  rewrite (Hs t flat Hst). destruct (pack_aux t flat) as [[t' rest]|]; [|done].
  by rewrite (IHall Hss).
Qed.

Lemma pack_aux_flatten {A} (s : nest A) (rest : list A) :
  pack_aux s (flatten s ++ rest) = Some (s, rest).
Proof.
  revert rest. induction s as [a|k ss IH] using nest_ind; intros rest;
    [done|].
  simpl.
  set (go := fix go (ss : list (nest A)) (flat : list A)
               : option (list (nest A) * list A) :=
               match ss with
               | [] => Some ([], flat)
               | s' :: ss' =>
                   match pack_aux s' flat with
                   | Some (t', rest) =>
                       match go ss' rest with
                       | Some (ts', rest') => Some (t' :: ts', rest')
                       | None => None
                       end
                   | None => None
                   end
               end).
  assert (go ss (concat (map flatten ss) ++ rest) = Some (ss, rest)) as ->;
    [|done].
  induction IH as [|s ss Hs _ IHss]; [done|].
  simpl. rewrite <- app_assoc, Hs. by rewrite IHss.
Qed.

(** The round trip of [flatten] and [pack_sequence_as]. *)
Lemma pack_flatten {A} (s : nest A) : pack_sequence_as s (flatten s) = Ok s.
Proof.
  unfold pack_sequence_as. rewrite Nat.eqb_refl.
  rewrite <- (app_nil_r (flatten s)) at 1. by rewrite pack_aux_flatten.
Qed.

(** Packing into a template of the same nesting as [s] gives [s] back. *)
Lemma pack_flatten_like {A B} (t : nest B) (s : nest A) :
  same_structure t s = true -> pack_sequence_as t (flatten s) = Ok s.
Proof.
  intros Hts. unfold pack_sequence_as.
  rewrite (same_structure_length _ _ Hts), Nat.eqb_refl.
  rewrite (pack_aux_congr _ _ _ Hts).
  rewrite <- (app_nil_r (flatten s)). by rewrite pack_aux_flatten.
Qed.

(** ** The constructor, in full *)

Section ConstructorInversion.
Context `{ArrayLib} `{RandomLib}.

Lemma finish_init_stats d g d' g' :
  Dataset.finish_init (d, g) = (Ok tt, (d', g')) ->
  exists n stats,
    Dataset.n_train_samples d = Ok n
    /\ map_result (fun x => Dataset.get_stats x None) (Dataset._train_inputs d)
       = Ok stats
    /\ d' = Dataset.set_normalizer None
              (Dataset.set_cursor 0 (np_random_permutation n g).1 None
                 (Dataset.set_stats (map (fun s => s.1.1.1) stats)
                    (map (fun s => s.1.1.2) stats)
                    (map (fun s => s.1.2) stats)
                    (map (fun s => s.2) stats) d))
    /\ g' = (np_random_permutation n g).2.
Proof.
  unfold Dataset.finish_init, Dataset.update_stats, Dataset.next_epoch, bind,
    Dataset.self, gets, lift_result, Dataset.assign, modify, raise, ret,
    Dataset.global, Dataset.random_permutation, Dataset.seed_if_truthy; simpl.
  destruct (map_result _ _) as [[|st stats]|e] eqn:Hstats; simpl; try done.
  unfold Dataset.n_train_samples; simpl.
  destruct (Dataset._train_inputs d) as [|x xs]; simpl; [done|].
  destruct (np_random_permutation (length x) g) as [p g2] eqn:Hp; simpl.
  intros [= <- <-]. exists (length x), (st :: stats). by rewrite Hp.
Qed.

(** What a construction that returned went through. *)
Lemma init_inv inputs targets test validation seed train_frac il tl g d g' :
  Dataset.init inputs targets test validation seed train_frac il tl g
  = (Ok d, g') ->
  exists x rest il' tl' istr tstr p g1 n stats,
    let test' := (fun s => (flatten s.1, flatten s.2)) <$> test in
    let validation' := (fun s => (flatten s.1, flatten s.2)) <$> validation in
    let d0 := Dataset.assemble il' tl' (flatten inputs) (flatten targets)
                istr tstr p test' in
    flatten inputs = x :: rest
    /\ Dataset.labels_for "inputs" il inputs = Ok il'
    /\ Dataset.labels_for "targets" tl targets = Ok tl'
    /\ Forall (fun y => length y = length x)
         (flatten inputs ++ flatten targets)
    /\ pack_sequence_as inputs (seq 0 (length (flatten inputs))) = Ok istr
    /\ pack_sequence_as targets (seq 0 (length (flatten targets))) = Ok tstr
    /\ Dataset.verify_optional
         "All test inputs and targets must share same batch size"
         istr tstr test = Ok test'
    /\ Dataset.verify_optional
         "All validation inputs and targets must share same batch size"
         istr tstr validation = Ok validation'
    /\ Dataset.prepare_validation (flatten inputs) (flatten targets)
         (length x) validation' seed train_frac g = (Ok p, g1)
    /\ Dataset.n_train_samples d0 = Ok n
    /\ map_result (fun y => Dataset.get_stats y None)
         (Dataset.p_train_inputs p) = Ok stats
    /\ d = Dataset.set_normalizer None
             (Dataset.set_cursor 0 (np_random_permutation n g1).1 None
                (Dataset.set_stats (map (fun s => s.1.1.1) stats)
                   (map (fun s => s.1.1.2) stats)
                   (map (fun s => s.1.2) stats)
                   (map (fun s => s.2) stats) d0))
    /\ g' = (np_random_permutation n g1).2.
Proof.
  unfold Dataset.init, bind, lift_result, raise; simpl.
  destruct (Dataset.labels_for "inputs" il inputs) as [il'|]; [|done].
  destruct (Dataset.labels_for "targets" tl targets) as [tl'|]; [|done].
  destruct (flatten inputs) as [|x rest] eqn:Hflat; [done|].
  destruct (Dataset.has_same_batch _) as [[]|] eqn:Hsame; simpl; [|done..].
  destruct (pack_sequence_as inputs _) as [istr|]; [|done].
  destruct (pack_sequence_as targets _) as [tstr|]; [|done].
  destruct (Dataset.verify_optional _ istr tstr test)
    as [test'|] eqn:Htest; [|done].
  destruct (Dataset.verify_optional _ istr tstr validation)
    as [validation'|] eqn:Hval; [|done].
  pose proof (verify_optional_Ok _ _ _ _ _ Htest) as ->.
  pose proof (verify_optional_Ok _ _ _ _ _ Hval) as ->.
  destruct (Dataset.prepare_validation _ _ _ _ _ _ _) as [[p|?] g1] eqn:Hp;
    [|done].
  destruct (Dataset.finish_init _) as [[[]|?] [d1 g2]] eqn:Hfin; [|done].
  intros [= <- <-].
  apply finish_init_stats in Hfin as (n & stats & Hn & Hstats & -> & ->).
  apply has_same_batch_true in Hsame as (x0 & rest0 & Hdata & Hall).
  injection Hdata as <- _.
  exists x, rest, il', tl', istr, tstr, p, g1, n, stats. simpl.
  by repeat (split; [done|]).
Qed.
End ConstructorInversion.

(** ** What the constructor leaves *)

Lemma same_structure_sym {A B} (s : nest A) (t : nest B) :
  same_structure s t = true -> same_structure t s = true.
Proof.
  intros Hst. rewrite (same_structure_congr s t t Hst).
  apply same_structure_refl.
Qed.

Lemma same_structure_trans {A B C} (s : nest A) (t : nest B) (u : nest C) :
  same_structure s t = true -> same_structure t u = true ->
  same_structure s u = true.
Proof. intros Hst Htu. by rewrite <- (same_structure_congr t u s Htu). Qed.

Lemma map_result_length {A B} (f : A -> result B) xs ys :
  map_result f xs = Ok ys -> length ys = length xs.
Proof.
  rewrite map_result_Forall2. intros Hf. symmetry. by eapply Forall2_length.
Qed.

Lemma labels_for_Ok {A} prefix label (data : nest A) l :
  Dataset.labels_for prefix label data = Ok l ->
  length l = length (flatten data)
  /\ forall lab, label = Some lab ->
       same_structure lab data = true /\ l = flatten lab.
Proof.
  destruct label as [lab|]; simpl.
  - unfold assert_same_structure.
    destruct (same_structure lab data) eqn:Hs; simpl; [|done].
    intros [= <-]. split; [by apply same_structure_length|].
    by intros ? [= <-].
  - intros [= <-]. unfold Dataset.default_labels.
    by rewrite length_map, length_seq.
Qed.

Section ConstructorShape.
Context `{ArrayLib} `{RandomLib}.

Lemma verify_optional_inv message (istr tstr : nest nat) si st v :
  Dataset.verify_optional message istr tstr (Some (si, st)) = Ok v ->
  same_structure si istr = true /\ same_structure st tstr = true
  /\ exists x rest, flatten si ++ flatten st = x :: rest
       /\ Forall (fun y => length y = length x) (flatten si ++ flatten st).
Proof.
  simpl. unfold assert_same_structure.
  destruct (same_structure si istr); [|done]. simpl.
  destruct (same_structure st tstr); [|done]. simpl.
  destruct (Dataset.has_same_batch _) as [[]|] eqn:Hsame; simpl; [|done..].
  intros _. do 2 (split; [done|]). by apply has_same_batch_true.
Qed.

End ConstructorShape.

Section ConstructorAligned.
Context `{ArrayLib} `{RandomLib}.

Lemma optional_set_aligned message (istr tstr : nest nat) set v :
  Dataset.verify_optional message istr tstr set = Ok v ->
  (forall flat, fst <$> v = Some flat ->
                length flat = length (flatten istr))
  /\ (forall flat, snd <$> v = Some flat ->
                   length flat = length (flatten tstr)).
Proof.
  intros Hv. pose proof (verify_optional_Ok _ _ _ _ _ Hv) as ->.
  destruct set as [[si st]|]; [|done].
  apply verify_optional_inv in Hv as (Hsi & Hst & _). simpl.
  split; intros ? [= <-]; by apply same_structure_length.
Qed.

(** The leaves the constructor keeps as the training and validation
    sets: one per leaf of the inputs and of the targets. *)
Lemma prepared_aligned flat_inputs flat_targets n validation seed train_frac
    g p g1 :
  Dataset.prepare_validation flat_inputs flat_targets n validation seed
    train_frac g = (Ok p, g1) ->
  length (Dataset.p_train_inputs p) = length flat_inputs
  /\ length (Dataset.p_train_targets p) = length flat_targets
  /\ (Dataset.p_validation p = validation
      \/ exists vi vt, Dataset.p_validation p = Some (vi, vt)
           /\ length vi = length flat_inputs
           /\ length vt = length flat_targets).
Proof.
  intros Hp.
  destruct (Dataset.is_None validation && (0 <? train_frac)%float) eqn:Hc.
  - apply andb_prop in Hc as [Hnone Hfrac].
    destruct validation; [done|].
    apply prepare_validation_split in Hp
      as (g0 & split & vi & vt & _ & _ & _ & _ & _ & Hti & Htt & Hval
          & Hvi & Hvt); [|done].
    apply map_result_length in Hti, Htt, Hvi, Hvt.
    do 2 (split; [done|]). right. by exists vi, vt.
  - apply prepare_validation_whole in Hp as [-> _]; [|done]. simpl.
    do 2 (split; [done|]). by left.
Qed.

Lemma init_aligned inputs targets test validation seed train_frac il tl g d g' :
  Dataset.init inputs targets test validation seed train_frac il tl g
  = (Ok d, g') ->
  aligned (length (flatten inputs)) (length (flatten targets)) d
  /\ 0 < length (flatten inputs)
  /\ same_structure (Dataset.inputs_structure d) inputs = true
  /\ same_structure (Dataset.targets_structure d) targets = true.
Proof.
  intros Hinit.
  apply init_inv in Hinit
    as (x & rest & il' & tl' & istr & tstr & p & g1 & n & stats & Hflat
        & Hil & Htl & _ & Histr & Htstr & Htest & Hval & Hprep & _ & Hstats
        & -> & _).
  apply labels_for_Ok in Hil as [Hil _]. apply labels_for_Ok in Htl as [Htl _].
  apply pack_sequence_as_inv in Histr as [Hfi Hsi].
  apply pack_sequence_as_inv in Htstr as [Hft Hst].
  assert (length (flatten istr) = length (flatten inputs)) as Hni
    by (by rewrite Hfi, length_seq).
  assert (length (flatten tstr) = length (flatten targets)) as Hnt
    by (by rewrite Hft, length_seq).
  apply optional_set_aligned in Htest as [Hte1 Hte2].
  apply optional_set_aligned in Hval as [Hva1 Hva2].
  apply map_result_length in Hstats.
  apply prepared_aligned in Hprep as (Hpi & Hpt & Hpv).
  split; [|split; [rewrite Hflat; simpl; lia|]].
  - split; simpl; rewrite ?length_map; try congruence.
    + intros v Hv. rewrite (Hte1 _ Hv). done.
    + intros v Hv. rewrite (Hte2 _ Hv). done.
    + destruct Hpv as [->|(vi & vt & -> & Hvi & Hvt)]; simpl.
      * intros v Hv. rewrite (Hva1 _ Hv). done.
      * by intros ? [= <-].
    + destruct Hpv as [->|(vi & vt & -> & Hvi & Hvt)]; simpl.
      * intros v Hv. rewrite (Hva2 _ Hv). done.
      * by intros ? [= <-].
  - simpl. split; by apply same_structure_sym.
Qed.
End ConstructorAligned.



(** What the properties of a constructed dataset return. *)
Lemma init_gives_back `{ArrayLib} `{RandomLib}
    (inputs targets : nest ndarray)
    (test validation : option (nest ndarray * nest ndarray))
    (seed : option Z) (train_frac : float) (il tl : option (nest string))
    (g g' : rng) (d : Dataset.t) :
  Dataset.init inputs targets test validation seed train_frac il tl g
  = (Ok d, g') ->
  match il with
  | Some l => Dataset.inputs_label d = Ok l
  | None => exists l, Dataset.inputs_label d = Ok l
              /\ flatten l
                 = Dataset.default_labels "inputs" (length (flatten inputs))
  end
  /\ match tl with
     | Some l => Dataset.targets_label d = Ok l
     | None => exists l, Dataset.targets_label d = Ok l
                 /\ flatten l
                    = Dataset.default_labels "targets"
                        (length (flatten targets))
     end
  /\ Dataset.test_set d = Ok (fst <$> test, snd <$> test)
  /\ (Dataset.is_None validation && (0 <? train_frac)%float = false ->
      Dataset.train_set d = Ok (inputs, targets)
      /\ Dataset.validation_set d
         = Ok (fst <$> validation, snd <$> validation)
      /\ Dataset.train_idx d = None
      /\ Dataset.validation_idx d = None).
Proof.
  intros Hinit.
  apply init_inv in Hinit
    as (x & rest & il' & tl' & istr & tstr & p & g1 & n & stats & Hflat
        & Hil & Htl & _ & Histr & Htstr & Htest & Hval & Hprep & _ & Hstats
        & -> & _).
  apply pack_sequence_as_inv in Histr as [Hfi Hsi].
  apply pack_sequence_as_inv in Htstr as [Hft Hst].
  apply same_structure_sym in Hsi, Hst.
  assert (forall label (data : nest ndarray) (s : nest nat) prefix l',
             same_structure s data = true ->
             Dataset.labels_for prefix label data = Ok l' ->
             match label with
             | Some l => pack_sequence_as s l' = Ok l
             | None => exists l, pack_sequence_as s l' = Ok l
                         /\ flatten l
                            = Dataset.default_labels prefix
                                (length (flatten data))
             end) as Hlabel.
  { intros label data s prefix l' Hs Hl.
    pose proof (labels_for_Ok _ _ _ _ Hl) as [Hlen Hgiven].
    destruct label as [l|].
    - destruct (Hgiven _ eq_refl) as [Hsame ->].
      apply pack_flatten_like.
      eapply same_structure_trans; [done|by apply same_structure_sym].
    - destruct (pack_sequence_as_ok s l') as (t & Ht & Hflat' & _).
      { rewrite Hlen. by apply same_structure_length. }
      exists t. split; [done|]. injection Hl as <-. done. }
  assert (forall message set,
             Dataset.verify_optional message istr tstr set
             = Ok ((fun s => (flatten s.1, flatten s.2)) <$> set) ->
             (x <-- Dataset.pack_optional istr
                      (fst <$> ((fun s : nest ndarray * nest ndarray =>
                                   (flatten s.1, flatten s.2)) <$> set)) ;;
              y <-- Dataset.pack_optional tstr
                      (snd <$> ((fun s : nest ndarray * nest ndarray =>
                                   (flatten s.1, flatten s.2)) <$> set)) ;;
              Ok (x, y))
             = Ok (fst <$> set, snd <$> set)) as Hset.
  { intros message [[si st]|] Hv; [|done].
    apply verify_optional_inv in Hv as (Hs1 & Hs2 & _). simpl.
    rewrite !pack_flatten_like by (by apply same_structure_sym). done. }
  split; [by eapply Hlabel|]. split; [by eapply Hlabel|].
  split; [by eapply Hset|].
  intros Hwhole. apply prepare_validation_whole in Hprep as [-> _]; [|
    by destruct validation].
  unfold Dataset.train_set, Dataset.validation_set, Dataset.train_inputs,
    Dataset.train_targets, Dataset.validation_inputs,
    Dataset.validation_targets. simpl.
  rewrite !pack_flatten_like by done. simpl.
  split; [done|]. split; [by eapply Hset|done].
Qed.

(** X7: a dataset gives back what it was constructed from: the labels
    that were given, the test set, and, when it did not split (a
    validation set was given, or train_frac is not above 0), the inputs
    and targets as the training set and the validation set as given,
    with no [train_idx] and no [validation_idx].  Default labels are
    inputs0, inputs1, ... in the order of the leaves. *)
Theorem constructed_gives_back `{ArrayLib} `{RandomLib}
    (inputs targets : nest ndarray)
    (test validation : option (nest ndarray * nest ndarray))
    (seed : option Z) (train_frac : float) (il tl : option (nest string))
    (g g' : rng) (d : Dataset.t) :
  Dataset.init inputs targets test validation seed train_frac il tl g
  = (Ok d, g') ->
  match il with
  | Some l => Dataset.inputs_label d = Ok l
  | None => exists l, Dataset.inputs_label d = Ok l
              /\ flatten l
                 = Dataset.default_labels "inputs" (length (flatten inputs))
  end
  /\ match tl with
     | Some l => Dataset.targets_label d = Ok l
     | None => exists l, Dataset.targets_label d = Ok l
                 /\ flatten l
                    = Dataset.default_labels "targets"
                        (length (flatten targets))
     end
  /\ Dataset.test_set d = Ok (fst <$> test, snd <$> test)
  /\ (Dataset.is_None validation && (0 <? train_frac)%float = false ->
      Dataset.train_set d = Ok (inputs, targets)
      /\ Dataset.validation_set d
         = Ok (fst <$> validation, snd <$> validation)
      /\ Dataset.train_idx d = None
      /\ Dataset.validation_idx d = None).
Proof. apply init_gives_back. Qed.

Lemma constructed_gives_back_witness :
  Dataset.inputs_label Example.given
  = Ok (Node KTuple [Leaf "image"; Leaf "mask"])
  /\ Dataset.targets_label Example.given = Ok (Leaf "label")
  /\ Dataset.test_set Example.given
     = Ok (Some (Example.tuple_of 2), Some (Leaf (Example.arange 2)))
  /\ Dataset.train_set Example.given
     = Ok (Example.tuple_of 4, Leaf (Example.arange 4))
  /\ Dataset.validation_set Example.given
     = Ok (Some (Example.tuple_of 1), Some (Leaf (Example.arange 1)))
  /\ Dataset.train_idx Example.given = None
  /\ Dataset.validation_idx Example.given = None.
Proof.
  destruct (@constructed_gives_back reference_array reference_random
              (Example.tuple_of 4) (Leaf (Example.arange 4))
              (Some (Example.tuple_of 2, Leaf (Example.arange 2)))
              (Some (Example.tuple_of 1, Leaf (Example.arange 1)))
              None Dataset.default_train_frac
              (Some (Node KTuple [Leaf "image"; Leaf "mask"]))
              (Some (Leaf "label")) 3%Z (Example.construct_given 3).2
              Example.given)
    as (Hil & Htl & Htest & Hwhole).
  - vm_compute. reflexivity.
  - destruct Hwhole as (Htrain & Hval & Htr & Hva); [reflexivity|].
    repeat split; assumption.
Defined.

(** ** The rows of a split *)

Lemma gathered_lookup {A} (leaves rs : list (list A)) idx j x :
  map_result (fun x => np_take x idx) leaves = Ok rs ->
  leaves !! j = Some x ->
  exists r, rs !! j = Some r /\ np_take x idx = Ok r.
Proof.
  rewrite map_result_Forall2. intros Hall Hx.
  destruct (Forall2_lookup_l _ _ _ _ _ Hall Hx) as (r & Hr & Htake).
  by exists r.
Qed.

(** X8: an automatic split loses no row and takes none twice.  Every
    leaf of the inputs and of the targets is cut along the same two
    index lists: its training leaf holds its rows at [train_idx], its
    validation leaf those at [validation_idx], and the two together are
    a rearrangement of the rows of the leaf. *)
Theorem split_keeps_every_row `{ArrayLib} `{RandomLib}
    (inputs targets : nest ndarray)
    (test : option (nest ndarray * nest ndarray)) (seed : option Z)
    (train_frac : float) (il tl : option (nest string)) (g g' : rng)
    (d : Dataset.t) :
  Dataset.init inputs targets test None seed train_frac il tl g = (Ok d, g') ->
  (0 <? train_frac)%float = true ->
  exists tr va vi vt,
    Dataset.train_idx d = Some tr
    /\ Dataset.validation_idx d = Some va
    /\ Dataset._validation_inputs d = Some vi
    /\ Dataset._validation_targets d = Some vt
    /\ (forall j x, flatten inputs !! j = Some x ->
          exists a b, Dataset._train_inputs d !! j = Some a
                      /\ vi !! j = Some b
                      /\ np_take x tr = Ok a /\ np_take x va = Ok b
                      /\ a ++ b ≡ₚ x)
    /\ (forall j y, flatten targets !! j = Some y ->
          exists a b, Dataset._train_targets d !! j = Some a
                      /\ vt !! j = Some b
                      /\ np_take y tr = Ok a /\ np_take y va = Ok b
                      /\ a ++ b ≡ₚ y).
Proof.
  intros Hinit Hfrac.
  apply init_inv in Hinit
    as (x & rest & il' & tl' & istr & tstr & p & g1 & n & stats & Hflat
        & _ & _ & Hsame & _ & _ & _ & Hval & Hprep & _ & _ & -> & _).
  simpl in Hprep.
  apply prepare_validation_split in Hprep
    as (g0 & cut & vi & vt & _ & _ & _ & Htr & Hva & Hti & Htt & Hpv
        & Hvi & Hvt); [|done].
  set (perm := (np_random_permutation (length x) g0).1) in *.
  set (tr := sorted (py_slice perm None (Some cut))) in *.
  set (va := sorted (py_slice perm (Some cut) None)) in *.
  assert (tr ++ va ≡ₚ seq 0 (length x)) as Hall.
  { unfold tr, va. rewrite !sorted_Permutation, py_slice_split.
    apply np_random_permutation_perm. }
  assert (forall (leaves ts vs : list ndarray) j y,
             Forall (fun y => length y = length x) leaves ->
             map_result (fun x => np_take x tr) leaves = Ok ts ->
             map_result (fun x => np_take x va) leaves = Ok vs ->
             leaves !! j = Some y ->
             exists a b, ts !! j = Some a /\ vs !! j = Some b
                         /\ np_take y tr = Ok a /\ np_take y va = Ok b
                         /\ a ++ b ≡ₚ y) as Hleaf.
  { intros leaves ts vs j y Hlen Hts Hvs Hy.
    destruct (gathered_lookup _ _ _ _ _ Hts Hy) as (a & Ha & Hta).
    destruct (gathered_lookup _ _ _ _ _ Hvs Hy) as (b & Hb & Htb).
    exists a, b. do 4 (split; [done|]).
    eapply np_take_all; [|by apply np_take_app].
    rewrite Forall_lookup in Hlen. by rewrite (Hlen _ _ Hy). }
  apply Forall_app in Hsame as [Hin Htg].
  exists tr, va, vi, vt. simpl. rewrite Htr, Hva, Hpv. simpl.
  do 4 (split; [done|]). split; intros j y Hy.
  - exact (Hleaf _ _ _ j y Hin Hti Hvi Hy).
  - exact (Hleaf _ _ _ j y Htg Htt Hvt Hy).
Qed.

Lemma split_keeps_every_row_witness :
  exists tr va vi vt,
    Dataset.train_idx Example.nested = Some tr
    /\ Dataset.validation_idx Example.nested = Some va
    /\ Dataset._validation_inputs Example.nested = Some vi
    /\ Dataset._validation_targets Example.nested = Some vt
    /\ (forall j x,
          flatten (Node KTuple [Leaf (Example.arange 4);
                                Leaf (Example.arange 4)]) !! j = Some x ->
          exists a b, Dataset._train_inputs Example.nested !! j = Some a
                      /\ vi !! j = Some b
                      /\ np_take x tr = Ok a /\ np_take x va = Ok b
                      /\ a ++ b ≡ₚ x)
    /\ (forall j y, flatten (Leaf (Example.arange 4)) !! j = Some y ->
          exists a b, Dataset._train_targets Example.nested !! j = Some a
                      /\ vt !! j = Some b
                      /\ np_take y tr = Ok a /\ np_take y va = Ok b
                      /\ a ++ b ≡ₚ y).
Proof.
  apply (@split_keeps_every_row reference_array reference_random
           (Node KTuple [Leaf (Example.arange 4); Leaf (Example.arange 4)])
           (Leaf (Example.arange 4))
           (Some (Node KTuple [Leaf (Example.arange 2);
                               Leaf (Example.arange 2)],
                  Leaf (Example.arange 2)))
           None 0.5%float None None 3%Z (Example.construct_nested 3).2).
  - vm_compute. reflexivity.
  - vm_compute. reflexivity.
Defined.

(** ** What the constructor accepts and what it refuses *)

Section ConstructorChecks.
Context `{ArrayLib} `{RandomLib}.

Lemma has_same_batch_Forall (x : ndarray) rest n :
  Forall (fun y => length y = n) (x :: rest) ->
  Dataset.has_same_batch (x :: rest) = Ok true.
Proof.
  intros Hall. apply Forall_cons in Hall as [<- Hall]. simpl. f_equal.
  induction Hall as [|y ys Hy _ IH]; [done|]. simpl.
  by rewrite Hy, Nat.eqb_refl.
Qed.

Lemma has_same_batch_Exists (x : ndarray) rest :
  Exists (fun y => length y <> length x) (x :: rest) ->
  Dataset.has_same_batch (x :: rest) = Ok false.
Proof.
  intros Hex. apply Exists_cons in Hex as [?|Hex]; [done|]. simpl. f_equal.
  induction Hex as [y ys Hy|y ys _ IH]; simpl.
  - by apply Nat.eqb_neq in Hy as ->.
  - rewrite IH. by destruct (_ =? _).
Qed.

Lemma labels_for_fits {A} prefix label (data : nest A) :
  label_fits label data ->
  exists l, Dataset.labels_for prefix label data = Ok l.
Proof.
  destruct label as [l|]; simpl; [|by eexists].
  unfold assert_same_structure. intros ->. by eexists.
Qed.

Lemma verify_optional_fits message (inputs targets : nest ndarray)
    (istr tstr : nest nat) set :
  same_structure inputs istr = true -> same_structure targets tstr = true ->
  flatten inputs <> [] ->
  fits inputs targets set ->
  Dataset.verify_optional message istr tstr set
  = Ok ((fun s => (flatten s.1, flatten s.2)) <$> set).
Proof.
  intros Hi Ht Hleaf Hfits. destruct set as [[si st]|]; [|done].
  destruct Hfits as (Hsi & Hst & n & Hall). simpl.
  unfold assert_same_structure.
  rewrite <- (same_structure_congr _ _ si Hi), Hsi. simpl.
  rewrite <- (same_structure_congr _ _ st Ht), Hst. simpl.
  destruct (flatten si ++ flatten st) as [|y ys] eqn:Hys.
  { apply same_structure_length in Hsi.
    apply (f_equal length) in Hys. rewrite length_app in Hys. simpl in Hys.
    destruct (flatten inputs); [done|]. simpl in Hsi. lia. }
  by rewrite (has_same_batch_Forall _ _ _ Hall).
Qed.

Lemma verify_optional_foreign message (inputs targets : nest ndarray)
    (istr tstr : nest nat) (si st : nest ndarray) :
  same_structure inputs istr = true -> same_structure targets tstr = true ->
  same_structure si inputs && same_structure st targets = false ->
  Dataset.verify_optional message istr tstr (Some (si, st))
  = Raise StructureError.
Proof.
  intros Hi Ht Hno. simpl. unfold assert_same_structure.
  rewrite <- (same_structure_congr _ _ si Hi).
  rewrite <- (same_structure_congr _ _ st Ht).
  destruct (same_structure si inputs); [|done].
  by destruct (same_structure st targets).
Qed.

(** The constructor up to the test and validation sets, on inputs and
    targets that pass its checks. *)
Lemma init_checked inputs targets il tl x rest :
  label_fits il inputs -> label_fits tl targets ->
  flatten inputs = x :: rest ->
  Forall (fun y => length y = length x) (flatten inputs ++ flatten targets) ->
  exists il' tl' istr tstr,
    same_structure inputs istr = true
    /\ same_structure targets tstr = true
    /\ forall test validation seed train_frac g,
       Dataset.init inputs targets test validation seed train_frac il tl g
       = (test <- lift_result
            (Dataset.verify_optional
               "All test inputs and targets must share same batch size"
               istr tstr test) ;;
          validation <- lift_result
            (Dataset.verify_optional
               "All validation inputs and targets must share same batch size"
               istr tstr validation) ;;
          p <- Dataset.prepare_validation (flatten inputs) (flatten targets)
                 (length x) validation seed train_frac ;;
          let d := Dataset.assemble il' tl' (flatten inputs) (flatten targets)
                     istr tstr p test in
          fun g => match Dataset.finish_init (d, g) with
                   | (Ok _, (d', g')) => (Ok d', g')
                   | (Raise e, (_, g')) => (Raise e, g')
                   end) g.
Proof.
  intros Hil Htl Hflat Hall.
  destruct (labels_for_fits "inputs" _ _ Hil) as (il' & Hil').
  destruct (labels_for_fits "targets" _ _ Htl) as (tl' & Htl').
  destruct (pack_sequence_as_ok inputs (seq 0 (length (flatten inputs))))
    as (istr & Histr & _ & Hsi); [by rewrite length_seq|].
  destruct (pack_sequence_as_ok targets (seq 0 (length (flatten targets))))
    as (tstr & Htstr & _ & Hst); [by rewrite length_seq|].
  exists il', tl', istr, tstr. do 2 (split; [done|]).
  intros test validation seed train_frac g.
  assert (Dataset.has_same_batch (flatten inputs ++ flatten targets)
          = Ok true) as Hsame.
  { rewrite Hflat in *. by eapply has_same_batch_Forall. }
  unfold Dataset.init, bind, lift_result. rewrite Hil', Htl', Hsame.
  rewrite Hflat in *. simpl in Histr |- *. by rewrite Histr, Htstr.
Qed.
End ConstructorChecks.

Section ConstructorOutcome.
Context `{ArrayLib} `{RandomLib}.

Lemma finish_init_returns d g x rest stats :
  Dataset._train_inputs d = x :: rest ->
  map_result (fun y => Dataset.get_stats y None) (x :: rest) = Ok stats ->
  Dataset.finish_init (d, g)
  = (Ok tt,
     (Dataset.set_normalizer None
        (Dataset.set_cursor 0 (np_random_permutation (length x) g).1 None
           (Dataset.set_stats (map (fun s => s.1.1.1) stats)
              (map (fun s => s.1.1.2) stats)
              (map (fun s => s.1.2) stats)
              (map (fun s => s.2) stats) d)),
      (np_random_permutation (length x) g).2)).
Proof.
  intros Hd Hstats.
  unfold Dataset.finish_init, Dataset.update_stats, Dataset.next_epoch, bind,
    Dataset.self, gets, lift_result, Dataset.assign, modify, raise, ret,
    Dataset.global, Dataset.random_permutation, Dataset.seed_if_truthy.
  cbn [fst snd]. rewrite Hd, Hstats.
  destruct stats as [|st stats].
  { apply map_result_length in Hstats. done. }
  unfold Dataset.n_train_samples. simpl. rewrite Hd. simpl.
  by destruct (np_random_permutation (length x) g).
Qed.
End ConstructorOutcome.

(** A construction without a split, on arguments that fit. *)
Lemma init_returns `{ArrayLib} `{RandomLib}
    (inputs targets : nest ndarray)
    (test validation : option (nest ndarray * nest ndarray))
    (train_frac : float) (il tl : option (nest string)) (g : rng)
    (x : ndarray) (rest : list ndarray)
    (stats : list (ndarray * ndarray * scalar * scalar)) :
  label_fits il inputs -> label_fits tl targets ->
  flatten inputs = x :: rest ->
  Forall (fun y => length y = length x) (flatten inputs ++ flatten targets) ->
  fits inputs targets test -> fits inputs targets validation ->
  Dataset.is_None validation && (0 <? train_frac)%float = false ->
  map_result (fun y => Dataset.get_stats y None) (flatten inputs) = Ok stats ->
  exists d,
    (forall seed,
        Dataset.init inputs targets test validation seed train_frac il tl g
        = (Ok d, (np_random_permutation (length x) g).2))
    /\ Dataset.train_perm d = (np_random_permutation (length x) g).1
    /\ Dataset.n_train_samples d = Ok (length x).
Proof.
  intros Hil Htl Hflat Hall Htest Hval Hwhole Hstats.
  destruct (init_checked inputs targets il tl x rest Hil Htl Hflat Hall)
    as (il' & tl' & istr & tstr & Hsi & Hst & Hinit).
  assert (forall seed,
             Dataset.prepare_validation (flatten inputs) (flatten targets)
               (length x)
               ((fun s : nest ndarray * nest ndarray =>
                   (flatten s.1, flatten s.2)) <$> validation)
               seed train_frac g
             = (Ok {| Dataset.p_train_idx := None;
                      Dataset.p_validation_idx := None;
                      Dataset.p_train_inputs := flatten inputs;
                      Dataset.p_train_targets := flatten targets;
                      Dataset.p_validation :=
                        (fun s : nest ndarray * nest ndarray =>
                           (flatten s.1, flatten s.2)) <$> validation |},
                g)) as Hprep.
  { intros seed. unfold Dataset.prepare_validation.
    replace (Dataset.is_None _) with (Dataset.is_None validation)
      by (by destruct validation).
    by rewrite Hwhole. }
  eexists. split.
  - intros seed. rewrite Hinit. unfold bind, lift_result.
    rewrite !(verify_optional_fits _ inputs targets)
      by (done || by rewrite Hflat).
    rewrite Hprep.
    erewrite finish_init_returns; [|simpl; apply Hflat|by rewrite <- Hflat].
    reflexivity.
  - simpl. unfold Dataset.n_train_samples. simpl. by rewrite Hflat.
Qed.

(** X9: inputs and targets that fit together, with test and validation
    sets that fit them, always make a dataset when no split is asked
    for (a validation set is given, or train_frac is not above 0) and
    the statistics of the input leaves can be taken.  The seed plays no
    part: the construction draws one permutation, that of the first
    epoch, from the generator as it finds it. *)
Theorem construction_succeeds `{ArrayLib} `{RandomLib}
    (inputs targets : nest ndarray)
    (test validation : option (nest ndarray * nest ndarray))
    (train_frac : float) (il tl : option (nest string)) (g : rng)
    (x : ndarray) (rest : list ndarray)
    (stats : list (ndarray * ndarray * scalar * scalar)) :
  label_fits il inputs -> label_fits tl targets ->
  flatten inputs = x :: rest ->
  Forall (fun y => length y = length x) (flatten inputs ++ flatten targets) ->
  fits inputs targets test -> fits inputs targets validation ->
  Dataset.is_None validation && (0 <? train_frac)%float = false ->
  map_result (fun y => Dataset.get_stats y None) (flatten inputs) = Ok stats ->
  exists d,
    (forall seed,
        Dataset.init inputs targets test validation seed train_frac il tl g
        = (Ok d, (np_random_permutation (length x) g).2))
    /\ Dataset.train_perm d = (np_random_permutation (length x) g).1
    /\ Dataset.n_train_samples d = Ok (length x).
Proof. apply init_returns. Qed.

Lemma construction_succeeds_witness :
  exists d,
    (forall seed,
        Dataset.init (Example.tuple_of 4) (Leaf (Example.arange 4))
          (Some (Example.tuple_of 2, Leaf (Example.arange 2)))
          (Some (Example.tuple_of 1, Leaf (Example.arange 1)))
          seed Dataset.default_train_frac
          (Some (Node KTuple [Leaf "image"; Leaf "mask"]))
          (Some (Leaf "label")) 3%Z
        = (Ok d, (np_random_permutation (length (Example.arange 4)) 3%Z).2))
    /\ Dataset.train_perm d
       = (np_random_permutation (length (Example.arange 4)) 3%Z).1
    /\ Dataset.n_train_samples d = Ok (length (Example.arange 4)).
Proof.
  eapply (@construction_succeeds reference_array reference_random
            (Example.tuple_of 4) (Leaf (Example.arange 4))
            (Some (Example.tuple_of 2, Leaf (Example.arange 2)))
            (Some (Example.tuple_of 1, Leaf (Example.arange 1)))
            Dataset.default_train_frac
            (Some (Node KTuple [Leaf "image"; Leaf "mask"]))
            (Some (Leaf "label")) 3%Z (Example.arange 4)
            [Example.arange 4]).
  - reflexivity.
  - reflexivity.
  - reflexivity.
  - repeat constructor.
  - split; [reflexivity|]. split; [reflexivity|].
    exists 2. repeat constructor.
  - split; [reflexivity|]. split; [reflexivity|].
    exists 1. repeat constructor.
  - reflexivity.
  - vm_compute. reflexivity.
Defined.

(** X10: inputs and targets whose leaves do not all have as many rows
    as the first leaf of the inputs are refused with the ValueError
    [All inputs and targets must share same batch size]; nothing has
    been drawn from the random generator. *)
Theorem unequal_rows_refused `{ArrayLib} `{RandomLib}
    (inputs targets : nest ndarray)
    (test validation : option (nest ndarray * nest ndarray))
    (seed : option Z) (train_frac : float) (il tl : option (nest string))
    (g : rng) (x : ndarray) (rest : list ndarray) :
  label_fits il inputs -> label_fits tl targets ->
  flatten inputs = x :: rest ->
  Exists (fun y => length y <> length x) (flatten inputs ++ flatten targets) ->
  Dataset.init inputs targets test validation seed train_frac il tl g
  = (Raise (SameBatchError
              "All inputs and targets must share same batch size"), g).
Proof.
  intros Hil Htl Hflat Hex.
  destruct (labels_for_fits "inputs" _ _ Hil) as (il' & Hil').
  destruct (labels_for_fits "targets" _ _ Htl) as (tl' & Htl').
  assert (Dataset.has_same_batch (flatten inputs ++ flatten targets)
          = Ok false) as Hsame.
  { rewrite Hflat in *. by apply has_same_batch_Exists. }
  unfold Dataset.init, bind, lift_result. rewrite Hil', Htl', Hsame, Hflat.
  reflexivity.
Qed.

Lemma unequal_rows_refused_witness :
  Dataset.init (Leaf (Example.arange 4)) (Leaf (Example.arange 3)) None None
    None Dataset.default_train_frac None None 3%Z
  = (Raise (SameBatchError
              "All inputs and targets must share same batch size"), 3%Z).
Proof.
  apply (@unequal_rows_refused reference_array reference_random
           (Leaf (Example.arange 4)) (Leaf (Example.arange 3)) None None
           None Dataset.default_train_frac None None 3%Z
           (Example.arange 4) []).
  - exact I.
  - exact I.
  - reflexivity.
  - apply Exists_cons_tl, Exists_cons_hd. vm_compute. discriminate.
Defined.

(** X11: a test set, or a validation set beside an accepted test set,
    that is not nested as the inputs and targets are is refused by
    [nest.assert_same_structure], before the generator is used; the
    structures are compared with those of the inputs and targets
    themselves, whatever the leaves hold. *)
Theorem foreign_set_refused `{ArrayLib} `{RandomLib}
    (inputs targets : nest ndarray)
    (test validation : option (nest ndarray * nest ndarray))
    (seed : option Z) (train_frac : float) (il tl : option (nest string))
    (g : rng) (x : ndarray) (rest : list ndarray) :
  label_fits il inputs -> label_fits tl targets ->
  flatten inputs = x :: rest ->
  Forall (fun y => length y = length x) (flatten inputs ++ flatten targets) ->
  (exists si st, test = Some (si, st)
     /\ same_structure si inputs && same_structure st targets = false)
  \/ (fits inputs targets test
      /\ exists si st, validation = Some (si, st)
           /\ same_structure si inputs && same_structure st targets = false) ->
  Dataset.init inputs targets test validation seed train_frac il tl g
  = (Raise StructureError, g).
Proof.
  intros Hil Htl Hflat Hall Hforeign.
  destruct (init_checked inputs targets il tl x rest Hil Htl Hflat Hall)
    as (il' & tl' & istr & tstr & Hsi & Hst & ->).
  unfold bind, lift_result.
  destruct Hforeign as [(si & st & -> & Hno)|(Hfits & si & st & -> & Hno)].
  - by rewrite (verify_optional_foreign _ inputs targets).
  - rewrite (verify_optional_fits _ inputs targets)
      by (done || by rewrite Hflat).
    by rewrite (verify_optional_foreign _ inputs targets).
Qed.

Lemma foreign_set_refused_witness :
  Dataset.init (Example.tuple_of 4) (Leaf (Example.arange 4))
    (Some (Node KList [Leaf (Example.arange 2); Leaf (Example.arange 2)],
           Leaf (Example.arange 2)))
    None None Dataset.default_train_frac None None 3%Z
  = (Raise StructureError, 3%Z).
Proof.
  apply (@foreign_set_refused reference_array reference_random
           (Example.tuple_of 4) (Leaf (Example.arange 4))
           (Some (Node KList [Leaf (Example.arange 2);
                              Leaf (Example.arange 2)],
                  Leaf (Example.arange 2)))
           None None Dataset.default_train_frac None None 3%Z
           (Example.arange 4) [Example.arange 4]).
  - exact I.
  - exact I.
  - reflexivity.
  - repeat constructor.
  - left. eexists _, _. split; reflexivity.
Defined.

(** ** What a method leaves alone *)

Section KeepsFacts.
Context `{ArrayLib} `{RandomLib} {X : Type} (f : Dataset.t * rng -> X).

Lemma keeps_ret {A} (a : A) : keeps f (ret a).
Proof. done. Qed.

Lemma keeps_raise {A} e : keeps f (raise (A := A) e).
Proof. done. Qed.

Lemma keeps_lift_result {A} (r : result A) : keeps f (lift_result r).
Proof. done. Qed.

Lemma keeps_self {A} (g : Dataset.t -> A) : keeps f (Dataset.self g).
Proof. done. Qed.

Lemma keeps_bind {A B} (m : Dataset.method A) (k : A -> Dataset.method B) :
  keeps f m -> (forall a, keeps f (k a)) -> keeps f (bind m k).
Proof.
  intros Hm Hk s. unfold bind. specialize (Hm s).
  destruct (m s) as [[a|e] s1]; [|done]. simpl in Hm.
  by rewrite Hk.
Qed.

Lemma keeps_assign (u : Dataset.t -> Dataset.t) :
  (forall d g, f (u d, g) = f (d, g)) -> keeps f (Dataset.assign u).
Proof. intros Hu [d g]. apply Hu. Qed.

Lemma keeps_global {A} (m : M rng A) :
  (forall d g g', f (d, g) = f (d, g')) -> keeps f (Dataset.global m).
Proof.
  intros Hf [d g]. unfold Dataset.global. simpl.
  destruct (m g) as [r g']. apply Hf.
Qed.

Lemma keeps_update_stats ax :
  (forall m s sm ss d g, f (Dataset.set_stats m s sm ss d, g) = f (d, g)) ->
  keeps f (Dataset.update_stats ax).
Proof.
  intros Hf. unfold Dataset.update_stats.
  apply keeps_bind; [apply keeps_self|intros xs].
  apply keeps_bind; [apply keeps_lift_result|intros stats].
  destruct stats; [apply keeps_raise|]. apply keeps_assign. intros. apply Hf.
Qed.
End KeepsFacts.

Ltac keeps_step :=
  first
    [ apply keeps_self
    | apply keeps_lift_result
    | apply keeps_ret
    | apply keeps_raise
    | apply keeps_update_stats; done
    | apply keeps_assign; done
    | apply keeps_global; done
    | apply keeps_bind; [|intros ?]
    | case_match ].

(** X12: [update_stats] writes the four statistics and nothing else,
    and does not use the random generator; when it raises, the object
    is as it was; and a second call in a row returns what the first
    did and changes nothing more. *)
Theorem update_stats_only_statistics `{ArrayLib} `{RandomLib}
    (ax : option axis) (s : Dataset.t * rng) :
  let r := Dataset.update_stats ax s in
  beside_stats r.2.1 = beside_stats s.1
  /\ r.2.2 = s.2
  /\ (is_ok r.1 = false -> r.2 = s)
  /\ Dataset.update_stats ax r.2 = r.
Proof.
  destruct s as [d g].
  unfold Dataset.update_stats, bind, Dataset.self, gets, lift_result,
    Dataset.assign, modify, raise. simpl.
  destruct (map_result _ (Dataset._train_inputs d))
    as [[|st stats]|e] eqn:Hstats; simpl; rewrite ?Hstats; done.
Qed.

(** X13: [normalize], whether it returns or raises, does not move the
    cursor of the minibatches, keeps the permutation of the epoch and
    the indices of the split, and draws nothing from the random
    generator. *)
Theorem normalize_keeps_cursor `{ArrayLib} `{RandomLib}
    (ax : option axis) (ctl : option (nest bool)) (s : Dataset.t * rng) :
  cursor_and_generator (Dataset.normalize ax ctl s).2 = cursor_and_generator s.
Proof.
  revert s. change (keeps cursor_and_generator (Dataset.normalize ax ctl)).
  unfold Dataset.normalize. repeat keeps_step.
Qed.

(** X14: [minibatch] and [next_epoch], whether they return or raise,
    change nothing of the object but the cursor: [minibatch_idx],
    [train_perm] and [minibatch_indicies].  Data, statistics, labels,
    structures, split and normalizer are as before. *)
Theorem cursor_methods_only_cursor `{ArrayLib} `{RandomLib}
    (batch_size : Z) (seed : option Z) (s : Dataset.t * rng) :
  beside_cursor (Dataset.minibatch batch_size s).2.1 = beside_cursor s.1
  /\ beside_cursor (Dataset.next_epoch seed s).2.1 = beside_cursor s.1.
Proof.
  assert (forall seed',
             keeps (fun s => beside_cursor s.1) (Dataset.next_epoch seed'))
    as Hnext.
  { intros seed'. unfold Dataset.next_epoch. repeat keeps_step. }
  split; [|apply Hnext].
  revert s.
  change (keeps (fun s => beside_cursor s.1) (Dataset.minibatch batch_size)).
  unfold Dataset.minibatch.
  repeat first [apply Hnext | keeps_step].
Qed.

(** ** The rows of a minibatch *)






(** ** Seeded epochs *)

(** [next_epoch] with a seed that counts. *)
Lemma next_epoch_Some `{ArrayLib} `{RandomLib} (n : nat) (d : Dataset.t)
    (g : rng) (seed : Z) :
  well_formed n d -> seed <> 0%Z ->
  Dataset.next_epoch (Some seed) (d, g)
  = match np_random_seed seed with
    | Ok g0 =>
        (Ok tt,
         (Dataset.set_cursor 0 (np_random_permutation n g0).1
            (Dataset._minibatch_indicies d) d,
          (np_random_permutation n g0).2))
    | Raise e =>
        (Raise e,
         (Dataset.set_cursor 0 (Dataset.train_perm d)
            (Dataset._minibatch_indicies d) d, g))
    end.
Proof.
  intros Hwf Hseed.
  unfold Dataset.next_epoch, bind, Dataset.assign, modify, Dataset.global,
    Dataset.seed_if_truthy, Dataset.truthy, Dataset.random_seed, Dataset.self,
    gets, lift_result, Dataset.random_permutation. simpl.
  apply Z.eqb_neq in Hseed as ->. simpl.
  destruct (np_random_seed seed) as [g0|e]; [|done]. simpl.
  rewrite (n_train_samples_wf n) by (by apply well_formed_set_cursor, Hwf).
  by destruct (np_random_permutation n g0).
Qed.

(** X17: on a dataset in its invariant, [next_epoch(seed)] with a seed
    other than 0 that [np.random.seed] accepts puts the cursor at 0 on
    the permutation drawn from the freshly seeded generator, whatever
    the state of the generator was; with a seed that [np.random.seed]
    refuses it raises after it has put the cursor at 0, and the old
    permutation and the generator stay. *)
Theorem next_epoch_seeded `{ArrayLib} `{RandomLib} (n : nat) (d : Dataset.t)
    (g : rng) (seed : Z) :
  well_formed n d -> seed <> 0%Z ->
  Dataset.next_epoch (Some seed) (d, g)
  = match np_random_seed seed with
    | Ok g0 =>
        (Ok tt,
         (Dataset.set_cursor 0 (np_random_permutation n g0).1
            (Dataset._minibatch_indicies d) d,
          (np_random_permutation n g0).2))
    | Raise e =>
        (Raise e,
         (Dataset.set_cursor 0 (Dataset.train_perm d)
            (Dataset._minibatch_indicies d) d, g))
    end.
Proof. apply next_epoch_Some. Qed.

Lemma next_epoch_seeded_witness :
  Dataset.next_epoch (Some 42%Z) (Example.built 10 0%float 5, 11%Z)
  = match np_random_seed 42 with
    | Ok g0 =>
        (Ok tt,
         (Dataset.set_cursor 0 (np_random_permutation 10 g0).1
            (Dataset._minibatch_indicies (Example.built 10 0%float 5))
            (Example.built 10 0%float 5),
          (np_random_permutation 10 g0).2))
    | Raise e =>
        (Raise e,
         (Dataset.set_cursor 0
            (Dataset.train_perm (Example.built 10 0%float 5))
            (Dataset._minibatch_indicies (Example.built 10 0%float 5))
            (Example.built 10 0%float 5), 11%Z))
    end.
Proof.
  apply (@next_epoch_seeded reference_array reference_random 10
           (Example.built 10 0%float 5) 11%Z 42).
  - constructor.
    + vm_compute. discriminate.
    + vm_compute. repeat constructor.
    + vm_compute. repeat constructor.
    + vm_compute. reflexivity.
    + vm_compute. reflexivity.
    + apply (bool_decide_unpack _). vm_compute. exact I.
  - discriminate.
Defined.

(** ** A control that is too short *)

Section ShortControl.
Context `{ArrayLib} `{RandomLib}.

Lemma normalize_leaves_length xs means stds ctl ys :
  Dataset.normalize_leaves xs means stds ctl = Ok ys ->
  length ys <= length ctl.
Proof.
  revert means stds ctl ys.
  induction xs as [|x xs IH]; intros means stds ctl ys Hrun.
  - injection Hrun as <-. simpl. lia.
  - destruct means as [|mu means], stds as [|sigma stds], ctl as [|on ctl];
      simpl in Hrun; try (injection Hrun as <-; simpl; lia).
    apply rbind_Ok in Hrun as (y & _ & Hrun).
    apply rbind_Ok in Hrun as (ys' & Hys & Hrun). injection Hrun as <-.
    apply IH in Hys. simpl. lia.
Qed.

Lemma normalize_inputs_short c xs :
  length (Dataset.control c) < length xs ->
  exists e, Dataset.normalize_inputs c (of_list xs) = Raise e.
Proof.
  intros Hshort. unfold Dataset.normalize_inputs.
  rewrite flatten_of_list.
  destruct (Dataset.normalize_leaves _ _ _ _) as [ys|e] eqn:Hys;
    [|by exists e].
  apply normalize_leaves_length in Hys. simpl.
  unfold pack_sequence_as. rewrite flatten_of_list.
  destruct (Nat.eqb_spec (length xs) (length ys)); [lia|by eexists].
Qed.
End ShortControl.

(** X18: a control with fewer leaves than the training inputs makes
    [normalize] raise, since the leaves normalized are as many as the
    control is long and do not fill the structure again.  By then the
    statistics are updated and the normalizer is replaced, while the
    inputs of the training, test and validation sets are as they were:
    the object is left with a normalizer that was applied to nothing. *)
Theorem normalize_short_control `{ArrayLib} `{RandomLib} (d : Dataset.t)
    (g : rng) (ax : option axis) (c : nest bool)
    (stats : list (ndarray * ndarray * scalar * scalar)) :
  map_result (fun x => Dataset.get_stats x ax) (Dataset._train_inputs d)
  = Ok stats ->
  length (flatten c) < length (Dataset._train_inputs d) ->
  exists e,
    Dataset.normalize ax (Some c) (d, g)
    = (Raise e,
       (Dataset.set_normalizer
          (Some {| Dataset.inputs_mean := map (fun s => s.1.1.1) stats;
                   Dataset.inputs_std := map (fun s => s.1.1.2) stats;
                   Dataset.control := flatten c |})
          (Dataset.set_stats (map (fun s => s.1.1.1) stats)
             (map (fun s => s.1.1.2) stats)
             (map (fun s => s.1.2) stats)
             (map (fun s => s.2) stats) d), g)).
Proof.
  intros Hstats Hshort.
  destruct (normalize_inputs_short
              {| Dataset.inputs_mean := map (fun s => s.1.1.1) stats;
                 Dataset.inputs_std := map (fun s => s.1.1.2) stats;
                 Dataset.control := flatten c |}
              (Dataset._train_inputs d) Hshort) as (e & He).
  exists e.
  unfold Dataset.normalize, Dataset.update_stats, bind, Dataset.self, gets,
    lift_result, Dataset.assign, modify. simpl. rewrite Hstats.
  destruct stats as [|st stats].
  { apply map_result_length in Hstats. simpl in Hstats. lia. }
  simpl. simpl in He. by rewrite He.
Qed.

Lemma normalize_short_control_witness :
  exists e,
    Dataset.normalize None (Some (Node KTuple [Leaf true]))
      (Example.nested, 9%Z)
    = (Raise e,
       (Dataset.set_normalizer
          (Some {| Dataset.inputs_mean :=
                     map (fun s => s.1.1.1) (Example.stats_of Example.nested);
                   Dataset.inputs_std :=
                     map (fun s => s.1.1.2) (Example.stats_of Example.nested);
                   Dataset.control := flatten (Node KTuple [Leaf true]) |})
          (Dataset.set_stats
             (map (fun s => s.1.1.1) (Example.stats_of Example.nested))
             (map (fun s => s.1.1.2) (Example.stats_of Example.nested))
             (map (fun s => s.1.2) (Example.stats_of Example.nested))
             (map (fun s => s.2) (Example.stats_of Example.nested))
             Example.nested), 9%Z)).
Proof.
  apply (@normalize_short_control reference_array reference_random
           Example.nested 9%Z None (Node KTuple [Leaf true])).
  - vm_compute. reflexivity.
  - vm_compute. lia.
Defined.

(** ** Copies *)

Lemma is_tuple_same_structure {A B} (s : nest A) (t : nest B) :
  same_structure s t = true -> is_tuple s = is_tuple t.
Proof.
  destruct s as [a|k ss], t as [b|k' ts]; simpl; try done.
  destruct k, k'; simpl; done.
Qed.

Lemma py_copy_is_tuple {A} (t : nest A) :
  py_copy t = if is_tuple t then Raise AttributeError else Ok t.
Proof. by destruct t as [a|[] ts]. Qed.

Section CopyOutcome.
Context `{ArrayLib} `{RandomLib}.

(** What the constructor accepted fits. *)
Lemma init_fits inputs targets test validation seed train_frac il tl g d g' :
  Dataset.init inputs targets test validation seed train_frac il tl g
  = (Ok d, g') ->
  fits inputs targets test /\ fits inputs targets validation.
Proof.
  intros Hinit.
  apply init_inv in Hinit
    as (x & rest & il' & tl' & istr & tstr & p & g1 & n & stats & Hflat
        & _ & _ & _ & Histr & Htstr & Htest & Hval & _).
  apply pack_sequence_as_inv in Histr as [_ Hsi].
  apply pack_sequence_as_inv in Htstr as [_ Hst].
  apply same_structure_sym in Hsi, Hst.
  assert (forall message set v,
             Dataset.verify_optional message istr tstr set = Ok v ->
             fits inputs targets set) as Hfits.
  { intros message [[si st]|] v Hv; [|done].
    apply verify_optional_inv in Hv as (Hs1 & Hs2 & y & ys & _ & Hall).
    split; [by eapply same_structure_trans|].
    split; [by eapply same_structure_trans|]. by exists (length y). }
  split; by eapply Hfits.
Qed.

(** The structured training inputs and targets of a constructed
    dataset are nested as the arguments were. *)
Lemma init_train_set inputs targets test validation seed train_frac il tl g
    d g' :
  Dataset.init inputs targets test validation seed train_frac il tl g
  = (Ok d, g') ->
  exists x y, Dataset.train_inputs d = Ok x /\ Dataset.train_targets d = Ok y
              /\ same_structure inputs x = true
              /\ same_structure targets y = true.
Proof.
  intros Hinit. apply init_aligned in Hinit as ([] & _ & Hsi & Hst).
  unfold Dataset.train_inputs, Dataset.train_targets.
  destruct (pack_sequence_as_ok (Dataset.inputs_structure d)
              (Dataset._train_inputs d)) as (x & -> & _ & Hx); [congruence|].
  destruct (pack_sequence_as_ok (Dataset.targets_structure d)
              (Dataset._train_targets d)) as (y & -> & _ & Hy); [congruence|].
  exists x, y. do 2 (split; [done|]).
  split; (eapply same_structure_trans; [by apply same_structure_sym|done]).
Qed.
End CopyOutcome.

(** X19: [copy] of a dataset whose inputs or targets are a tuple
    always raises AttributeError, at [.copy()] on the tuple that
    [train_inputs] or [train_targets] returns; the dataset and the
    random generator are as before. *)
Theorem copy_of_tuple `{ArrayLib} `{RandomLib}
    (inputs targets : nest ndarray)
    (test validation : option (nest ndarray * nest ndarray))
    (seed : option Z) (train_frac : float) (il tl : option (nest string))
    (g g' g2 : rng) (d : Dataset.t) :
  Dataset.init inputs targets test validation seed train_frac il tl g
  = (Ok d, g') ->
  is_tuple inputs || is_tuple targets = true ->
  Dataset.copy (d, g2) = (Raise AttributeError, (d, g2)).
Proof.
  intros Hinit Htuple.
  apply init_train_set in Hinit as (x & y & Hx & Hy & Hsx & Hsy).
  apply is_tuple_same_structure in Hsx, Hsy. rewrite Hsx, Hsy in Htuple.
  unfold Dataset.copy, bind, Dataset.self, gets, lift_result. simpl.
  rewrite Hx, Hy, !py_copy_is_tuple.
  destruct (is_tuple x); [done|]. by destruct (is_tuple y).
Qed.

Lemma copy_of_tuple_witness :
  Dataset.copy (Example.nested, 11%Z)
  = (Raise AttributeError, (Example.nested, 11%Z)).
Proof.
  apply (@copy_of_tuple reference_array reference_random
           (Node KTuple [Leaf (Example.arange 4); Leaf (Example.arange 4)])
           (Leaf (Example.arange 4))
           (Some (Node KTuple [Leaf (Example.arange 2);
                               Leaf (Example.arange 2)],
                  Leaf (Example.arange 2)))
           None None 0.5%float None None 3%Z
           (Example.construct_nested 3).2).
  - vm_compute. reflexivity.
  - reflexivity.
Defined.

Section CopyReconstructs.
Context `{ArrayLib} `{RandomLib}.

Lemma both_halves {A} (set : option (A * A)) :
  Dataset.both (fst <$> set) (snd <$> set)
  = Ok ((fun s => (s.1, s.2)) <$> set).
Proof. by destruct set as [[a b]|]. Qed.

Lemma train_set_Ok d x y :
  Dataset.train_set d = Ok (x, y) ->
  Dataset.train_inputs d = Ok x /\ Dataset.train_targets d = Ok y.
Proof.
  unfold Dataset.train_set. intros Hset.
  apply rbind_Ok in Hset as (a & Ha & Hset).
  apply rbind_Ok in Hset as (b & Hb & Hset). by injection Hset as <- <-.
Qed.

Lemma optional_set_Ok {A} (ri rt : result (option A)) x y :
  (a <-- ri ;; b <-- rt ;; Ok (a, b)) = Ok (x, y) -> ri = Ok x /\ rt = Ok y.
Proof.
  intros Hset.
  apply rbind_Ok in Hset as (a & Ha & Hset).
  apply rbind_Ok in Hset as (b & Hb & Hset). by injection Hset as <- <-.
Qed.
End CopyReconstructs.

(** X20: [copy] of a dataset that was constructed with a validation
    set, from inputs and targets that are not tuples, returns a new
    dataset with the same training, validation and test sets,
    structures, shapes and statistics.  It is what the constructor
    makes of the same sets alone: the labels are the default ones
    again, the normalizer is the identity, and the cursor is at 0 on a
    permutation newly drawn from the generator.  The original is not
    changed. *)
Theorem copy_with_validation_set `{ArrayLib} `{RandomLib}
    (inputs targets : nest ndarray)
    (test : option (nest ndarray * nest ndarray))
    (v : nest ndarray * nest ndarray)
    (seed : option Z) (train_frac : float) (il tl : option (nest string))
    (g g' g2 : rng) (d : Dataset.t) :
  Dataset.init inputs targets test (Some v) seed train_frac il tl g
  = (Ok d, g') ->
  is_tuple inputs || is_tuple targets = false ->
  exists d' n,
    Dataset.n_train_samples d = Ok n
    /\ Dataset.copy (d, g2) = (Ok d', (d, (np_random_permutation n g2).2))
    /\ data_of d' = data_of d
    /\ Dataset._inputs_label d'
       = Dataset.default_labels "inputs" (length (flatten inputs))
    /\ Dataset._targets_label d'
       = Dataset.default_labels "targets" (length (flatten targets))
    /\ Dataset.train_idx d' = None
    /\ Dataset.normalizer d' = None
    /\ Dataset.minibatch_idx d' = 0%Z
    /\ Dataset.train_perm d' = (np_random_permutation n g2).1.
Proof.
  intros Hinit Htuple. apply orb_false_elim in Htuple as [Hti Htt].
  pose proof (init_fits _ _ _ _ _ _ _ _ _ _ _ Hinit) as [Hftest Hfval].
  pose proof (init_gives_back _ _ _ _ _ _ _ _ _ _ _ Hinit)
    as (_ & _ & Htest & Hwhole).
  destruct Hwhole as (Htrain & Hval & _); [done|].
  apply train_set_Ok in Htrain as [Hx Hy].
  apply optional_set_Ok in Htest as [Hte1 Hte2].
  apply optional_set_Ok in Hval as [Hva1 Hva2].
  pose proof Hinit as Hinv.
  apply init_inv in Hinv
    as (x & rest & il' & tl' & istr & tstr & p & g1 & n & stats & Hflat
        & _ & _ & Hall & Histr & Htstr & _ & _ & Hprep & Hn & Hstats
        & Hd & _).
  apply prepare_validation_whole in Hprep as [-> _]; [|done].
  simpl in Hstats, Hn. unfold Dataset.n_train_samples in Hn. simpl in Hn.
  rewrite Hflat in Hn. injection Hn as <-.
  destruct (init_returns inputs targets test (Some v)
              Dataset.default_train_frac None None g2 x rest stats)
    as (d' & Hcopy & Hperm & Hn'); try done.
  specialize (Hcopy None).
  exists d', (length x). split.
  { rewrite Hd. unfold Dataset.n_train_samples. simpl. by rewrite Hflat. }
  split.
  { unfold Dataset.copy, bind, Dataset.self, gets, lift_result,
      Dataset.global. simpl.
    rewrite Hx, Hy, !py_copy_is_tuple, Hti, Htt, Hva1, Hva2, Hte1, Hte2.
    rewrite !both_halves. simpl.
    replace ((fun s : nest ndarray * nest ndarray => (s.1, s.2)) <$> test)
      with test by (by destruct test as [[]|]).
    destruct v as [vi vt]. simpl. by rewrite Hcopy. }
  apply init_inv in Hcopy
    as (x2 & rest2 & il2 & tl2 & istr2 & tstr2 & p2 & g3 & n2 & stats2
        & Hflat2 & Hil2 & Htl2 & _ & Histr2 & Htstr2 & _ & _ & Hprep2 & _
        & Hstats2 & Hd' & _).
  apply prepare_validation_whole in Hprep2 as [-> _]; [|done].
  simpl in Hstats2. rewrite Hstats in Hstats2. injection Hstats2 as <-.
  rewrite Histr in Histr2. injection Histr2 as <-.
  rewrite Htstr in Htstr2. injection Htstr2 as <-.
  injection Hil2 as <-. injection Htl2 as <-.
  split; [by rewrite Hd, Hd'|].
  do 5 (split; [by rewrite Hd'|]). exact Hperm.
Qed.

Lemma copy_with_validation_set_witness :
  exists d' n,
    Dataset.n_train_samples (Example.built_with_validation 5) = Ok n
    /\ Dataset.copy (Example.built_with_validation 5, 11%Z)
       = (Ok d', (Example.built_with_validation 5,
                  (np_random_permutation n 11%Z).2))
    /\ data_of d' = data_of (Example.built_with_validation 5)
    /\ Dataset._inputs_label d'
       = Dataset.default_labels "inputs"
           (length (flatten (Leaf (Example.arange 4))))
    /\ Dataset._targets_label d'
       = Dataset.default_labels "targets"
           (length (flatten (Leaf (Example.arange 4))))
    /\ Dataset.train_idx d' = None
    /\ Dataset.normalizer d' = None
    /\ Dataset.minibatch_idx d' = 0%Z
    /\ Dataset.train_perm d' = (np_random_permutation n 11%Z).1.
Proof.
  apply (@copy_with_validation_set reference_array reference_random
           (Leaf (Example.arange 4)) (Leaf (Example.arange 4)) None
           (Leaf (Example.arange 2), Leaf (Example.arange 2))
           None Dataset.default_train_frac
           (Some (Leaf "image")) None 5%Z
           (Example.construct_with_validation 5).2).
  - vm_compute. reflexivity.
  - reflexivity.
Defined.

(** ** A seeded epoch on several datasets *)

Section MultiEpoch.
Context `{ArrayLib} `{RandomLib}.

Lemma mapM_next_epoch_seeded (seed : Z) (g0 : rng) ds
    (h : MultiDataset.heap) (g : rng) :
  seed <> 0%Z -> np_random_seed seed = Ok g0 ->
  Forall (fun l => exists o n, h !! l = Some o /\ well_formed n o) ds ->
  exists rs h' g',
    mapM_ (fun d => MultiDataset.call d (Dataset.next_epoch (Some seed))) ds
      (h, g) = (Ok rs, (h', g'))
    /\ forall l o n, h !! l = Some o -> well_formed n o ->
         h' !! l
         = Some (if bool_decide (l ∈ ds)
                 then Dataset.set_cursor 0 (np_random_permutation n g0).1
                        (Dataset._minibatch_indicies o) o
                 else o).
Proof.
  intros Hseed Hg0. revert h g.
  induction ds as [|l ds IH]; intros h g Hall.
  { exists [], h, g. split; [done|]. intros l o n Hl _. by rewrite Hl. }
  apply Forall_cons in Hall as [(o & n & Hl & Hwf) Hall].
  pose proof (next_epoch_Some n o g seed Hwf Hseed) as Hcall.
  rewrite Hg0 in Hcall.
  set (o1 := Dataset.set_cursor 0 (np_random_permutation n g0).1
               (Dataset._minibatch_indicies o) o) in *.
  assert (well_formed n o1) as Hwf1.
  { apply well_formed_set_cursor; [done|apply np_random_permutation_perm]. }
  assert (l < length h) as Hlt by (by eapply lookup_lt_Some).
  destruct (IH (<[l := o1]> h) (np_random_permutation n g0).2)
    as (rs & h' & g' & Hrun & Hh').
  { eapply Forall_impl; [exact Hall|]. intros l' (o' & n' & Hl' & Hwf').
    destruct (decide (l' = l)) as [->|Hne].
    - exists o1, n. by rewrite list_lookup_insert_eq.
    - exists o', n'. by rewrite list_lookup_insert_ne. }
  exists (tt :: rs), h', g'. split.
  { simpl. unfold bind at 1. unfold MultiDataset.call at 1. simpl.
    rewrite Hl, Hcall. unfold bind at 1. by rewrite Hrun. }
  intros l' o' n' Hl' Hwf'.
  destruct (decide (l' = l)) as [->|Hne].
  - rewrite Hl in Hl'. injection Hl' as <-.
    pose proof (well_formed_unique _ _ _ Hwf Hwf') as <-.
    rewrite (Hh' l o1 n) by (by rewrite ?list_lookup_insert_eq).
    rewrite (bool_decide_eq_true_2 (l ∈ l :: ds)) by left.
    by destruct (bool_decide (l ∈ ds)).
  - rewrite (Hh' l' o' n') by (by rewrite ?list_lookup_insert_ne).
    f_equal. rewrite (bool_decide_ext (l' ∈ l :: ds) (l' ∈ ds)); [done|].
    rewrite elem_of_cons. split; [by intros [?|?]|by right].
Qed.
End MultiEpoch.

(** X21: [MultiDataset.next_epoch(seed)] with a seed other than 0 that
    [np.random.seed] accepts seeds the generator again before each
    dataset: every dataset held gets its cursor at 0 and the
    permutation that the seed alone gives for its number of training
    samples, so datasets of the same size get the same permutation and
    their minibatches go through the rows in step.  Datasets that are
    not held are not touched. *)
Theorem multi_next_epoch_seeded `{ArrayLib} `{RandomLib}
    (md : MultiDataset.t) (h : MultiDataset.heap) (g g0 : rng) (seed : Z) :
  seed <> 0%Z -> np_random_seed seed = Ok g0 ->
  Forall (fun l => exists o n, h !! l = Some o /\ well_formed n o)
    (MultiDataset._datasets md) ->
  exists h' g',
    MultiDataset.next_epoch md (Some seed) (h, g) = (Ok tt, (h', g'))
    /\ (forall l o n,
           l ∈ MultiDataset._datasets md -> h !! l = Some o ->
           well_formed n o ->
           h' !! l
           = Some (Dataset.set_cursor 0 (np_random_permutation n g0).1
                     (Dataset._minibatch_indicies o) o))
    /\ (forall l o n,
           l ∉ MultiDataset._datasets md -> h !! l = Some o ->
           well_formed n o -> h' !! l = Some o).
Proof.
  intros Hseed Hg0 Hall.
  destruct (mapM_next_epoch_seeded seed g0 _ h g Hseed Hg0 Hall)
    as (rs & h' & g' & Hrun & Hh').
  exists h', g'. split.
  { unfold MultiDataset.next_epoch, bind. by rewrite Hrun. }
  split; intros l o n Hin Hl Hwf; rewrite (Hh' l o n Hl Hwf).
  - by rewrite bool_decide_eq_true_2.
  - by rewrite bool_decide_eq_false_2.
Qed.

Lemma multi_next_epoch_seeded_witness :
  exists h' g',
    MultiDataset.next_epoch Example.pair (Some 42%Z)
      (Example.two_of_ten, 1%Z) = (Ok tt, (h', g'))
    /\ (forall l o n,
           l ∈ MultiDataset._datasets Example.pair ->
           Example.two_of_ten !! l = Some o ->
           well_formed n o ->
           h' !! l
           = Some (Dataset.set_cursor 0 (np_random_permutation n 42%Z).1
                     (Dataset._minibatch_indicies o) o))
    /\ (forall l o n,
           l ∉ MultiDataset._datasets Example.pair ->
           Example.two_of_ten !! l = Some o ->
           well_formed n o -> h' !! l = Some o).
Proof.
  apply (@multi_next_epoch_seeded reference_array reference_random
           Example.pair Example.two_of_ten 1%Z 42%Z 42%Z).
  - discriminate.
  - reflexivity.
  - constructor; [|constructor; [|constructor]].
    + eexists _, 10. split; [reflexivity|]. constructor.
      * vm_compute. discriminate.
      * vm_compute. repeat constructor.
      * vm_compute. repeat constructor.
      * vm_compute. reflexivity.
      * vm_compute. reflexivity.
      * apply (bool_decide_unpack _). vm_compute. exact I.
    + eexists _, 10. split; [reflexivity|]. constructor.
      * vm_compute. discriminate.
      * vm_compute. repeat constructor.
      * vm_compute. repeat constructor.
      * vm_compute. reflexivity.
      * vm_compute. reflexivity.
      * apply (bool_decide_unpack _). vm_compute. exact I.
Defined.

(** ** The counts *)

Section Counts.
Context `{ArrayLib} `{RandomLib}.

Lemma optional_set_counts message (istr tstr : nest nat) set v :
  Dataset.verify_optional message istr tstr set = Ok v ->
  0 < length (flatten istr) ->
  exists t, Dataset.n_optional_samples (fst <$> v) = Ok t
            /\ Forall (fun y => length y = t)
                 (default [] (fst <$> v) ++ default [] (snd <$> v)).
Proof.
  intros Hv Hpos. pose proof (verify_optional_Ok _ _ _ _ _ Hv) as ->.
  destruct set as [[si st]|]; [|by exists 0].
  apply verify_optional_inv in Hv as (Hsi & _ & y & ys & Hys & Hall).
  apply same_structure_length in Hsi. simpl.
  destruct (flatten si) as [|y' ys']; [simpl in Hsi; lia|].
  injection Hys as -> _. by exists (length y).
Qed.

Lemma gathered_counts (leaves targets vi vt : list ndarray) idx :
  leaves <> [] ->
  map_result (fun x => np_take x idx) leaves = Ok vi ->
  map_result (fun x => np_take x idx) targets = Ok vt ->
  Dataset.n_optional_samples (Some vi) = Ok (length idx)
  /\ Forall (fun y => length y = length idx) (vi ++ vt).
Proof.
  intros Hne Hvi Hvt.
  apply gathered_lengths in Hvi as [Hlen Hvi].
  apply gathered_lengths in Hvt as [_ Hvt].
  split; [|by apply Forall_app].
  destruct vi as [|y ys]; [by destruct leaves|].
  simpl. by apply Forall_cons in Hvi as [-> _].
Qed.
End Counts.

(** X22: on a constructed dataset the three counts are the numbers of
    rows of the sets: every leaf of the training inputs and targets has
    [n_train_samples] rows, every leaf of the test inputs and targets
    [n_test_samples], every leaf of the validation inputs and targets
    [n_validation_samples]; a set that is absent counts 0. *)
Theorem constructed_counts `{ArrayLib} `{RandomLib}
    (inputs targets : nest ndarray)
    (test validation : option (nest ndarray * nest ndarray))
    (seed : option Z) (train_frac : float) (il tl : option (nest string))
    (g g' : rng) (d : Dataset.t) :
  Dataset.init inputs targets test validation seed train_frac il tl g
  = (Ok d, g') ->
  exists n t v,
    Dataset.n_train_samples d = Ok n
    /\ Dataset.n_test_samples d = Ok t
    /\ Dataset.n_validation_samples d = Ok v
    /\ Forall (fun y => length y = n)
         (Dataset._train_inputs d ++ Dataset._train_targets d)
    /\ Forall (fun y => length y = t)
         (default [] (Dataset._test_inputs d)
          ++ default [] (Dataset._test_targets d))
    /\ Forall (fun y => length y = v)
         (default [] (Dataset._validation_inputs d)
          ++ default [] (Dataset._validation_targets d))
    /\ (Dataset._test_inputs d = None -> t = 0)
    /\ (Dataset._validation_inputs d = None -> v = 0).
Proof.
  intros Hinit.
  destruct (init_well_formed _ _ _ _ _ _ _ _ _ _ _ Hinit) as (n & Hwf & _).
  apply init_inv in Hinit
    as (x & rest & il' & tl' & istr & tstr & p & g1 & n' & stats & Hflat
        & _ & _ & _ & Histr & _ & Htest & Hval & Hprep & _ & _ & Hd & _).
  apply pack_sequence_as_inv in Histr as [Hfi _].
  assert (0 < length (flatten istr)) as Hpos.
  { rewrite Hfi, length_seq, Hflat. simpl. lia. }
  destruct (optional_set_counts _ _ _ _ _ Htest Hpos) as (t & Ht & Htall).
  assert (exists v,
             Dataset.n_optional_samples (fst <$> Dataset.p_validation p) = Ok v
             /\ Forall (fun y => length y = v)
                  (default [] (fst <$> Dataset.p_validation p)
                   ++ default [] (snd <$> Dataset.p_validation p)))
    as (v & Hv & Hvall).
  { destruct (Dataset.is_None
                ((fun s : nest ndarray * nest ndarray =>
                    (flatten s.1, flatten s.2)) <$> validation)
              && (0 <? train_frac)%float) eqn:Hc.
    - apply andb_prop in Hc as [Hnone Hfrac].
      destruct validation; [done|].
      apply prepare_validation_split in Hprep
        as (g0 & cut & vi & vt & _ & _ & _ & _ & _ & _ & _ & -> & Hvi & Hvt);
        [|done].
      eexists. eapply gathered_counts; [|done..]. by rewrite Hflat.
    - apply prepare_validation_whole in Hprep as [-> _]; [|done].
      by eapply optional_set_counts. }
  exists n, t, v.
  split; [by apply n_train_samples_wf|].
  unfold Dataset.n_test_samples, Dataset.n_validation_samples.
  rewrite Hd. simpl. do 2 (split; [done|]).
  split.
  { apply Forall_app. destruct Hwf as [_ Hin Htg _ _ _].
    rewrite Hd in Hin, Htg. done. }
  do 2 (split; [done|]).
  split.
  - intros Hnone. rewrite Hnone in Ht. by injection Ht.
  - intros Hnone. rewrite Hnone in Hv. by injection Hv.
Qed.

Lemma constructed_counts_witness :
  exists n t v,
    Dataset.n_train_samples Example.nested = Ok n
    /\ Dataset.n_test_samples Example.nested = Ok t
    /\ Dataset.n_validation_samples Example.nested = Ok v
    /\ Forall (fun y => length y = n)
         (Dataset._train_inputs Example.nested
          ++ Dataset._train_targets Example.nested)
    /\ Forall (fun y => length y = t)
         (default [] (Dataset._test_inputs Example.nested)
          ++ default [] (Dataset._test_targets Example.nested))
    /\ Forall (fun y => length y = v)
         (default [] (Dataset._validation_inputs Example.nested)
          ++ default [] (Dataset._validation_targets Example.nested))
    /\ (Dataset._test_inputs Example.nested = None -> t = 0)
    /\ (Dataset._validation_inputs Example.nested = None -> v = 0).
Proof.
  apply (@constructed_counts reference_array reference_random
           (Node KTuple [Leaf (Example.arange 4); Leaf (Example.arange 4)])
           (Leaf (Example.arange 4))
           (Some (Node KTuple [Leaf (Example.arange 2);
                               Leaf (Example.arange 2)],
                  Leaf (Example.arange 2)))
           None None 0.5%float None None 3%Z
           (Example.construct_nested 3).2).
  vm_compute. reflexivity.
Defined.

(** ** The rest of an epoch *)

(** X23: when the batch size does not divide the number of training
    samples, the rest of every epoch is never served.  From the start
    of an epoch, the first n div b calls of [minibatch(b)] serve the
    first (n div b) * b indices of the permutation in order; the next
    call finds fewer than b indices left, draws the permutation of the
    next epoch and serves its first b indices, so the last n mod b
    indices of the old permutation are skipped. *)
Theorem minibatch_skips_rest `{ArrayLib} `{RandomLib} (n : nat)
    (d : Dataset.t) (g : rng) (b : Z) :
  well_formed n d -> Dataset.minibatch_idx d = 0%Z ->
  (1 <= b <= Z.of_nat n)%Z -> (Z.of_nat n mod b <> 0)%Z ->
  let k := Z.to_nat (Z.of_nat n / b) in
  exists chunks last s',
    serve (k + 1) b (d, g) = (Ok (chunks ++ [last]), s')
    /\ length chunks = k
    /\ concat chunks = take (k * Z.to_nat b) (Dataset.train_perm d)
    /\ last = take (Z.to_nat b) (np_random_permutation n g).1
    /\ Dataset.train_perm s'.1 = (np_random_permutation n g).1
    /\ s'.2 = (np_random_permutation n g).2.
Proof.
  intros Hwf Hcur Hb Hrest k.
  assert (Z.of_nat k = Z.of_nat n / b)%Z as Hk.
  { unfold k. rewrite Z2Nat.id; [done|]. apply Z.div_pos; lia. }
  pose proof (Z.div_mod (Z.of_nat n) b ltac:(lia)) as Hdiv.
  pose proof (Z.mod_pos_bound (Z.of_nat n) b ltac:(lia)) as Hmod.
  destruct (serve_within_epoch k b n d g Hwf ltac:(lia) ltac:(lia))
    as (chunks & d1 & Hrun & Hconcat & Hlen & Hwf1 & Hcur1).
  { rewrite Hcur, Hk. nia. }
  rewrite Hcur in Hconcat, Hcur1. simpl in Hconcat. rewrite drop_0 in Hconcat.
  destruct (minibatch_served n d1 g b Hwf1 ltac:(lia))
    as (bi & bt & Hlast & _).
  destruct (Z.gtb_spec (Dataset.minibatch_idx d1 + b) (Z.of_nat n))
    as [_|Hfit]; [|rewrite Hcur1, Hk in Hfit; nia].
  assert (py_slice (np_random_permutation n g).1 (Some 0%Z) (Some (0 + b)%Z)
          = take (Z.to_nat b) (np_random_permutation n g).1) as Hidx.
  { rewrite py_slice_inside;
      rewrite ?(perm_length _ n) by apply np_random_permutation_perm;
      try lia.
    simpl. rewrite drop_0. f_equal. lia. }
  rewrite Hidx in Hlast.
  eexists chunks, _, _. split.
  { rewrite serve_add, Hrun.
    rewrite (serve_S 0), Hlast. simpl. reflexivity. }
  simpl. done.
Qed.

Lemma minibatch_skips_rest_witness :
  let k := Z.to_nat (Z.of_nat 10 / 3) in
  exists chunks last s',
    serve (k + 1) 3 (Example.built 10 0%float 5, 11%Z)
    = (Ok (chunks ++ [last]), s')
    /\ length chunks = k
    /\ concat chunks
       = take (k * Z.to_nat 3)
           (Dataset.train_perm (Example.built 10 0%float 5))
    /\ last = take (Z.to_nat 3) (np_random_permutation 10 11%Z).1
    /\ Dataset.train_perm s'.1 = (np_random_permutation 10 11%Z).1
    /\ s'.2 = (np_random_permutation 10 11%Z).2.
Proof.
  apply (@minibatch_skips_rest reference_array reference_random 10
           (Example.built 10 0%float 5) 11%Z 3).
  - constructor.
    + vm_compute. discriminate.
    + vm_compute. repeat constructor.
    + vm_compute. repeat constructor.
    + vm_compute. reflexivity.
    + vm_compute. reflexivity.
    + apply (bool_decide_unpack _). vm_compute. exact I.
  - vm_compute. reflexivity.
  - lia.
  - vm_compute. discriminate.
Defined.

(** ** Every epoch of [batchify] *)

Lemma np_take_concat {A} (x : list A) (perms : list (list nat)) :
  Forall (fun p => p ≡ₚ seq 0 (length x)) perms ->
  exists r, np_take x (concat perms) = Ok r
            /\ r ≡ₚ concat (replicate (length perms) x)
            /\ (Forall (fun p => p = seq 0 (length x)) perms ->
                r = concat (replicate (length perms) x)).
Proof.
  induction 1 as [|p perms Hp _ (r & Hr & Hperm & Heq)].
  { exists []. by repeat split. }
  destruct (np_take_ok x p) as (rp & Hrp).
  { eapply perm_bounded, Hp. }
  exists (rp ++ r). split; [by apply np_take_app|]. split.
  - simpl. rewrite Hperm. f_equiv. by eapply np_take_all.
  - intros Hall. apply Forall_cons in Hall as [-> Hall]. simpl.
    rewrite np_take_seq in Hrp. injection Hrp as <-. by rewrite Heq.
Qed.

Section BatchifyAllEpochs.
Context {A : Type} `{RandomLib}.
Variable data : nest (list A).
Variable x : list A.
Variable xs : list (list A).
Variable N : nat.
Hypothesis data_leaves : flatten data = x :: xs.
Hypothesis same_length : Forall (fun y => length y = N) (x :: xs).

(** A turn that straddles two epochs: the rows of its batch. *)
Lemma turn_straddle_rows B n_epochs shuffle cutoff perm pos epoch g :
  perm ≡ₚ seq 0 N ->
  (0 <= pos <= Z.of_nat N)%Z -> (Z.of_nat N < pos + B)%Z ->
  epoch <> (n_epochs - 1)%Z ->
  (n_epochs <= 0 \/ epoch < n_epochs - 1 \/ pos < Z.of_nat N)%Z ->
  exists b perm' g',
    Batchify.turn data B n_epochs shuffle cutoff N perm pos epoch
      (Batchify.Finished, g)
    = (Ok (Some b),
       (Batchify.AtYield perm' (pos + B - Z.of_nat N) (epoch + 1), g'))
    /\ perm' ≡ₚ seq 0 N
    /\ (shuffle = false -> perm' = seq 0 N)
    /\ Batchify.get_data data
         (py_slice perm (Some pos) None
          ++ py_slice perm' None (Some (pos + B - Z.of_nat N)%Z))
       = Ok b.
Proof using data_leaves same_length.
  intros Hperm Hpos Hover Hmore Hloop. unfold Batchify.turn.
  replace ((n_epochs <=? 0)%Z || (epoch <? n_epochs - 1)%Z
           || (pos <? Z.of_nat N)%Z) with true.
  2:{ symmetry. rewrite !orb_true_iff, Z.leb_le, !Z.ltb_lt. tauto. }
  destruct (Z.gtb_spec (pos + B) (Z.of_nat N)); [|lia].
  destruct (Z.eqb_spec epoch (n_epochs - 1)); [done|].
  unfold bind at 1.
  assert (exists perm' g',
             Batchify.get_perm shuffle N (Batchify.Finished, g)
             = (Ok perm', (Batchify.Finished, g'))
             /\ perm' ≡ₚ seq 0 N
             /\ (shuffle = false -> perm' = seq 0 N))
    as (perm' & g' & -> & Hperm' & Hseq).
  { unfold Batchify.get_perm. destruct shuffle; simpl.
    - pose proof (np_random_permutation_perm N g) as Hp.
      destruct (np_random_permutation N g) as [p g']. by eexists _, _.
    - by eexists _, _. }
  set (idx := py_slice perm (Some pos) None
              ++ py_slice perm' None (Some (pos + B - Z.of_nat N)%Z)).
  destruct (get_data_ok data x xs N data_leaves same_length idx)
    as (b & Hb & _).
  { apply Forall_app. split; apply py_slice_Forall; by eapply perm_bounded. }
  exists b, perm', g'. unfold bind, lift_result, Batchify.suspend, modify, ret.
  by rewrite Hb.
Qed.

(** The generator suspended in epoch [epoch] at [pos], without cutoff:
    leaf by leaf, the batches put end to end are the rows at the rest
    of the permutation and then at the permutations of the epochs to
    come. *)
Lemma run_epochs_column (B n_epochs : Z) shuffle fuel perm pos epoch g :
  (1 <= B <= Z.of_nat N)%Z -> (1 <= n_epochs)%Z ->
  perm ≡ₚ seq 0 N ->
  (0 <= pos <= Z.of_nat N)%Z -> (0 <= epoch <= n_epochs - 1)%Z ->
  ((n_epochs - 1 - epoch) * Z.of_nat N + (Z.of_nat N - pos)
   < Z.of_nat fuel)%Z ->
  exists bs s' perms,
    Batchify.run data B n_epochs shuffle false fuel
      (Batchify.AtYield perm pos epoch, g)
    = (bs, Batchify.Exhausted, s')
    /\ length perms = Z.to_nat (n_epochs - 1 - epoch)
    /\ Forall (fun p => p ≡ₚ seq 0 N) perms
    /\ (shuffle = false -> Forall (fun p => p = seq 0 N) perms)
    /\ forall j leaf, (x :: xs) !! j = Some leaf ->
         np_take leaf (drop (Z.to_nat pos) perm ++ concat perms)
         = Ok (leaf_column j bs).
Proof using data_leaves same_length.
  intros HB Hn. revert perm pos epoch g.
  induction fuel as [|fuel IH]; intros perm pos epoch g Hperm Hpos Hepoch Hfuel.
  { nia. }
  pose proof (perm_length _ _ Hperm) as Hlen.
  simpl. rewrite (next_AtYield data x xs N data_leaves same_length).
  destruct (Z_le_gt_dec (pos + B) (Z.of_nat N)) as [Hfit|Hover].
  - (* a whole batch inside the epoch *)
    destruct (turn_fits data x xs N data_leaves same_length B n_epochs
                shuffle false perm pos epoch g Hperm)
      as (b & -> & Hb & _); [lia..|].
    destruct (IH perm (pos + B)%Z epoch g Hperm)
      as (bs & s' & perms & -> & Hlp & Hperms & Hseq & Hcol); [lia|lia|nia|].
    exists (b :: bs), s', perms. do 4 (split; [done|]).
    intros j leaf Hj.
    destruct (get_data_column data x xs data_leaves _ _ _ _ Hb Hj)
      as (r & Hr & Htake).
    unfold leaf_column. simpl. rewrite Hr. simpl.
    rewrite py_slice_inside in Htake by lia.
    replace (pos + B - pos)%Z with B in Htake by lia.
    rewrite <- (take_drop (Z.to_nat B) (drop (Z.to_nat pos) perm)).
    rewrite <- app_assoc. apply np_take_app; [done|].
    rewrite drop_drop.
    replace (Z.to_nat pos + Z.to_nat B) with (Z.to_nat (pos + B)) by lia.
    by apply Hcol.
  - destruct (Z.eq_dec epoch (n_epochs - 1)%Z) as [Hlast|Hmore].
    + (* the end of the last epoch *)
      exists (if (pos <? Z.of_nat N)%Z
              then match Batchify.get_data data
                           (py_slice perm (Some pos) None) with
                   | Ok b => [b]
                   | Raise _ => []
                   end
              else []), (Batchify.Finished, g), [].
      unfold Batchify.turn. simpl.
      destruct (Z.leb_spec n_epochs 0); [lia|].
      destruct (Z.ltb_spec epoch (n_epochs - 1)); [lia|]. simpl.
      destruct (Z.ltb_spec pos (Z.of_nat N)) as [Hlt|Hge].
      * destruct (Z.gtb_spec (pos + B) (Z.of_nat N)); [|lia].
        destruct (Z.eqb_spec epoch (n_epochs - 1)); [|done]. simpl.
        destruct (get_data_ok data x xs N data_leaves same_length
                    (py_slice perm (Some pos) None)) as (b & Hb & _).
        { apply py_slice_Forall. by eapply perm_bounded. }
        unfold bind, lift_result, Batchify.suspend, modify, ret.
        rewrite Hb. simpl. destruct fuel as [|fuel]; [lia|]. simpl.
        split; [done|]. split; [lia|]. do 2 (split; [done|]).
        intros j leaf Hj.
        destruct (get_data_column data x xs data_leaves _ _ _ _ Hb Hj)
          as (r & Hr & Htake).
        unfold leaf_column. simpl. rewrite Hr. simpl. rewrite !app_nil_r.
        by rewrite py_slice_from in Htake by lia.
      * split; [done|]. split; [lia|]. do 2 (split; [done|]).
        intros j leaf _. rewrite drop_ge by lia. done.
    + (* a batch across two epochs *)
      destruct (turn_straddle_rows B n_epochs shuffle false perm pos epoch g
                  Hperm)
        as (b & perm' & g' & -> & Hperm' & Hseq' & Hb); [lia..|].
      pose proof (perm_length _ _ Hperm') as Hlen'.
      destruct (IH perm' (pos + B - Z.of_nat N)%Z (epoch + 1)%Z g' Hperm')
        as (bs & s' & perms & -> & Hlp & Hperms & Hseq & Hcol); [lia|lia|nia|].
      exists (b :: bs), s', (perm' :: perms). split; [done|].
      split; [simpl; lia|]. split; [by constructor|].
      split; [intros Hs; constructor; auto|].
      intros j leaf Hj.
      destruct (get_data_column data x xs data_leaves _ _ _ _ Hb Hj)
        as (r & Hr & Htake).
      unfold leaf_column. simpl. rewrite Hr. simpl.
      rewrite py_slice_from, py_slice_upto in Htake by lia.
      rewrite <- (take_drop (Z.to_nat (pos + B - Z.of_nat N)) perm') at 1.
      rewrite <- !app_assoc, (app_assoc (drop _ perm)).
      apply np_take_app; [done|]. by apply Hcol.
Qed.
End BatchifyAllEpochs.

(** X24: with 1 <= batchsize <= N and without cutoff, n_epochs >= 1
    epochs of [batchify] serve every row exactly n_epochs times: for
    every leaf, the batches put end to end are a rearrangement of
    n_epochs copies of the leaf, and are n_epochs copies of the leaf in
    order when shuffle is off. *)
Theorem batchify_serves_every_epoch {A} `{RandomLib} (data : nest (list A))
    (x : list A) (xs : list (list A)) (N : nat) (B n_epochs : Z)
    (shuffle : bool) (g : rng) (fuel : nat) :
  flatten data = x :: xs ->
  Forall (fun y => length y = N) (x :: xs) ->
  (1 <= B <= Z.of_nat N)%Z -> (1 <= n_epochs)%Z ->
  (n_epochs * Z.of_nat N < Z.of_nat fuel)%Z ->
  exists bs s',
    Batchify.run data B n_epochs shuffle false fuel (Batchify.Created, g)
    = (bs, Batchify.Exhausted, s')
    /\ forall j leaf, (x :: xs) !! j = Some leaf ->
         leaf_column j bs ≡ₚ concat (replicate (Z.to_nat n_epochs) leaf)
         /\ (shuffle = false ->
             leaf_column j bs = concat (replicate (Z.to_nat n_epochs) leaf)).
Proof.
  intros Hdata Hsame HB Hn Hfuel.
  set (perm := if shuffle then (np_random_permutation N g).1 else seq 0 N).
  assert (perm ≡ₚ seq 0 N) as Hperm.
  { unfold perm. destruct shuffle; [apply np_random_permutation_perm|done]. }
  destruct fuel as [|fuel]; [nia|].
  destruct (run_epochs_column data x xs N Hdata Hsame B n_epochs shuffle
              (S fuel) perm 0 0
              (if shuffle then (np_random_permutation N g).2 else g))
    as (bs & s' & perms & Hrun & Hlp & Hperms & Hseq & Hcol);
    [lia|lia|done|lia|lia|nia|].
  exists bs, s'. split.
  { rewrite <- Hrun. simpl.
    rewrite (next_Created_perm data x xs N Hdata Hsame).
    by rewrite (next_AtYield data x xs N Hdata Hsame). }
  intros j leaf Hj. specialize (Hcol j leaf Hj). simpl in Hcol.
  rewrite drop_0 in Hcol.
  assert (length leaf = N) as Hleaf.
  { rewrite Forall_lookup in Hsame. by eapply Hsame. }
  destruct (np_take_concat leaf (perm :: perms)) as (r & Hr & Hrp & Hreq).
  { rewrite Hleaf. by constructor. }
  simpl in Hr. rewrite Hcol in Hr. injection Hr as <-.
  replace (length (perm :: perms)) with (Z.to_nat n_epochs) in *
    by (simpl; lia).
  split; [done|]. intros ->. apply Hreq. rewrite Hleaf.
  constructor; [done|auto].
Qed.

Lemma batchify_serves_every_epoch_witness :
  exists bs s',
    Batchify.run Example.three_rows 2 2 true false 7 (Batchify.Created, 7%Z)
    = (bs, Batchify.Exhausted, s')
    /\ forall j leaf, (Example.arange 3 :: []) !! j = Some leaf ->
         leaf_column j bs ≡ₚ concat (replicate (Z.to_nat 2) leaf)
         /\ (true = false ->
             leaf_column j bs = concat (replicate (Z.to_nat 2) leaf)).
Proof.
  apply (@batchify_serves_every_epoch float reference_random
           Example.three_rows (Example.arange 3) [] 3 2 2 true 7%Z 7).
  - reflexivity.
  - repeat constructor.
  - lia.
  - lia.
  - lia.
Defined.

(** ** A construction that splits *)

Section SplitReturns.
Context `{ArrayLib} `{RandomLib}.

Lemma map_result_total {A B} (f : A -> result B) (l : list A) :
  (forall a, exists b, f a = Ok b) -> exists bs, map_result f l = Ok bs.
Proof.
  intros Hf. induction l as [|a l (bs & IH)]; [by exists []|].
  destruct (Hf a) as (b & Hb). exists (b :: bs). simpl. by rewrite Hb, IH.
Qed.

Lemma seed_if_truthy_accepted seed g :
  match seed with
  | Some s => s = 0%Z \/ exists g0, np_random_seed s = Ok g0
  | None => True
  end ->
  exists g0, Dataset.seed_if_truthy seed g = (Ok tt, g0).
Proof.
  destruct seed as [s|]; simpl; [|by exists g].
  unfold Dataset.random_seed.
  destruct (Z.eqb_spec s 0) as [->|Hs]; simpl; [by exists g|].
  intros [?|(g0 & ->)]; [done|]. by exists g0.
Qed.
End SplitReturns.

(** X25: a construction that splits always returns.  Inputs and
    targets with at least one leaf and the same number of rows in all
    leaves, labels nested as the data, a test set that fits, no
    validation set and train_frac above 0 make a dataset whenever the
    seed is None, 0 or accepted by [np.random.seed], n_inputs *
    train_frac can be rounded (it is finite), and the statistics of an
    array can always be taken: gathering the rows of the two parts
    never fails. *)
Theorem split_construction_succeeds `{ArrayLib} `{RandomLib}
    (inputs targets : nest ndarray)
    (test : option (nest ndarray * nest ndarray)) (seed : option Z)
    (train_frac : float) (il tl : option (nest string)) (g : rng)
    (x : ndarray) (rest : list ndarray) (cut : Z) :
  label_fits il inputs -> label_fits tl targets ->
  flatten inputs = x :: rest ->
  Forall (fun y => length y = length x) (flatten inputs ++ flatten targets) ->
  fits inputs targets test ->
  (0 <? train_frac)%float = true ->
  match seed with
  | Some s => s = 0%Z \/ exists g0, np_random_seed s = Ok g0
  | None => True
  end ->
  round_mul (length x) train_frac = Ok cut ->
  (forall y, exists s, Dataset.get_stats y None = Ok s) ->
  exists d g',
    Dataset.init inputs targets test None seed train_frac il tl g = (Ok d, g')
    /\ Dataset.n_train_samples d = Ok (Z.to_nat cut `min` length x)
    /\ Dataset.n_validation_samples d
       = Ok (length x - Z.to_nat cut `min` length x).
Proof.
  intros Hil Htl Hflat Hall Htest Hfrac Hseed Hcut Hstats.
  destruct (init_checked inputs targets il tl x rest Hil Htl Hflat Hall)
    as (il' & tl' & istr & tstr & Hsi & Hst & ->).
  unfold bind at 1. unfold lift_result at 1.
  rewrite (verify_optional_fits _ inputs targets) by (done || by rewrite Hflat).
  unfold bind at 1. unfold lift_result at 1. simpl Dataset.verify_optional.
  cbv iota.
  destruct (seed_if_truthy_accepted seed g Hseed) as (g0 & Hg0).
  pose proof (np_random_permutation_perm (length x) g0) as Hperm.
  pose proof (round_mul_nonneg _ _ _ Hfrac Hcut) as Hpos.
  set (perm := (np_random_permutation (length x) g0).1) in *.
  set (tr := sorted (py_slice perm None (Some cut))).
  set (va := sorted (py_slice perm (Some cut) None)).
  assert (Forall (fun i => i < length x) tr) as Htr.
  { unfold tr. rewrite sorted_Permutation.
    by apply py_slice_Forall, perm_bounded. }
  assert (Forall (fun i => i < length x) va) as Hva.
  { unfold va. rewrite sorted_Permutation.
    by apply py_slice_Forall, perm_bounded. }
  apply Forall_app in Hall as [Hin Htg].
  destruct (gather_ok _ _ va Hin Hva) as (vi & Hvi & Hlvi & Hrvi).
  destruct (gather_ok _ _ va Htg Hva) as (vt & Hvt & _).
  destruct (gather_ok _ _ tr Hin Htr) as (ti & Hti & Hlti & Hrti).
  destruct (gather_ok _ _ tr Htg Htr) as (tt' & Htt & _).
  assert (Dataset.prepare_validation (flatten inputs) (flatten targets)
            (length x) None seed train_frac g
          = (Ok {| Dataset.p_train_idx := Some tr;
                   Dataset.p_validation_idx := Some va;
                   Dataset.p_train_inputs := ti;
                   Dataset.p_train_targets := tt';
                   Dataset.p_validation := Some (vi, vt) |},
             (np_random_permutation (length x) g0).2)) as Hprep.
  { unfold Dataset.prepare_validation. simpl. rewrite Hfrac.
    unfold bind at 1. rewrite Hg0.
    unfold bind at 1. unfold Dataset.random_permutation.
    subst tr va perm.
    destruct (np_random_permutation (length x) g0) as [p g1] eqn:Hp.
    simpl in *. unfold bind, lift_result. rewrite Hcut.
    by rewrite Hvi, Hvt, Hti, Htt. }
  unfold bind at 1. rewrite Hprep.
  rewrite Hflat in Hlti, Hlvi.
  destruct ti as [|t0 ti]; [done|]. destruct vi as [|v0 vi]; [done|].
  destruct (map_result_total (fun y => Dataset.get_stats y None) (t0 :: ti)
              Hstats) as (stats & Hst').
  erewrite finish_init_returns; [|reflexivity|exact Hst'].
  eexists _, _. split; [reflexivity|].
  unfold Dataset.n_train_samples, Dataset.n_validation_samples. simpl.
  apply Forall_cons in Hrti as [-> _]. apply Forall_cons in Hrvi as [-> _].
  unfold tr, va.
  rewrite !sorted_Permutation, py_slice_upto_length, py_slice_from_length
    by done.
  rewrite (perm_length _ _ Hperm). split; f_equal. lia.
Qed.

Lemma split_construction_succeeds_witness :
  exists d g',
    Dataset.init (Example.tuple_of 4) (Leaf (Example.arange 4))
      (Some (Example.tuple_of 2, Leaf (Example.arange 2))) None (Some 42%Z)
      0.5%float None None 3%Z = (Ok d, g')
    /\ Dataset.n_train_samples d
       = Ok (Z.to_nat 2 `min` length (Example.arange 4))
    /\ Dataset.n_validation_samples d
       = Ok (length (Example.arange 4)
             - Z.to_nat 2 `min` length (Example.arange 4)).
Proof.
  apply (@split_construction_succeeds reference_array reference_random
           (Example.tuple_of 4) (Leaf (Example.arange 4))
           (Some (Example.tuple_of 2, Leaf (Example.arange 2))) (Some 42%Z)
           0.5%float None None 3%Z (Example.arange 4) [Example.arange 4]
           2%Z).
  - exact I.
  - exact I.
  - reflexivity.
  - repeat constructor.
  - split; [reflexivity|]. split; [reflexivity|].
    exists 2. repeat constructor.
  - reflexivity.
  - right. by exists 42%Z.
  - vm_compute. reflexivity.
  - intros y. eexists. reflexivity.
Defined.

(** ** A dataset held twice *)

(** X26: a [MultiDataset] holds objects, not copies.  When the same
    dataset is given twice, one call of [minibatch(b)] advances its
    cursor twice: the two batches returned are the rows at two
    consecutive slices of the permutation, which share no index, and
    the dataset is left 2 * b further in its epoch. *)
Theorem multi_same_dataset_twice `{ArrayLib} `{RandomLib}
    (h : MultiDataset.heap) (g : rng) (l n : nat) (o : Dataset.t) (b : Z) :
  h !! l = Some o -> in_epoch n o -> (0 <= b)%Z ->
  (Dataset.minibatch_idx o + 2 * b <= Z.of_nat n)%Z ->
  let c := Dataset.minibatch_idx o in
  let first := py_slice (Dataset.train_perm o) (Some c) (Some (c + b)%Z) in
  let second :=
    py_slice (Dataset.train_perm o) (Some (c + b)%Z) (Some (c + b + b)%Z) in
  exists bi1 bt1 bi2 bt2,
    MultiDataset.minibatch (MultiDataset.init [l; l]) b (h, g)
    = (Ok ([bi1; bi2], [bt1; bt2]),
       (<[l := Dataset.set_cursor (c + b + b) (Dataset.train_perm o)
                 (Some second) o]> h, g))
    /\ map_result (fun x => np_take x first) (Dataset._train_inputs o)
       = Ok (flatten bi1)
    /\ map_result (fun x => np_take x second) (Dataset._train_inputs o)
       = Ok (flatten bi2)
    /\ map_result (fun x => np_take x first) (Dataset._train_targets o)
       = Ok (flatten bt1)
    /\ map_result (fun x => np_take x second) (Dataset._train_targets o)
       = Ok (flatten bt2)
    /\ (forall i, i ∈ first -> i ∉ second).
Proof.
  intros Hl [Hwf Hcur] Hb Hroom c first second.
  assert (l < length h) as Hlt by (by eapply lookup_lt_Some).
  pose proof (perm_length _ _ (wf_perm _ _ Hwf)) as Hlen.
  destruct (minibatch_served n o g b Hwf ltac:(lia))
    as (bi1 & bt1 & Hrun1 & Hxs1 & Hts1 & _).
  destruct (Z.gtb_spec (Dataset.minibatch_idx o + b) (Z.of_nat n)) as [|_];
    [lia|].
  fold c first in Hrun1, Hxs1, Hts1.
  set (o1 := Dataset.set_cursor (c + b) (Dataset.train_perm o) (Some first) o)
    in *.
  assert (well_formed n o1) as Hwf1.
  { apply well_formed_set_cursor; [done|apply Hwf]. }
  destruct (minibatch_served n o1 g b Hwf1 ltac:(lia))
    as (bi2 & bt2 & Hrun2 & Hxs2 & Hts2 & _).
  simpl in Hrun2, Hxs2, Hts2.
  destruct (Z.gtb_spec (c + b + b) (Z.of_nat n)) as [|_]; [lia|].
  fold second in Hrun2, Hxs2, Hts2.
  assert (MultiDataset.n_train_samples (MultiDataset.init [l; l]) (h, g)
          = (Ok n, (h, g))) as Hread.
  { unfold MultiDataset.n_train_samples, bind.
    rewrite (read_all _ _ h g [n; n]).
    - unfold lift_result. simpl. by rewrite Nat.min_id.
    - repeat constructor; exists o; by rewrite (n_train_samples_wf n). }
  assert (mapM_ (fun d => MultiDataset.call d (Dataset.minibatch b)) [l; l]
            (h, g)
          = (Ok [(bi1, bt1); (bi2, bt2)],
             (<[l := Dataset.set_cursor (c + b + b) (Dataset.train_perm o)
                       (Some second) o]> h, g))) as Hcalls.
  { simpl. unfold bind at 1. unfold MultiDataset.call at 1. simpl.
    rewrite Hl, Hrun1.
    unfold bind at 1. unfold bind at 1. unfold MultiDataset.call at 1. simpl.
    rewrite list_lookup_insert_eq by done. rewrite Hrun2.
    unfold bind, ret. simpl. by rewrite list_insert_insert_eq. }
  exists bi1, bt1, bi2, bt2. split.
  { unfold MultiDataset.minibatch, bind. rewrite Hread.
    destruct (Z.gtb_spec b (Z.of_nat n)); [lia|].
    cbn [MultiDataset._datasets MultiDataset.init]. by rewrite Hcalls. }
  do 4 (split; [done|]).
  intros i Hfirst Hsecond.
  assert (NoDup (first ++ second)) as Hnd.
  { assert (first ++ second
            = take (Z.to_nat b + Z.to_nat b)
                (drop (Z.to_nat c) (Dataset.train_perm o))) as ->.
    { unfold first, second. rewrite !py_slice_inside by lia.
      replace (c + b - c)%Z with b by lia.
      replace (c + b + b - (c + b))%Z with b by lia.
      replace (Z.to_nat (c + b)) with (Z.to_nat c + Z.to_nat b) by lia.
      rewrite <- drop_drop. apply take_take_drop. }
    eapply sublist_NoDup; [|etrans; [apply sublist_take|apply sublist_drop]].
    rewrite (wf_perm _ _ Hwf). apply NoDup_seq. }
  apply NoDup_app in Hnd as (_ & Hdisj & _). by eapply Hdisj.
Qed.

Lemma multi_same_dataset_twice_witness :
  let o := Example.built 10 0%float 5 in
  let c := Dataset.minibatch_idx o in
  let first := py_slice (Dataset.train_perm o) (Some c) (Some (c + 3)%Z) in
  let second :=
    py_slice (Dataset.train_perm o) (Some (c + 3)%Z) (Some (c + 3 + 3)%Z) in
  exists bi1 bt1 bi2 bt2,
    MultiDataset.minibatch (MultiDataset.init [0; 0]) 3
      (Example.two_datasets, 1%Z)
    = (Ok ([bi1; bi2], [bt1; bt2]),
       (<[0 := Dataset.set_cursor (c + 3 + 3) (Dataset.train_perm o)
                 (Some second) o]> Example.two_datasets, 1%Z))
    /\ map_result (fun x => np_take x first) (Dataset._train_inputs o)
       = Ok (flatten bi1)
    /\ map_result (fun x => np_take x second) (Dataset._train_inputs o)
       = Ok (flatten bi2)
    /\ map_result (fun x => np_take x first) (Dataset._train_targets o)
       = Ok (flatten bt1)
    /\ map_result (fun x => np_take x second) (Dataset._train_targets o)
       = Ok (flatten bt2)
    /\ (forall i, i ∈ first -> i ∉ second).
Proof.
  apply (@multi_same_dataset_twice reference_array reference_random
           Example.two_datasets 1%Z 0 10 (Example.built 10 0%float 5) 3).
  - reflexivity.
  - split; [constructor|].
    + vm_compute. discriminate.
    + vm_compute. repeat constructor.
    + vm_compute. repeat constructor.
    + vm_compute. reflexivity.
    + vm_compute. reflexivity.
    + apply (bool_decide_unpack _). vm_compute. exact I.
    + vm_compute. split; discriminate.
  - lia.
  - vm_compute. discriminate.
Defined.

(** ** Normalizing several datasets *)

Lemma same_structure_of_list {A B} (xs : list A) (ys : list B) :
  length xs = length ys -> same_structure (of_list xs) (of_list ys) = true.
Proof.
  unfold of_list. rewrite same_structure_Node. intros Hlen. split; [done|].
  revert ys Hlen. induction xs as [|x xs IH]; intros [|y ys] Hlen;
    simpl in *; try done; constructor; [done|].
  apply IH. lia.
Qed.

Lemma pack_of_list {A B} (xs : list A) (ys : list B) t :
  pack_sequence_as (of_list xs) ys = Ok t -> t = of_list ys.
Proof.
  intros Hpack. pose proof Hpack as Hlen. unfold pack_sequence_as in Hlen.
  rewrite flatten_of_list in Hlen.
  destruct (Nat.eqb_spec (length xs) (length ys)) as [Hlen'|]; [|done].
  rewrite <- (flatten_of_list ys) in Hpack at 1.
  rewrite pack_flatten_like in Hpack by (by apply same_structure_of_list).
  by injection Hpack as <-.
Qed.

Section MultiNormalize.
Context `{ArrayLib} `{RandomLib}.

(** A call of [normalize] that returned: the normalizer it left maps
    the training inputs it found to those it left, and the generator is
    as before. *)
Lemma normalize_train_Ok ax ctl d g d' g' :
  Dataset.normalize ax ctl (d, g) = (Ok tt, (d', g')) ->
  Dataset.apply_normalizer (Dataset.normalizer d')
    (of_list (Dataset._train_inputs d))
  = Ok (of_list (Dataset._train_inputs d'))
  /\ g' = g.
Proof.
  intros Hrun.
  assert (keeps (fun s => s.2) (Dataset.normalize ax ctl)) as Hg.
  { unfold Dataset.normalize. repeat keeps_step. }
  specialize (Hg (d, g)). rewrite Hrun in Hg. simpl in Hg. split; [|done].
  unfold Dataset.normalize in Hrun.
  apply bind_Ok in Hrun as ([] & [d1 g1] & Hstats & Hrun).
  apply update_stats_Ok in Hstats as (stats & Hstats & -> & ->).
  unfold bind, Dataset.self, gets, Dataset.assign, modify, lift_result, ret
    in Hrun.
  simpl in Hrun.
  set (c := {| Dataset.inputs_mean := map (fun s => s.1.1.1) stats;
               Dataset.inputs_std := map (fun s => s.1.1.2) stats;
               Dataset.control :=
                 match ctl with
                 | None => replicate (length (Dataset._train_inputs d)) true
                 | Some c => flatten c
                 end |}) in *.
  destruct (Dataset.normalize_inputs c (of_list (Dataset._train_inputs d)))
    as [train'|] eqn:Htrain; [|done].
  simpl in Hrun.
  assert (train' = of_list (flatten train')) as Hshape.
  { unfold Dataset.normalize_inputs in Htrain.
    apply rbind_Ok in Htrain as (ys & _ & Hpack).
    pose proof (pack_of_list _ _ _ Hpack) as ->.
    by rewrite flatten_of_list. }
  assert (exists d2,
             Dataset._train_inputs d2 = flatten train'
             /\ Dataset.normalizer d2 = Some c
             /\ Dataset.update_stats ax (d2, g) = (Ok tt, (d', g')))
    as (d2 & Htr & Hnorm & Hlast).
  { destruct (Dataset._test_inputs d) as [test|]; simpl in Hrun.
    - destruct (Dataset.normalize_inputs c (of_list test)) as [test'|];
        [|done]. simpl in Hrun.
      destruct (Dataset._validation_inputs d) as [validation|];
        simpl in Hrun.
      + destruct (Dataset.normalize_inputs c (of_list validation))
          as [validation'|]; [|done]. simpl in Hrun.
        by refine (ex_intro _ _ (conj _ (conj _ Hrun))).
      + by refine (ex_intro _ _ (conj _ (conj _ Hrun))).
    - destruct (Dataset._validation_inputs d) as [validation|];
        simpl in Hrun.
      + destruct (Dataset.normalize_inputs c (of_list validation))
          as [validation'|]; [|done]. simpl in Hrun.
        by refine (ex_intro _ _ (conj _ (conj _ Hrun))).
      + by refine (ex_intro _ _ (conj _ (conj _ Hrun))). }
  apply update_stats_Ok in Hlast as (stats' & _ & -> & _). simpl.
  rewrite Hnorm, Htr. simpl. by rewrite Htrain, <- Hshape.
Qed.

(** The loop of [MultiDataset.normalize] over datasets that are all
    different. *)
Lemma mapM_normalize ax ds (h : MultiDataset.heap) g rs h' g' :
  NoDup ds ->
  mapM_ (fun d => MultiDataset.call d (Dataset.normalize ax None) ;;;
                  MultiDataset.read (fun o => Ok (Dataset.normalizer o)) d)
    ds (h, g) = (Ok rs, (h', g')) ->
  exists olds news,
    Forall2 (fun l o => h !! l = Some o) ds olds
    /\ Forall2 (fun l o' => h' !! l = Some o') ds news
    /\ Forall2 (fun o o' =>
                  Dataset.normalize ax None (o, g) = (Ok tt, (o', g)))
         olds news
    /\ rs = map Dataset.normalizer news
    /\ g' = g
    /\ forall l, l ∉ ds -> h' !! l = h !! l.
Proof.
  revert h rs. induction ds as [|l ds IH]; intros h rs Hnd Hrun.
  { injection Hrun as <- <- <-. by exists [], []. }
  apply NoDup_cons in Hnd as [Hl Hnd].
  simpl in Hrun. apply bind_Ok in Hrun as (n & [h1 g1] & Hcall & Hrun).
  apply bind_Ok in Hrun as (rs' & [h2 g2] & Hrest & Hret).
  injection Hret as <- <- <-.
  apply bind_Ok in Hcall as ([] & [h0 g0] & Hnorm & Hread).
  unfold MultiDataset.call in Hnorm. simpl in Hnorm.
  destruct (h !! l) as [o|] eqn:Ho; [|done].
  destruct (Dataset.normalize ax None (o, g)) as [r [o1 g1']] eqn:Hn.
  injection Hnorm as -> <- <-.
  pose proof (normalize_train_Ok _ _ _ _ _ _ Hn) as [_ ->].
  assert (l < length h) as Hlt by (by eapply lookup_lt_Some).
  rewrite (read_at _ l _ _ o1) in Hread by (by rewrite list_lookup_insert_eq).
  injection Hread as <- <- <-.
  destruct (IH _ _ Hnd Hrest)
    as (olds & news & Holds & Hnews & Hall & -> & -> & Hframe).
  exists (o :: olds), (o1 :: news). split.
  { constructor; [done|]. clear -Holds Hl.
    induction Holds as [|l' o' ds olds Hl' _ IH]; constructor.
    - rewrite list_lookup_insert_ne in Hl'; [done|].
      intros ->. apply Hl. by left.
    - apply IH. intros Hin. apply Hl. by right. }
  split.
  { constructor; [|done]. rewrite Hframe by done.
    by rewrite list_lookup_insert_eq. }
  split; [by constructor|]. do 2 (split; [done|]).
  intros l' Hl'. apply not_elem_of_cons in Hl' as [Hne Hl'].
  rewrite Hframe by done. by rewrite list_lookup_insert_ne.
Qed.
End MultiNormalize.

(** X27: [MultiDataset.normalize] over datasets that are all different
    normalizes each of them once, with no control, and keeps their
    normalizers in the order of the datasets.  When it returns,
    [normalizer] applied to the list of the training inputs the
    datasets had gives the list of the training inputs they have now;
    datasets that are not held and the random generator are as
    before. *)
Theorem multi_normalize_spec `{ArrayLib} `{RandomLib} (md md' : MultiDataset.t)
    (h h' : MultiDataset.heap) (g g' : rng) (ax : option axis) :
  NoDup (MultiDataset._datasets md) ->
  MultiDataset.normalize md ax (h, g) = (Ok md', (h', g')) ->
  exists olds news ns,
    Forall2 (fun l o => h !! l = Some o) (MultiDataset._datasets md) olds
    /\ Forall2 (fun l o' => h' !! l = Some o') (MultiDataset._datasets md) news
    /\ Forall2 (fun o o' =>
                  Dataset.normalize ax None (o, g) = (Ok tt, (o', g)))
         olds news
    /\ MultiDataset.normalizer md' = Some ns
    /\ ns = map Dataset.normalizer news
    /\ MultiDataset.normalize_all ns
         (map (fun o => of_list (Dataset._train_inputs o)) olds)
       = Ok (map (fun o' => of_list (Dataset._train_inputs o')) news)
    /\ MultiDataset._datasets md' = MultiDataset._datasets md
    /\ g' = g
    /\ forall l, l ∉ MultiDataset._datasets md -> h' !! l = h !! l.
Proof.
  intros Hnd Hrun. unfold MultiDataset.normalize in Hrun.
  apply bind_Ok in Hrun as (ns & [h1 g1] & Hloop & Hret).
  injection Hret as <- <- <-.
  apply mapM_normalize in Hloop
    as (olds & news & Holds & Hnews & Hall & -> & -> & Hframe); [|done].
  exists olds, news, (map Dataset.normalizer news).
  do 5 (split; [done|]). split; [|done].
  clear -Hall. induction Hall as [|o o' olds news Hn _ IH]; [done|].
  apply normalize_train_Ok in Hn as [Hn _]. simpl. by rewrite Hn, IH.
Qed.

Lemma multi_normalize_spec_witness :
  exists olds news ns,
    Forall2 (fun l o => Example.two_datasets !! l = Some o)
      (MultiDataset._datasets Example.multi) olds
    /\ Forall2 (fun l o' => Example.multi_normalized.2.1 !! l = Some o')
         (MultiDataset._datasets Example.multi) news
    /\ Forall2 (fun o o' =>
                  Dataset.normalize None None (o, 1%Z) = (Ok tt, (o', 1%Z)))
         olds news
    /\ MultiDataset.normalizer Example.multi_normalized.1 = Some ns
    /\ ns = map Dataset.normalizer news
    /\ MultiDataset.normalize_all ns
         (map (fun o => of_list (Dataset._train_inputs o)) olds)
       = Ok (map (fun o' => of_list (Dataset._train_inputs o')) news)
    /\ MultiDataset._datasets Example.multi_normalized.1
       = MultiDataset._datasets Example.multi
    /\ Example.multi_normalized.2.2 = 1%Z
    /\ forall l, l ∉ MultiDataset._datasets Example.multi ->
         Example.multi_normalized.2.1 !! l = Example.two_datasets !! l.
Proof.
  apply (@multi_normalize_spec reference_array reference_random
           Example.multi Example.multi_normalized.1
           Example.two_datasets Example.multi_normalized.2.1
           1%Z Example.multi_normalized.2.2 None).
  - apply (bool_decide_unpack _). vm_compute. exact I.
  - vm_compute. reflexivity.
Defined.
